(** * AI-Sales: the purchase ledger, customer directory, product catalog
      and reporting facade, embedded from [db.py], [config.py],
      [llm_client.py] and [monitoring.py], with the table printer of
      [ui.py] and the product choice of [sales_agent.py].

    Modelling conventions.
    - A SQLite rowid table is a finite map from the integer primary key to
      the row ([gmap Z row]); an [AUTOINCREMENT] table carries the counter
      that SQLite keeps in [sqlite_sequence].
    - A nullable column is an [option]; a [NOT NULL] column is not, and an
      insert or update that would put NULL there raises [IntegrityError].
    - Python's [float] is a rational number or one of the three special
      values: rounding and overflow of binary64 are abstracted (arithmetic
      is exact), infinities and NaN are kept.
    - A Python [str] is its sequence of bytes; [str.strip] and [float]
      strip the ASCII white space.
    - The clock ([_now()]), SQLite's date functions and its [LIKE] are
      inputs.
    - A read operation whose [float] or [int] conversions can raise
      returns an [option]: [None] is raising. *)

From Stdlib Require Import Ascii String QArith.
From stdpp Require Import prelude gmap strings sorting.

Local Open Scope Z_scope.
#[local] Set Warnings "-clear-no-such-hyp".

(** ** Python values *)

Module Py.

Inductive exn := ValueError | TypeError | IntegrityError.

Inductive result (A : Type) :=
| Ok (a : A)
| Raise (e : exn).
Arguments Ok {A} a.
Arguments Raise {A} e.

#[global] Instance result_ret : MRet result := @Ok.
#[global] Instance result_bind : MBind result := λ A B k m,
  match m with
  | Ok a => k a
  | Raise e => Raise e
  end.

(** [float]: exact rationals with the IEEE special values. *)
Inductive float :=
| Fin (q : Q)
| PInf
| NInf
| NaN.

Definition zero : float := Fin 0.
Definition one : float := Fin 1.

Definition is_nan (x : float) : bool :=
  match x with NaN => true | _ => false end.

Definition Qltb (a b : Q) : bool := negb (Qle_bool b a).

Definition fneg (x : float) : float :=
  match x with
  | Fin q => Fin (- q)
  | PInf => NInf
  | NInf => PInf
  | NaN => NaN
  end.

Definition fadd (x y : float) : float :=
  match x, y with
  | NaN, _ | _, NaN => NaN
  | Fin a, Fin b => Fin (a + b)
  | PInf, NInf | NInf, PInf => NaN
  | PInf, _ | _, PInf => PInf
  | NInf, _ | _, NInf => NInf
  end.

Definition fsub (x y : float) : float := fadd x (fneg y).

(** An infinity times a finite number: the sign rule, NaN at zero. *)
Definition inf_times (pos : bool) (q : Q) : float :=
  if Qeq_bool q 0 then NaN
  else if xorb pos (Qltb q 0) then PInf else NInf.

Definition fmul (x y : float) : float :=
  match x, y with
  | NaN, _ | _, NaN => NaN
  | Fin a, Fin b => Fin (a * b)
  | PInf, Fin b => inf_times true b
  | NInf, Fin b => inf_times false b
  | Fin a, PInf => inf_times true a
  | Fin a, NInf => inf_times false a
  | PInf, PInf | NInf, NInf => PInf
  | PInf, NInf | NInf, PInf => NInf
  end.

(** [x / n] for a row count [n > 0] (SQLite's AVG). *)
Definition fdiv_count (x : float) (n : nat) : float :=
  match x with
  | Fin a => Fin (a / inject_Z (Z.of_nat n))
  | _ => x
  end.

(** [x < y] and [x <= y]: false whenever NaN is involved. *)
Definition flt (x y : float) : bool :=
  match x, y with
  | NaN, _ | _, NaN => false
  | Fin a, Fin b => Qltb a b
  | PInf, _ | _, NInf => false
  | NInf, _ | _, PInf => true
  end.

Definition fle (x y : float) : bool :=
  match x, y with
  | NaN, _ | _, NaN => false
  | Fin a, Fin b => Qle_bool a b
  | NInf, _ | _, PInf => true
  | PInf, _ | _, NInf => false
  end.

(** The builtin [max(a, b)] of two arguments: the first one unless the
    second is strictly greater. *)
Definition max (a b : float) : float := if flt a b then b else a.

(** The values the store operations receive. *)
Inductive value :=
| None_
| Bool (b : bool)
| Int (z : Z)
| Float (x : float)
| Str (s : string).

Definition is_none (v : value) : bool :=
  match v with None_ => true | _ => false end.

(** Truth value of an object ([if v], [v or d], [not v]). *)
Definition truthy (v : value) : bool :=
  match v with
  | None_ => false
  | Bool b => b
  | Int z => negb (z =? 0)
  | Float (Fin q) => negb (Qeq_bool q 0)
  | Float _ => true
  | Str s => negb (String.eqb s EmptyString)
  end.

(** *** [str.strip()] *)

Definition is_space (c : ascii) : bool :=
  let n := nat_of_ascii c in
  ((9 <=? n) && (n <=? 13) || (28 <=? n) && (n <=? 32))%nat.

Fixpoint lstrip (l : list ascii) : list ascii :=
  match l with
  | c :: l' => if is_space c then lstrip l' else l
  | [] => []
  end.

Definition strip_chars (l : list ascii) : list ascii :=
  rev (lstrip (rev (lstrip l))).

Definition strip (s : string) : string :=
  string_of_list_ascii (strip_chars (list_ascii_of_string s)).

(** *** [float(str)]

    The grammar of the language reference:
    [[sign] (floatnumber | "inf" | "infinity" | "nan")] between optional
    white space, with
    [digitpart ::= digit (["_"] digit)*],
    [number ::= [digitpart] "." digitpart | digitpart ["."]] and
    [exponent ::= ("e" | "E") [sign] digitpart]. *)

Definition digit_of (c : ascii) : option Z :=
  let n := Z.of_nat (nat_of_ascii c) in
  if (48 <=? n) && (n <=? 57) then Some (n - 48) else None.

Definition is_char (c : ascii) (n : nat) : bool := (nat_of_ascii c =? n)%nat.

(** The rest of a digitpart: [(["_"] digit)*]; [acc] is the number read so
    far and [k] counts its digits. *)
Fixpoint digits_more (l : list ascii) (acc : Z) (k : nat)
  : Z * nat * list ascii :=
  match l with
  | c :: l' =>
      match digit_of c with
      | Some d => digits_more l' (10 * acc + d) (S k)
      | None =>
          if is_char c 95 then
            match l' with
            | c' :: l'' =>
                match digit_of c' with
                | Some d => digits_more l'' (10 * acc + d) (S k)
                | None => (acc, k, l)
                end
            | [] => (acc, k, l)
            end
          else (acc, k, l)
      end
  | [] => (acc, k, l)
  end.

Definition digitpart (l : list ascii) (acc : Z) (k : nat)
  : option (Z * nat * list ascii) :=
  match l with
  | c :: l' =>
      match digit_of c with
      | Some d => Some (digits_more l' (10 * acc + d) (S k))
      | None => None
      end
  | [] => None
  end.

(** [[sign]]: true for a minus sign. *)
Definition sign (l : list ascii) : bool * list ascii :=
  match l with
  | c :: l' =>
      if is_char c 45 then (true, l')
      else if is_char c 43 then (false, l')
      else (false, l)
  | [] => (false, l)
  end.

(** [number]: the mantissa as an integer and the count of its fraction
    digits. *)
Definition number (l : list ascii) : option (Z * nat * list ascii) :=
  match digitpart l 0 0 with
  | Some (m, _, rest) =>
      match rest with
      | c :: rest' =>
          if is_char c 46 then
            match digitpart rest' m 0 with
            | Some r => Some r
            | None => Some (m, 0%nat, rest')
            end
          else Some (m, 0%nat, rest)
      | [] => Some (m, 0%nat, rest)
      end
  | None =>
      match l with
      | c :: l' => if is_char c 46 then digitpart l' 0 0 else None
      | [] => None
      end
  end.

(** [[exponent]] then the end of the text. *)
Definition exponent (l : list ascii) : option Z :=
  match l with
  | [] => Some 0
  | c :: l' =>
      if is_char c 101 || is_char c 69 then
        let '(neg, l'') := sign l' in
        match digitpart l'' 0 0 with
        | Some (e, _, []) => Some (if neg then - e else e)
        | _ => None
        end
      else None
  end.

(** [m * 10 ^ e] as a rational. *)
Definition scale10 (m e : Z) : Q :=
  if 0 <=? e then inject_Z (m * 10 ^ e)
  else Qred (m # Z.to_pos (10 ^ (- e))).

Definition lower (c : ascii) : ascii :=
  let n := nat_of_ascii c in
  if ((65 <=? n) && (n <=? 90))%nat then ascii_of_nat (n + 32) else c.

Definition word_is (l : list ascii) (w : string) : bool :=
  String.eqb (string_of_list_ascii (map lower l)) w.

Definition float_of_str (s : string) : option float :=
  let '(neg, l) := sign (strip_chars (list_ascii_of_string s)) in
  if word_is l "inf" || word_is l "infinity" then
    Some (if neg then NInf else PInf)
  else if word_is l "nan" then Some NaN
  else
    match number l with
    | Some (m, f, rest) =>
        match exponent rest with
        | Some e =>
            let q := scale10 m (e - Z.of_nat f) in
            Some (Fin (if neg then - q else q))
        | None => None
        end
    | None => None
    end.

(** The builtin [float(v)]. *)
Definition to_float (v : value) : result float :=
  match v with
  | None_ => Raise TypeError
  | Bool b => Ok (if b then one else zero)
  | Int z => Ok (Fin (inject_Z z))
  | Float x => Ok x
  | Str s =>
      match float_of_str s with
      | Some x => Ok x
      | None => Raise ValueError
      end
  end.

(** [try: float(v) / except ValueError: d]; any other exception
    propagates. *)
Definition float_or (v : value) (d : float) : result float :=
  match to_float v with
  | Raise ValueError => Ok d
  | r => r
  end.

(** [s or d] for a text argument that may be [None]. *)
Definition str_or (s : option string) (d : string) : string :=
  match s with
  | Some (String c r) => String c r
  | _ => d
  end.

End Py.

(** ** [config.py]: the settings the stores read *)

(** The attributes of [Config] that the stores and the report read, as
    they are once the module is loaded: the integers are what [int(...)]
    returned, [LLM_PROVIDER] is already in lower case. *)
Record Config := {
  MAX_RECENT_PURCHASES : Z;
  DEFAULT_CURRENCY : string;
  DAILY_SALES_TARGET : Z;
  LOW_SALES_THRESHOLD : Z;
  LLM_PROVIDER : string;
  API_KEY : string;
  LLM_ENDPOINT : string;
  LLM_MODEL : string;
}.

(** ** SQLite: values, aggregates, transactions *)

Module Sql.

(** Binding a Python float to a statement: NaN is stored as NULL. *)
Definition real (x : Py.float) : option Py.float :=
  if Py.is_nan x then None else Some x.

(** [COALESCE(v1, v2, ...)]: the first argument that is not NULL. *)
Fixpoint coalesce {A} (vs : list (option A)) : option A :=
  match vs with
  | Some v :: _ => Some v
  | None :: vs' => coalesce vs'
  | [] => None
  end.

(** [NULLIF(x, '')]. *)
Definition nullif_empty (x : string) : option string :=
  if String.eqb x EmptyString then None else Some x.

(** [SUM] and [AVG] of a column of reals: NULL values are skipped, and
    the aggregate of no value is NULL. *)
Definition non_null {A} (vs : list (option A)) : list A := omap id vs.

Definition sum (vs : list (option Py.float)) : option Py.float :=
  match non_null vs with
  | [] => None
  | x :: xs => real (foldl Py.fadd x xs)
  end.

Definition avg (vs : list (option Py.float)) : option Py.float :=
  match non_null vs with
  | [] => None
  | x :: xs => real (Py.fdiv_count (foldl Py.fadd x xs) (S (length xs)))
  end.

(** [LIMIT n]: a negative limit is no limit. *)
Definition limit {A} (n : Z) (l : list A) : list A :=
  if n <? 0 then l else take (Z.to_nat n) l.

(** The rowids of a table, ascending (the order of a table scan) and
    descending ([ORDER BY id DESC]). *)
Definition rowids {A} (m : gmap Z A) : list Z :=
  merge_sort Z.le (elements (dom m)).

Definition rowids_desc {A} (m : gmap Z A) : list Z := reverse (rowids m).

(** The rows of a table in scan order. *)
Definition scan {A} (m : gmap Z A) : list (Z * A) :=
  omap (λ k, (k,.) <$> m !! k) (rowids m).

(** An [INTEGER PRIMARY KEY AUTOINCREMENT] table: the rows and the largest
    rowid ever given out ([sqlite_sequence]). *)
Record table (A : Type) := Table { rows : gmap Z A; seq : Z }.
Arguments Table {A} rows seq.
Arguments rows {A} t.
Arguments seq {A} t.

(** The rowid of the next insert: one more than the largest rowid that is
    or ever was in the table. *)
Definition next_rowid {A} (t : table A) : Z :=
  foldr Z.max (seq t) (elements (dom (rows t))) + 1.

Definition insert {A} (r : A) (t : table A) : table A :=
  let k := next_rowid t in Table (<[k := r]> (rows t)) k.

(** A connection of the [sqlite3] module: the database as committed, and
    the view of the transaction that the first INSERT, UPDATE or DELETE
    opens implicitly. Other connections read [committed]. *)
Record connection (D : Type) := Connection { committed : D; pending : option D }.
Arguments Connection {D} committed pending.
Arguments committed {D} c.
Arguments pending {D} c.

Definition connect {D} (d : D) : connection D := Connection d None.

Definition view {D} (c : connection D) : D := default (committed c) (pending c).

(** [conn.execute(stmt)]: a statement that raises changes nothing. *)
Definition execute {D} (stmt : D → Py.result D) (c : connection D)
  : Py.result (connection D) :=
  d ← stmt (view c); mret (Connection (committed c) (Some d)).

Definition commit {D} (c : connection D) : connection D :=
  Connection (view c) None.

Definition rollback {D} (c : connection D) : connection D :=
  Connection (committed c) None.

End Sql.

(** ** [db.py]: [PurchaseDB] *)

Module PurchaseDB.
Import Sql.

(** A row of [purchases]; the columns declared [NOT NULL] are
    [timestamp], [customer], [product], [amount] and [status]. *)
Record purchase := {
  timestamp : option string;
  customer : option string;
  customer_email : option string;
  product : option string;
  amount : option Py.float;
  quantity : option Py.float;
  unit_price : option Py.float;
  subtotal : option Py.float;
  discount : option Py.float;
  tax : option Py.float;
  total : option Py.float;
  currency : option string;
  status : option string;
  payment_status : option string;
  fulfillment_status : option string;
  payment_method : option string;
  channel : option string;
  source : option string;
  region : option string;
  sales_rep : option string;
  invoice_id : option string;
  tags : option string;
  notes : option string;
}.

(** The arguments of [add_purchase]: text arguments are a [str] or
    [None], numeric ones any value. *)
Record args := {
  arg_customer : option string;
  arg_product : option string;
  arg_amount : Py.value;
  arg_status : option string;
  arg_customer_email : option string;
  arg_quantity : Py.value;
  arg_unit_price : Py.value;
  arg_discount : Py.value;
  arg_tax : Py.value;
  arg_total : Py.value;
  arg_currency : option string;
  arg_payment_status : option string;
  arg_fulfillment_status : option string;
  arg_payment_method : option string;
  arg_channel : option string;
  arg_source : option string;
  arg_region : option string;
  arg_sales_rep : option string;
  arg_invoice_id : option string;
  arg_tags : option string;
  arg_notes : option string;
}.

(** [add_purchase(customer, product, amount)] with every keyword at its
    default. *)
Definition defaults (customer product : string) (amount : Py.value) : args := {|
  arg_customer := Some customer;
  arg_product := Some product;
  arg_amount := amount;
  arg_status := Some "Completed"%string;
  arg_customer_email := Some ""%string;
  arg_quantity := Py.Int 1;
  arg_unit_price := Py.None_;
  arg_discount := Py.Float Py.zero;
  arg_tax := Py.Float Py.zero;
  arg_total := Py.None_;
  arg_currency := None;
  arg_payment_status := Some ""%string;
  arg_fulfillment_status := Some ""%string;
  arg_payment_method := Some ""%string;
  arg_channel := Some ""%string;
  arg_source := Some ""%string;
  arg_region := Some ""%string;
  arg_sales_rep := Some ""%string;
  arg_invoice_id := Some ""%string;
  arg_tags := Some ""%string;
  arg_notes := Some ""%string;
|}.

(** Lines 121-163 of [add_purchase]: the numeric coercions and the tuple
    bound to the INSERT, column by column ([amount] receives [total]). *)
Definition prepare (cfg : Config) (ts : string) (a : args) : Py.result purchase :=
  quantity ← (if Py.truthy (arg_quantity a)
              then Py.float_or (arg_quantity a) Py.one
              else mret Py.one);
  let quantity := if Py.fle quantity Py.zero then Py.one else quantity in
  amount ← Py.float_or (arg_amount a) Py.zero;
  let unit_price :=
    if Py.is_none (arg_unit_price a) then Py.Float amount else arg_unit_price a in
  unit_price ← Py.float_or unit_price Py.zero;
  discount ← Py.float_or (arg_discount a) Py.zero;
  tax ← Py.float_or (arg_tax a) Py.zero;
  let subtotal := Py.max (Py.fmul quantity unit_price) Py.zero in
  let computed_total :=
    Py.fadd (Py.fsub subtotal (Py.max discount Py.zero)) (Py.max tax Py.zero) in
  let total :=
    if Py.is_none (arg_total a) then Py.Float computed_total else arg_total a in
  total ← Py.float_or total computed_total;
  let total := if Py.flt total Py.zero then Py.zero else total in
  let currency := Py.str_or (arg_currency a) (DEFAULT_CURRENCY cfg) in
  mret {|
    timestamp := Some ts;
    customer := arg_customer a;
    customer_email := arg_customer_email a;
    product := arg_product a;
    amount := real total;
    quantity := real quantity;
    unit_price := real unit_price;
    subtotal := real subtotal;
    discount := real discount;
    tax := real tax;
    total := real total;
    currency := Some currency;
    status := arg_status a;
    payment_status := arg_payment_status a;
    fulfillment_status := arg_fulfillment_status a;
    payment_method := arg_payment_method a;
    channel := arg_channel a;
    source := arg_source a;
    region := arg_region a;
    sales_rep := arg_sales_rep a;
    invoice_id := arg_invoice_id a;
    tags := arg_tags a;
    notes := arg_notes a;
  |}.

Definition not_null_ok (r : purchase) : bool :=
  bool_decide (is_Some (timestamp r)) && bool_decide (is_Some (customer r))
  && bool_decide (is_Some (product r)) && bool_decide (is_Some (amount r))
  && bool_decide (is_Some (status r)).

(** [INSERT INTO purchases (...) VALUES (...)]. *)
Definition insert_purchase (r : purchase) (t : table purchase)
  : Py.result (table purchase) :=
  if not_null_ok r then mret (insert r t) else Py.Raise Py.IntegrityError.

(** [DELETE FROM purchases WHERE id NOT IN
     (SELECT id FROM purchases ORDER BY id DESC LIMIT ?)]. *)
Definition evict (n : Z) (t : table purchase) : table purchase :=
  let keep := limit n (rowids_desc (rows t)) in
  Table (filter (λ kr, kr.1 ∈ keep) (rows t)) (seq t).

(** The [with self._connect() as conn:] block, statement by statement:
    the connection after each statement, and how the block ends. An
    exception leaves the block through the context manager, which rolls
    the open transaction back. *)
Definition add_purchase_trace (cfg : Config) (r : purchase) (t : table purchase)
  : list (connection (table purchase)) * Py.result () :=
  let c0 := connect t in
  match execute (insert_purchase r) c0 with
  | Py.Raise e => ([c0; rollback c0], Py.Raise e)
  | Py.Ok c1 =>
      match execute (λ t, mret (evict (MAX_RECENT_PURCHASES cfg) t)) c1 with
      | Py.Raise e => ([c0; c1; rollback c1], Py.Raise e)
      | Py.Ok c2 => ([c0; c1; c2; commit c2], Py.Ok ())
      end
  end.

(** [add_purchase]: how the call ends and the database it leaves. *)
Definition add_purchase (cfg : Config) (now : string) (a : args)
    (t : table purchase) : Py.result () * table purchase :=
  match prepare cfg now a with
  | Py.Raise e => (Py.Raise e, t)
  | Py.Ok r =>
      let '(trace, res) := add_purchase_trace cfg r t in
      (res, from_option committed t (last trace))
  end.

(** What another connection can read while the call runs: the committed
    database at each statement boundary. *)
Definition add_purchase_observed (cfg : Config) (now : string) (a : args)
    (t : table purchase) : list (table purchase) :=
  match prepare cfg now a with
  | Py.Raise e => [t]
  | Py.Ok r => committed <$> (add_purchase_trace cfg r t).1
  end.

(** A sequence of calls, each with the reading of the clock it gets; a
    call that raises is skipped by its caller. *)
Definition record_all (cfg : Config) (calls : list (string * args))
    (t : table purchase) : table purchase :=
  foldl (λ t c, (add_purchase cfg c.1 c.2 t).2) t calls.

(** [COALESCE(total, amount, 0)]. *)
Definition revenue_of (r : purchase) : option Py.float :=
  coalesce [total r; amount r; Some Py.zero].

(** [float(x or 0)] on a result column. *)
Definition float_or_0 (x : option Py.float) : Py.float :=
  match x with
  | Some v => if Py.truthy (Py.Float v) then v else Py.Fin (inject_Z 0)
  | None => Py.Fin (inject_Z 0)
  end.

(** The dictionary [get_daily_summary] returns: the keys ["count"],
    ["revenue"] and ["avg"]. *)
Record summary := { count : Z; revenue : Py.float; avg : Py.float }.

(** An entry of the trend: the keys ["date"] and ["revenue"]. *)
Record trend_entry := { date : string; day_revenue : Py.float }.

(** Text comparison under the BINARY collation. *)
Definition text_le : relation string := λ a b, String.leb a b.

#[global] Instance text_le_dec : RelDecision text_le.
Proof. intros a b. unfold text_le. apply _. Defined.

Section queries.
(** SQLite's [date(text)], NULL when the text is no time value, and
    [date('now', '-k days')]. *)
Variable sql_date : string → option string.
Variable date_now_minus : Z → string.

Definition date_of (r : purchase) : option string :=
  timestamp r ≫= sql_date.

Definition get_daily_summary (t : table purchase) (date_label : string)
  : summary :=
  let sel := filter (λ kr, date_of kr.2 = Some date_label) (scan (rows t)) in
  let vals := (revenue_of ∘ snd) <$> sel in
  {| count := Z.of_nat (length sel);
     revenue := float_or_0 (sum vals);
     avg := float_or_0 (Sql.avg vals) |}.

Definition in_window (lo : string) (r : purchase) : bool :=
  match date_of r with
  | Some d => String.leb lo d
  | None => false
  end.

Definition get_sales_trend (t : table purchase) (days : Z)
  : list trend_entry :=
  if days <=? 0 then []
  else
    let lo := date_now_minus (days - 1) in
    let sel := filter (λ kr, in_window lo kr.2) (scan (rows t)) in
    let groups := merge_sort text_le (remove_dups (omap (date_of ∘ snd) sel)) in
    (λ d, {| date := d;
             day_revenue :=
               float_or_0 (sum ((revenue_of ∘ snd) <$>
                 filter (λ kr, date_of kr.2 = Some d) sel)) |}) <$> groups.
End queries.

End PurchaseDB.

(** ** [db.py]: [CustomerDB] *)

Module CustomerDB.
Import Sql.

(** A row of [customers]; [name], [created_at] and [updated_at] are
    [NOT NULL]. *)
Record customer := {
  name : option string;
  email : option string;
  phone : option string;
  company : option string;
  industry : option string;
  segment : option string;
  status : option string;
  lead_source : option string;
  address_line1 : option string;
  address_line2 : option string;
  city : option string;
  state : option string;
  country : option string;
  postal_code : option string;
  notes : option string;
  last_contact_at : option string;
  created_at : option string;
  updated_at : option string;
}.

(** The arguments of [upsert_customer], each a [str] or [None]. *)
Record args := {
  arg_name : option string;
  arg_email : option string;
  arg_phone : option string;
  arg_company : option string;
  arg_industry : option string;
  arg_segment : option string;
  arg_status : option string;
  arg_lead_source : option string;
  arg_address_line1 : option string;
  arg_address_line2 : option string;
  arg_city : option string;
  arg_state : option string;
  arg_country : option string;
  arg_postal_code : option string;
  arg_notes : option string;
  arg_last_contact_at : option string;
}.

(** [(x or "").strip()]. *)
Definition clean (x : option string) : string :=
  Py.strip (Py.str_or x EmptyString).

(** The sixteen locals after lines 474-489. *)
Record cleaned := {
  c_name : string;
  c_email : string;
  c_phone : string;
  c_company : string;
  c_industry : string;
  c_segment : string;
  c_status : string;
  c_lead_source : string;
  c_address_line1 : string;
  c_address_line2 : string;
  c_city : string;
  c_state : string;
  c_country : string;
  c_postal_code : string;
  c_notes : string;
  c_last_contact_at : string;
}.

Definition clean_args (a : args) : cleaned := {|
  c_name := clean (arg_name a);
  c_email := clean (arg_email a);
  c_phone := clean (arg_phone a);
  c_company := clean (arg_company a);
  c_industry := clean (arg_industry a);
  c_segment := clean (arg_segment a);
  c_status := clean (arg_status a);
  c_lead_source := clean (arg_lead_source a);
  c_address_line1 := clean (arg_address_line1 a);
  c_address_line2 := clean (arg_address_line2 a);
  c_city := clean (arg_city a);
  c_state := clean (arg_state a);
  c_country := clean (arg_country a);
  c_postal_code := clean (arg_postal_code a);
  c_notes := clean (arg_notes a);
  c_last_contact_at := clean (arg_last_contact_at a);
|}.

(** [SELECT id FROM customers WHERE email = ?] and
    [SELECT id FROM customers WHERE name = ? LIMIT 1], then [fetchone()]:
    the first match of the scan. *)
Definition select_by_email (e : string) (t : table customer) : option Z :=
  fst <$> head (filter (λ kr, email kr.2 = Some e) (scan (rows t))).

Definition select_by_name (n : string) (t : table customer) : option Z :=
  fst <$> head (filter (λ kr, name kr.2 = Some n) (scan (rows t))).

(** [COALESCE(NULLIF(?, ''), column)]. *)
Definition merge (incoming : string) (stored : option string) : option string :=
  coalesce [nullif_empty incoming; stored].

(** The [UPDATE customers SET ... WHERE id = ?] of lines 509-551, on the
    row it addresses. *)
Definition update_row (c : cleaned) (now : string) (r : customer) : customer := {|
  name := Some (c_name c);
  email := merge (c_email c) (email r);
  phone := merge (c_phone c) (phone r);
  company := merge (c_company c) (company r);
  industry := merge (c_industry c) (industry r);
  segment := merge (c_segment c) (segment r);
  status := merge (c_status c) (status r);
  lead_source := merge (c_lead_source c) (lead_source r);
  address_line1 := merge (c_address_line1 c) (address_line1 r);
  address_line2 := merge (c_address_line2 c) (address_line2 r);
  city := merge (c_city c) (city r);
  state := merge (c_state c) (state r);
  country := merge (c_country c) (country r);
  postal_code := merge (c_postal_code c) (postal_code r);
  notes := merge (c_notes c) (notes r);
  last_contact_at := merge (c_last_contact_at c) (last_contact_at r);
  created_at := created_at r;
  updated_at := Some now;
|}.

(** The row of the [INSERT INTO customers] of lines 555-584. *)
Definition new_row (c : cleaned) (now : string) : customer := {|
  name := Some (c_name c);
  email := Some (c_email c);
  phone := Some (c_phone c);
  company := Some (c_company c);
  industry := Some (c_industry c);
  segment := Some (c_segment c);
  status := Some (c_status c);
  lead_source := Some (c_lead_source c);
  address_line1 := Some (c_address_line1 c);
  address_line2 := Some (c_address_line2 c);
  city := Some (c_city c);
  state := Some (c_state c);
  country := Some (c_country c);
  postal_code := Some (c_postal_code c);
  notes := Some (c_notes c);
  last_contact_at := Some (Py.str_or (Some (c_last_contact_at c)) now);
  created_at := Some now;
  updated_at := Some now;
|}.

(** The identity resolution of lines 497-505: by e-mail when one is given,
    then by name. *)
Definition resolve (c : cleaned) (t : table customer) : option Z :=
  let row := if Py.truthy (Py.Str (c_email c))
             then select_by_email (c_email c) t else None in
  match row with
  | Some k => Some k
  | None => select_by_name (c_name c) t
  end.

(** [upsert_customer]: the identity it returns ([None] for a blank name)
    and the table it leaves. *)
Definition upsert_customer (now : string) (a : args) (t : table customer)
  : option Z * table customer :=
  let c := clean_args a in
  if negb (Py.truthy (Py.Str (c_name c))) then (None, t)
  else
    match resolve c t with
    | Some customer_id =>
        (Some customer_id,
         Table (alter (update_row c now) customer_id (rows t)) (seq t))
    | None =>
        let t' := insert (new_row c now) t in
        (Some (seq t'), t')
    end.

End CustomerDB.

(** ** [config.py]: [ensure_data_files], the products seed file *)

Module DataFiles.

(** What [csv.DictReader] yields for a file: one dictionary per record,
    keyed by the header; or the file cannot be opened or decoded. *)
Inductive file :=
| Csv (records : list (gmap string string))
| Unreadable.

Definition record (name price features best_for : string) : gmap string string :=
  list_to_map [("name", name); ("price", price);
               ("features", features); ("best_for", best_for)]%string.

(** The rows [ensure_data_files] writes when the file is missing. *)
Definition sample_products : list (gmap string string) := [
  record "CRM Pro" "99"
    "Contact management, email tracking, basic reporting" "Small teams";
  record "Analytics Suite" "149"
    "Dashboards, predictive insights, custom reports" "Data teams";
  record "Marketing Tool" "79"
    "Email campaigns, social scheduling, A/B testing" "Marketing teams"
].

(** [ensure_data_files], on [Config.PRODUCTS_FILE]: [None] is a missing
    file. *)
Definition ensure_data_files (products_file : option file) : option file :=
  match products_file with
  | None => Some (Csv sample_products)
  | Some f => Some f
  end.

End DataFiles.

(** ** [db.py]: [ProductDB] *)

Module ProductDB.
Import Sql.

(** A value as SQLite stores it, and the parameter a Python value binds
    to. *)
Inductive value :=
| Null
| Integer (z : Z)
| Real (x : Py.float)
| Text (s : string).

#[global] Instance value_eq_dec : EqDecision value.
Proof.
  intros [| z1 | x1 | s1] [| z2 | x2 | s2]; try (right; discriminate).
  - left; reflexivity.
  - destruct (decide (z1 = z2)); [left; congruence | right; congruence].
  - assert (EqDecision Q).
    { intros [a b] [c d]. destruct (decide (a = c)), (decide (b = d));
        [left; congruence | right; congruence ..]. }
    assert (EqDecision Py.float).
    { intros [q1| | |] [q2| | |]; try (right; discriminate); try (left; reflexivity).
      destruct (decide (q1 = q2)); [left; congruence | right; congruence]. }
    destruct (decide (x1 = x2)); [left; congruence | right; congruence].
  - destruct (decide (s1 = s2)); [left; congruence | right; congruence].
Defined.

Definition bind_value (v : Py.value) : value :=
  match v with
  | Py.None_ => Null
  | Py.Bool b => Integer (if b then 1 else 0)
  | Py.Int z => Integer z
  | Py.Float x => if Py.is_nan x then Null else Real x
  | Py.Str s => Text s
  end.

Inductive affinity := TEXT | REAL | INTEGER.

(** The conversions of SQLite that depend on its number syntax and
    number printing. *)
Record conversions := {
  int_to_text : Z → string;
  real_to_text : Py.float → string;
  text_to_number : string → option value;
}.

(** A real with an integer value is stored as that integer in a column
    of INTEGER affinity. *)
Definition real_to_integer (x : Py.float) : value :=
  match x with
  | Py.Fin q =>
      let q' := Qred q in
      if (Z.pos (Qden q') =? 1) then Integer (Qnum q') else Real x
  | _ => Real x
  end.

(** The value a column of the given affinity keeps for a bound value. *)
Definition store (cv : conversions) (a : affinity) (v : value) : value :=
  match a, v with
  | TEXT, Integer z => Text (int_to_text cv z)
  | TEXT, Real x => Text (real_to_text cv x)
  | REAL, Integer z => Real (Py.Fin (inject_Z z))
  | REAL, Text s =>
      match text_to_number cv s with
      | Some (Integer z) => Real (Py.Fin (inject_Z z))
      | Some (Real x) => Real x
      | _ => v
      end
  | INTEGER, Real x => real_to_integer x
  | INTEGER, Text s =>
      match text_to_number cv s with
      | Some (Integer z) => Integer z
      | Some (Real x) => real_to_integer x
      | _ => v
      end
  | _, _ => v
  end.

(** A row of [products]; [name], [price], [active], [created_at] and
    [updated_at] are [NOT NULL]. *)
Record product := {
  name : value;
  sku : value;
  category : value;
  price : value;
  cost : value;
  tax_rate : value;
  unit : value;
  description : value;
  features : value;
  best_for : value;
  active : value;
  created_at : value;
  updated_at : value;
}.

Definition not_null_ok (r : product) : bool :=
  bool_decide (name r ≠ Null) && bool_decide (price r ≠ Null)
  && bool_decide (active r ≠ Null) && bool_decide (created_at r ≠ Null)
  && bool_decide (updated_at r ≠ Null).

(** [INSERT INTO products (...) VALUES (?, ..., 1, ?, ?)]: twelve bound
    parameters, [active] is the literal 1. *)
Definition insert_product (cv : conversions)
    (name sku category price cost tax_rate unit description features best_for
       created_at updated_at : Py.value)
    (t : table product) : Py.result (table product) :=
  let r := {|
    name := store cv TEXT (bind_value name);
    sku := store cv TEXT (bind_value sku);
    category := store cv TEXT (bind_value category);
    price := store cv REAL (bind_value price);
    cost := store cv REAL (bind_value cost);
    tax_rate := store cv REAL (bind_value tax_rate);
    unit := store cv TEXT (bind_value unit);
    description := store cv TEXT (bind_value description);
    features := store cv TEXT (bind_value features);
    best_for := store cv TEXT (bind_value best_for);
    active := store cv INTEGER (Integer 1);
    created_at := store cv TEXT (bind_value created_at);
    updated_at := store cv TEXT (bind_value updated_at);
  |} in
  if not_null_ok r then mret (insert r t) else Py.Raise Py.IntegrityError.

(** [a or b or ...] over [dict.get] results: the first text that is
    neither missing nor empty. *)
Fixpoint first_truthy (xs : list (option string)) : option string :=
  match xs with
  | Some (String c s) :: _ => Some (String c s)
  | _ :: xs' => first_truthy xs'
  | [] => None
  end.

(** The loop of lines 741-771 over the records of the seed file. An
    exception ([float(price)], the INSERT) ends the loop: the [except
    Exception] clause encloses it, and the rows inserted so far stay. *)
Fixpoint seed_from_csv (cv : conversions) (now : string)
    (records : list (gmap string string)) (t : table product) (seeded : bool)
  : table product * bool :=
  match records with
  | [] => (t, seeded)
  | p :: records' =>
      let name :=
        Py.strip (default EmptyString
                    (first_truthy [p !! "name"; p !! "Product_Name"]))%string in
      if negb (Py.truthy (Py.Str name)) then seed_from_csv cv now records' t seeded
      else
        let price :=
          from_option Py.Str (Py.Int 0) (first_truthy [p !! "price"; p !! "Price"])%string in
        let features :=
          default EmptyString (first_truthy [p !! "features"; p !! "Features"])%string in
        let best_for :=
          default EmptyString (first_truthy [p !! "best_for"; p !! "Best_For"])%string in
        match
          x ← Py.to_float price;
          insert_product cv (Py.Str name) (Py.Str "") (Py.Str "") (Py.Float x)
            (Py.Float Py.zero) (Py.Float Py.zero) (Py.Str "") (Py.Str "")
            (Py.Str features) (Py.Str best_for) (Py.Str now) (Py.Str now) t
        with
        | Py.Ok t' => seed_from_csv cv now records' t' true
        | Py.Raise _ => (t, seeded)
        end
  end.

(** The built-in [samples] of lines 776-801:
    name, sku, category, price, features, best_for. *)
Definition samples : list (string * string * string * Z * string * string) := [
  ("CRM Pro", "CRM-001", "CRM", 99,
   "Contact management, email tracking, basic reporting", "Small teams");
  ("Analytics Suite", "ANL-101", "Analytics", 149,
   "Dashboards, predictive insights, custom reports", "Data teams");
  ("Marketing Tool", "MKT-201", "Marketing", 79,
   "Email campaigns, social scheduling, A/B testing", "Marketing teams")
]%string.

(** The loop of lines 802-825; nothing catches an exception here. *)
Fixpoint seed_samples (cv : conversions) (now : string)
    (ps : list (string * string * string * Z * string * string))
    (t : table product) : Py.result (table product) :=
  match ps with
  | [] => mret t
  | (name, sku, category, price, features, best_for) :: ps' =>
      t' ← insert_product cv (Py.Str name) (Py.Str sku) (Py.Str category)
             (Py.Int price) (Py.Float Py.zero) (Py.Float Py.zero) (Py.Str "")
             (Py.Str "") (Py.Str features) (Py.Str best_for) (Py.Str now)
             (Py.Str now) t;
      seed_samples cv now ps' t'
  end.

(** [_seed_if_empty]: the table it commits; an exception of the samples
    loop leaves the block through the context manager, which rolls back. *)
Definition _seed_if_empty (cv : conversions) (now : string)
    (products_file : option DataFiles.file) (t : table product)
  : Py.result () * table product :=
  if bool_decide (0 < size (rows t))%nat then (Py.Ok (), t)
  else
    let '(t1, seeded) :=
      match products_file with
      | Some (DataFiles.Csv records) => seed_from_csv cv now records t false
      | Some DataFiles.Unreadable => (t, false)
      | None => (t, false)
      end in
    if seeded then (Py.Ok (), t1)
    else
      match seed_samples cv now samples t1 with
      | Py.Ok t2 => (Py.Ok (), t2)
      | Py.Raise e => (Py.Raise e, t)
      end.

(** [ProductDB()]: [ensure_data_files()] in [DBBase.__init__], the table
    as [_init_db] finds or creates it, then [_seed_if_empty]. *)
Definition init (cv : conversions) (now : string)
    (products_file : option DataFiles.file) (t : table product)
  : option DataFiles.file * (Py.result () * table product) :=
  let f := DataFiles.ensure_data_files products_file in
  (f, _seed_if_empty cv now f t).

Definition allowed : list string :=
  ["name"; "sku"; "category"; "price"; "cost"; "tax_rate"; "unit";
   "description"; "features"; "best_for"; "active"]%string.

(** [SET key = ?] for the keys of [updates], then [updated_at = ?]. *)
Definition set_columns (cv : conversions) (updates : gmap string Py.value)
    (now : string) (r : product) : product :=
  let set (key : string) (a : affinity) (old : value) : value :=
    match updates !! key with
    | Some v => store cv a (bind_value v)
    | None => old
    end in
  {| name := set "name"%string TEXT (name r);
     sku := set "sku"%string TEXT (sku r);
     category := set "category"%string TEXT (category r);
     price := set "price"%string REAL (price r);
     cost := set "cost"%string REAL (cost r);
     tax_rate := set "tax_rate"%string REAL (tax_rate r);
     unit := set "unit"%string TEXT (unit r);
     description := set "description"%string TEXT (description r);
     features := set "features"%string TEXT (features r);
     best_for := set "best_for"%string TEXT (best_for r);
     active := set "active"%string INTEGER (active r);
     created_at := created_at r;
     updated_at := store cv TEXT (Text now) |}.

(** An UPDATE checks [NOT NULL] on the columns it assigns, for each row
    it changes: of the columns [update_product] can assign, [name],
    [price] and [active] are declared so. *)
Definition sets_null (updates : gmap string Py.value) : bool :=
  existsb (λ key, bool_decide (bind_value <$> updates !! key = Some Null))
    ["name"; "price"; "active"]%string.

(** [update_product(product_id, **fields)]: the keyword arguments are a
    dictionary. An exception of the UPDATE leaves the block through the
    context manager, which rolls back. *)
Definition update_product (cv : conversions) (now : string) (product_id : Z)
    (fields : gmap string Py.value) (t : table product)
  : Py.result bool * table product :=
  let updates := filter (λ kv, kv.1 ∈ allowed) fields in
  if bool_decide (updates = ∅) then (Py.Ok false, t)
  else
    match rows t !! product_id with
    | None => (Py.Ok true, t)
    | Some r =>
        if sets_null updates then (Py.Raise Py.IntegrityError, t)
        else
          (Py.Ok true,
           Table (<[product_id := set_columns cv updates now r]> (rows t)) (seq t))
    end.

Definition deactivate_product cv now (product_id : Z) (t : table product) :=
  update_product cv now product_id {[ "active"%string := Py.Int 0 ]} t.

Definition activate_product cv now (product_id : Z) (t : table product) :=
  update_product cv now product_id {[ "active"%string := Py.Int 1 ]} t.

End ProductDB.

(** ** [llm_client.py]: [LLMClient] *)

Module LLMClient.

Record client := { provider : string; last_error : string; enabled : bool }.

Definition _is_enabled (cfg : Config) (provider : string) : bool :=
  if String.eqb provider "none" then false
  else if String.eqb provider "openai_compatible" then
    Py.truthy (Py.Str (API_KEY cfg)) && Py.truthy (Py.Str (LLM_ENDPOINT cfg))
    && Py.truthy (Py.Str (LLM_MODEL cfg))
  else false.

(** [LLMClient()]. *)
Definition init (cfg : Config) : client := {|
  provider := LLM_PROVIDER cfg;
  last_error := EmptyString;
  enabled := _is_enabled cfg (LLM_PROVIDER cfg);
|}.

(** How the [try] block of [complete] ends: an exception (transport, HTTP
    status, a body of another shape), a body without choices, or the
    content of the first choice's message. *)
Inductive reply :=
| Failed (exc : string)
| NoChoices
| Content (s : string).

Section complete.
(** The remote service, for the two prompts of a request. *)
Variable post : string → string → reply.

Definition complete (c : client) (system_prompt user_prompt : string)
  : option string * client :=
  if negb (enabled c) then (None, c)
  else if String.eqb (provider c) "openai_compatible" then
    match post system_prompt user_prompt with
    | Failed exc =>
        (None, {| provider := provider c; last_error := exc; enabled := enabled c |})
    | NoChoices => (None, c)
    | Content s =>
        let content := Py.strip s in
        (if Py.truthy (Py.Str content) then Some content else None, c)
    end
  else (None, c).
End complete.

End LLMClient.

(** ** [monitoring.py]: [SalesMonitor] *)

Module SalesMonitor.

Record monitor := { llm : LLMClient.client; db : Sql.table PurchaseDB.purchase }.

(** [SalesMonitor()], over the purchases table as stored. *)
Definition init (cfg : Config) (t : Sql.table PurchaseDB.purchase) : monitor :=
  {| llm := LLMClient.init cfg; db := t |}.

Definition system_prompt : string :=
  "You are a sales analytics assistant. Provide a short summary with trends and 1-2 recommendations.".

Definition below_target : string :=
  "Sales are below target. Consider follow-ups on warm leads.".

Definition on_track : string :=
  "Sales are on track. Keep momentum with demos and follow-ups.".

(** [check_alerts]: the two independent threshold checks; the second
    alert carries the two numbers. *)
Inductive alert := NoSales | BelowThreshold (today_count threshold : Z).

Definition check_alerts (cfg : Config) (today_count : Z) : list alert :=
  (if today_count =? 0 then [NoSales] else [])
  ++ (if today_count <? LOW_SALES_THRESHOLD cfg
      then [BelowThreshold today_count (LOW_SALES_THRESHOLD cfg)] else []).

Section report.
Variable sql_date : string → option string.
(** The f-string [summary_text] of lines 118-124, over the day's summary
    and the top products of the table. *)
Variable summary_text :
  Sql.table PurchaseDB.purchase → PurchaseDB.summary → string.
Variable post : string → string → LLMClient.reply.

(** [generate_daily_report]: the text it prints under [Summary:]. *)
Definition generate_daily_report (cfg : Config) (m : monitor)
    (today_label : string) : string :=
  let summary := PurchaseDB.get_daily_summary sql_date (db m) today_label in
  let count := PurchaseDB.count summary in
  let ai_summary :=
    (LLMClient.complete post (llm m) system_prompt (summary_text (db m) summary)).1 in
  let fallback :=
    if count <? DAILY_SALES_TARGET cfg then below_target else on_track in
  match ai_summary with
  | Some s => if Py.truthy (Py.Str s) then s else fallback
  | None => fallback
  end.
End report.

End SalesMonitor.

(** ** Notions the statements use *)

(** The number of keys of [X] above [k]. *)
Definition above (X : gset Z) (k : Z) : nat := size (filter (λ j, k < j) X).

(** The [n] rows of [H] with the highest rowids. *)
Definition top_rows {A} (n : Z) (H : gmap Z A) : gmap Z A :=
  filter (λ kr, Z.of_nat (above (dom H) kr.1) < n) H.

(** The row a call of [add_purchase] inserts, when it inserts one. *)
Definition stored (cfg : Config) (now : string) (a : PurchaseDB.args)
  : option PurchaseDB.purchase :=
  match PurchaseDB.prepare cfg now a with
  | Py.Ok r => if PurchaseDB.not_null_ok r then Some r else None
  | Py.Raise _ => None
  end.

(** Every row the table held at the start or that a call of the sequence
    inserted, under the rowid it got. *)
Definition step_history (cfg : Config)
    (th : Sql.table PurchaseDB.purchase * gmap Z PurchaseDB.purchase)
    (c : string * PurchaseDB.args)
  : Sql.table PurchaseDB.purchase * gmap Z PurchaseDB.purchase :=
  ((PurchaseDB.add_purchase cfg c.1 c.2 th.1).2,
   match stored cfg c.1 c.2 with
   | Some r => <[Sql.next_rowid th.1 := r]> th.2
   | None => th.2
   end).

Definition history (cfg : Config) (calls : list (string * PurchaseDB.args))
    (t : Sql.table PurchaseDB.purchase) : gmap Z PurchaseDB.purchase :=
  (foldl (step_history cfg) (t, Sql.rows t) calls).2.

(** The invariant of a run: the table is the top rows of the history,
    and the next rowid is above every rowid of the history. *)
Definition ledger_inv (n : Z)
    (th : Sql.table PurchaseDB.purchase * gmap Z PurchaseDB.purchase) : Prop :=
  Sql.rows th.1 = top_rows n th.2 ∧ ∀ j, j ∈ dom th.2 → j < Sql.next_rowid th.1.

(** Two tables with the same rowids and the same counter. *)
Definition same_keys {A} (t t' : Sql.table A) : Prop :=
  dom (Sql.rows t) = dom (Sql.rows t') ∧ Sql.seq t = Sql.seq t'.



(** A store for the examples: at most two purchases are kept. *)
Definition cfg2 : Config := {|
  MAX_RECENT_PURCHASES := 2;
  DEFAULT_CURRENCY := "USD";
  DAILY_SALES_TARGET := 10;
  LOW_SALES_THRESHOLD := 5;
  LLM_PROVIDER := "none";
  API_KEY := "";
  LLM_ENDPOINT := "";
  LLM_MODEL := "";
|}.

Definition empty_purchases : Sql.table PurchaseDB.purchase := Sql.Table ∅ 0.

(** Three sales, the second and third backdated. *)
Definition three_sales : list (string * PurchaseDB.args) := [
  ("2024-01-03 10:00:00"%string, PurchaseDB.defaults "Ann" "CRM Pro" (Py.Int 99));
  ("2024-01-01 10:00:00"%string, PurchaseDB.defaults "Bob" "Analytics Suite" (Py.Str "149"));
  ("2024-01-02 10:00:00"%string, PurchaseDB.defaults "Cy" "Marketing Tool" (Py.Float (Py.Fin 79)))
].

(** A sale of one "CRM Pro" to Ann for 100, with the given numeric
    arguments. *)
Definition sale (quantity unit_price discount tax total : Py.value)
  : PurchaseDB.args := {|
  PurchaseDB.arg_customer := Some "Ann"%string;
  PurchaseDB.arg_product := Some "CRM Pro"%string;
  PurchaseDB.arg_amount := Py.Int 100;
  PurchaseDB.arg_status := Some "Completed"%string;
  PurchaseDB.arg_customer_email := Some ""%string;
  PurchaseDB.arg_quantity := quantity;
  PurchaseDB.arg_unit_price := unit_price;
  PurchaseDB.arg_discount := discount;
  PurchaseDB.arg_tax := tax;
  PurchaseDB.arg_total := total;
  PurchaseDB.arg_currency := None;
  PurchaseDB.arg_payment_status := Some ""%string;
  PurchaseDB.arg_fulfillment_status := Some ""%string;
  PurchaseDB.arg_payment_method := Some ""%string;
  PurchaseDB.arg_channel := Some ""%string;
  PurchaseDB.arg_source := Some ""%string;
  PurchaseDB.arg_region := Some ""%string;
  PurchaseDB.arg_sales_rep := Some ""%string;
  PurchaseDB.arg_invoice_id := Some ""%string;
  PurchaseDB.arg_tags := Some ""%string;
  PurchaseDB.arg_notes := Some ""%string;
|}.

Definition noon : string := "2024-01-03 12:00:00".


(** The row [_seed_if_empty] inserts for a record of the seed file. *)
Definition csv_product (now name : string) (price : Py.float)
    (features best_for : string) : ProductDB.product := {|
  ProductDB.name := ProductDB.Text name;
  ProductDB.sku := ProductDB.Text "";
  ProductDB.category := ProductDB.Text "";
  ProductDB.price := ProductDB.Real price;
  ProductDB.cost := ProductDB.Real Py.zero;
  ProductDB.tax_rate := ProductDB.Real Py.zero;
  ProductDB.unit := ProductDB.Text "";
  ProductDB.description := ProductDB.Text "";
  ProductDB.features := ProductDB.Text features;
  ProductDB.best_for := ProductDB.Text best_for;
  ProductDB.active := ProductDB.Integer 1;
  ProductDB.created_at := ProductDB.Text now;
  ProductDB.updated_at := ProductDB.Text now;
|}.

(** The three rows a construction leaves when it finds no seed file and
    an empty table. *)
Definition seeded_products (now : string) : list ProductDB.product := [
  csv_product now "CRM Pro" (Py.Fin 99)
    "Contact management, email tracking, basic reporting" "Small teams";
  csv_product now "Analytics Suite" (Py.Fin 149)
    "Dashboards, predictive insights, custom reports" "Data teams";
  csv_product now "Marketing Tool" (Py.Fin 79)
    "Email campaigns, social scheduling, A/B testing" "Marketing teams"
].

(** The column of a product that a key of [update_product] names, and its
    affinity. *)
Definition column (key : string) : option (ProductDB.product → ProductDB.value) :=
  if String.eqb key "name" then Some ProductDB.name
  else if String.eqb key "sku" then Some ProductDB.sku
  else if String.eqb key "category" then Some ProductDB.category
  else if String.eqb key "price" then Some ProductDB.price
  else if String.eqb key "cost" then Some ProductDB.cost
  else if String.eqb key "tax_rate" then Some ProductDB.tax_rate
  else if String.eqb key "unit" then Some ProductDB.unit
  else if String.eqb key "description" then Some ProductDB.description
  else if String.eqb key "features" then Some ProductDB.features
  else if String.eqb key "best_for" then Some ProductDB.best_for
  else if String.eqb key "active" then Some ProductDB.active
  else None.


(** Conversions for the examples, which reach none of them. *)
Definition no_conversions : ProductDB.conversions := {|
  ProductDB.int_to_text := λ _, EmptyString;
  ProductDB.real_to_text := λ _, EmptyString;
  ProductDB.text_to_number := λ _, None;
|}.

Definition empty_products : Sql.table ProductDB.product := Sql.Table ∅ 0.

(** The catalog after a first start. *)
Definition first_catalog : Sql.table ProductDB.product :=
  (ProductDB.init no_conversions noon None empty_products).2.2.

(** Stand-ins for SQLite's date functions in the examples: the date of a
    ['YYYY-MM-DD HH:MM:SS'] text is its first ten characters, and the
    clock stands at 2024-01-03. *)
Definition iso_date (s : string) : option string := Some (substring 0 10 s).

Definition days_before_jan3 (k : Z) : string :=
  nth (Z.to_nat k)
    ["2024-01-03"; "2024-01-02"; "2024-01-01"; "2023-12-31"; "2023-12-30";
     "2023-12-29"; "2023-12-28"]%string "2023-12-27"%string.

(** Customers for the examples: Ann is on file with a phone number; then
    the same e-mail comes in under another name and without a phone. *)
Definition customer_args (name email phone : string) : CustomerDB.args := {|
  CustomerDB.arg_name := Some name;
  CustomerDB.arg_email := Some email;
  CustomerDB.arg_phone := Some phone;
  CustomerDB.arg_company := Some ""%string;
  CustomerDB.arg_industry := Some ""%string;
  CustomerDB.arg_segment := Some ""%string;
  CustomerDB.arg_status := Some ""%string;
  CustomerDB.arg_lead_source := Some ""%string;
  CustomerDB.arg_address_line1 := Some ""%string;
  CustomerDB.arg_address_line2 := Some ""%string;
  CustomerDB.arg_city := Some ""%string;
  CustomerDB.arg_state := Some ""%string;
  CustomerDB.arg_country := Some ""%string;
  CustomerDB.arg_postal_code := Some ""%string;
  CustomerDB.arg_notes := None;
  CustomerDB.arg_last_contact_at := Some ""%string;
|}.

Definition ann_on_file : Sql.table CustomerDB.customer :=
  (CustomerDB.upsert_customer noon (customer_args "Ann" "ann@example.com" "555-0100")
     (Sql.Table ∅ 0)).2.

Definition ann_renamed : CustomerDB.args :=
  customer_args "Ann Lee" " ann@example.com " "".

(** ** SQLite: [SELECT ... WHERE ... ORDER BY id DESC LIMIT ?] *)

Module Select.
Import Sql.

(** The rows of a table, the highest rowid first. *)
Definition scan_desc {A} (m : gmap Z A) : list (Z * A) :=
  omap (λ k, (k,.) <$> m !! k) (rowids_desc m).

(** The rows that satisfy [P], the highest rowid first, cut at the limit. *)
Definition select_desc {A} (P : Z * A → Prop) `{∀ x, Decision (P x)}
    (n : Z) (m : gmap Z A) : list (Z * A) :=
  limit n (filter P (scan_desc m)).

End Select.

(** ** [db.py]: the read operations of [PurchaseDB] *)

Module PurchaseQueries.
Import Sql.

(** The dictionary [get_last_purchases] and [search_purchases] build for
    a row: [timestamp], [customer] and [product] as selected, the other
    texts with [or ""], the numbers with [float(x or 0)]. *)
Record view := {
  timestamp : option string;
  customer : option string;
  customer_email : string;
  product : option string;
  quantity : Py.float;
  unit_price : Py.float;
  subtotal : Py.float;
  discount : Py.float;
  tax : Py.float;
  total : Py.float;
  currency : string;
  status : string;
  payment_status : string;
  fulfillment_status : string;
  payment_method : string;
  channel : string;
  source : string;
  region : string;
  sales_rep : string;
  invoice_id : string;
  tags : string;
  notes : string;
}.

Definition to_view (r : PurchaseDB.purchase) : view := {|
  timestamp := PurchaseDB.timestamp r;
  customer := PurchaseDB.customer r;
  customer_email := Py.str_or (PurchaseDB.customer_email r) EmptyString;
  product := PurchaseDB.product r;
  quantity := PurchaseDB.float_or_0 (PurchaseDB.quantity r);
  unit_price := PurchaseDB.float_or_0 (PurchaseDB.unit_price r);
  subtotal := PurchaseDB.float_or_0 (PurchaseDB.subtotal r);
  discount := PurchaseDB.float_or_0 (PurchaseDB.discount r);
  tax := PurchaseDB.float_or_0 (PurchaseDB.tax r);
  total := PurchaseDB.float_or_0 (PurchaseDB.total r);
  currency := Py.str_or (PurchaseDB.currency r) EmptyString;
  status := Py.str_or (PurchaseDB.status r) EmptyString;
  payment_status := Py.str_or (PurchaseDB.payment_status r) EmptyString;
  fulfillment_status := Py.str_or (PurchaseDB.fulfillment_status r) EmptyString;
  payment_method := Py.str_or (PurchaseDB.payment_method r) EmptyString;
  channel := Py.str_or (PurchaseDB.channel r) EmptyString;
  source := Py.str_or (PurchaseDB.source r) EmptyString;
  region := Py.str_or (PurchaseDB.region r) EmptyString;
  sales_rep := Py.str_or (PurchaseDB.sales_rep r) EmptyString;
  invoice_id := Py.str_or (PurchaseDB.invoice_id r) EmptyString;
  tags := Py.str_or (PurchaseDB.tags r) EmptyString;
  notes := Py.str_or (PurchaseDB.notes r) EmptyString;
|}.

(** [get_last_purchases(limit)]: [limit] is an integer or [None]. *)
Definition get_last_purchases (cfg : Config) (limit : option Z)
    (t : table PurchaseDB.purchase) : list view :=
  let limit := default (MAX_RECENT_PURCHASES cfg) limit in
  (to_view ∘ snd) <$> Select.select_desc (λ _, True) limit (rows t).

Section search.
(** SQLite's [text LIKE pattern], and the text of the clock [days] days
    back, [(datetime.now() - timedelta(days=days)).strftime(...)], which
    raises [OverflowError] beyond the range of [timedelta] and [datetime]:
    [None]. *)
Variable like : string → string → bool.
Variable cutoff : Z → option string.

(** [customer LIKE ? OR customer_email LIKE ? OR product LIKE ? OR notes
    LIKE ? OR invoice_id LIKE ? OR tags LIKE ?]: NULL matches nothing. *)
Definition like_any (pattern : string) (r : PurchaseDB.purchase) : bool :=
  existsb (λ column, from_option (λ text, like text pattern) false column)
    [PurchaseDB.customer r; PurchaseDB.customer_email r; PurchaseDB.product r;
     PurchaseDB.notes r; PurchaseDB.invoice_id r; PurchaseDB.tags r].

(** [timestamp >= ?]. *)
Definition since (c : string) (r : PurchaseDB.purchase) : bool :=
  from_option (λ ts, String.leb c ts) false (PurchaseDB.timestamp r).

(** [search_purchases(query, days, limit)]: [None] when computing the
    cutoff raises. *)
Definition search_purchases (query : string) (days : option Z) (limit : Z)
    (t : table PurchaseDB.purchase) : option (list view) :=
  let pattern := ("%" ++ query ++ "%")%string in
  let text_clause r := negb (Py.truthy (Py.Str query)) || like_any pattern r in
  time_clause ←
    match days with
    | Some d => if 0 <? d then since <$> cutoff d else Some (λ _, true)
    | None => Some (λ _, true)
    end;
  Some ((to_view ∘ snd) <$>
          Select.select_desc (λ kr, text_clause kr.2 && time_clause kr.2)
            limit (rows t)).
End search.

End PurchaseQueries.

(** ** [monitoring.py]: [log_sale] *)

Module SaleLog.

(** The parameters of [PurchaseDB.add_purchase] ([self] apart); it takes no
    [**kwargs]. *)
Definition add_purchase_parameters : list string :=
  ["customer"; "product"; "amount"; "status"; "customer_email"; "quantity";
   "unit_price"; "discount"; "tax"; "total"; "currency"; "payment_status";
   "fulfillment_status"; "payment_method"; "channel"; "source"; "region";
   "sales_rep"; "invoice_id"; "tags"; "notes"]%string.

(** The keywords of the call [self.db.add_purchase(...)] in [log_sale]. *)
Definition log_sale_keywords : list string :=
  ["customer"; "product"; "amount"; "status"; "customer_email"; "quantity";
   "unit_price"; "discount"; "tax"; "total"; "currency"; "payment_status";
   "payment_terms"; "fulfillment_status"; "payment_method"; "channel";
   "source"; "region"; "sales_rep"; "invoice_id"; "tags"; "notes"]%string.

(** A call by keywords of a function without [**kwargs]: a keyword that is
    no parameter raises [TypeError] before the body runs. *)
Definition bind_keywords (parameters keywords : list string) : Py.result () :=
  if forallb (λ k, bool_decide (k ∈ parameters)) keywords
  then Py.Ok () else Py.Raise Py.TypeError.

(** [log_sale]: the table it leaves. The [try] encloses the call, and
    [except Exception] logs and returns. *)
Definition log_sale (cfg : Config) (now : string) (a : PurchaseDB.args)
    (payment_terms : option string) (t : Sql.table PurchaseDB.purchase)
  : Sql.table PurchaseDB.purchase :=
  match bind_keywords add_purchase_parameters log_sale_keywords with
  | Py.Raise _ => t
  | Py.Ok _ =>
      match PurchaseDB.add_purchase cfg now a t with
      | (Py.Ok _, t') => t'
      | (Py.Raise _, t') => t'
      end
  end.

End SaleLog.

(** ** [db.py]: the read operations of [CustomerDB] *)

Module CustomerQueries.
Import Sql.

(** The dictionary of [get_customer_by_id]: [name] as selected, the other
    columns with [or ""]. *)
Record view := {
  id : Z;
  name : option string;
  email : string;
  phone : string;
  company : string;
  industry : string;
  segment : string;
  status : string;
  lead_source : string;
  address_line1 : string;
  address_line2 : string;
  city : string;
  state : string;
  country : string;
  postal_code : string;
  notes : string;
  last_contact_at : string;
  created_at : string;
  updated_at : string;
}.

Definition to_view (k : Z) (r : CustomerDB.customer) : view := {|
  id := k;
  name := CustomerDB.name r;
  email := Py.str_or (CustomerDB.email r) EmptyString;
  phone := Py.str_or (CustomerDB.phone r) EmptyString;
  company := Py.str_or (CustomerDB.company r) EmptyString;
  industry := Py.str_or (CustomerDB.industry r) EmptyString;
  segment := Py.str_or (CustomerDB.segment r) EmptyString;
  status := Py.str_or (CustomerDB.status r) EmptyString;
  lead_source := Py.str_or (CustomerDB.lead_source r) EmptyString;
  address_line1 := Py.str_or (CustomerDB.address_line1 r) EmptyString;
  address_line2 := Py.str_or (CustomerDB.address_line2 r) EmptyString;
  city := Py.str_or (CustomerDB.city r) EmptyString;
  state := Py.str_or (CustomerDB.state r) EmptyString;
  country := Py.str_or (CustomerDB.country r) EmptyString;
  postal_code := Py.str_or (CustomerDB.postal_code r) EmptyString;
  notes := Py.str_or (CustomerDB.notes r) EmptyString;
  last_contact_at := Py.str_or (CustomerDB.last_contact_at r) EmptyString;
  created_at := Py.str_or (CustomerDB.created_at r) EmptyString;
  updated_at := Py.str_or (CustomerDB.updated_at r) EmptyString;
|}.


(** The dictionary of [list_customers]: eight of the columns. *)
Record summary := {
  s_id : Z;
  s_name : option string;
  s_email : string;
  s_phone : string;
  s_company : string;
  s_industry : string;
  s_status : string;
  s_created_at : string;
}.

Definition to_summary (kr : Z * CustomerDB.customer) : summary := {|
  s_id := kr.1;
  s_name := CustomerDB.name kr.2;
  s_email := Py.str_or (CustomerDB.email kr.2) EmptyString;
  s_phone := Py.str_or (CustomerDB.phone kr.2) EmptyString;
  s_company := Py.str_or (CustomerDB.company kr.2) EmptyString;
  s_industry := Py.str_or (CustomerDB.industry kr.2) EmptyString;
  s_status := Py.str_or (CustomerDB.status kr.2) EmptyString;
  s_created_at := Py.str_or (CustomerDB.created_at kr.2) EmptyString;
|}.

(** [list_customers(limit)]. *)
Definition list_customers (limit : Z) (t : table CustomerDB.customer)
  : list summary :=
  to_summary <$> Select.select_desc (λ _, True) limit (rows t).

Section search.
(** SQLite's [text LIKE pattern]. *)
Variable like : string → string → bool.

(** [name LIKE ? OR email LIKE ? OR phone LIKE ? OR company LIKE ? OR
    industry LIKE ? OR status LIKE ?]: NULL matches nothing. *)
Definition like_any (pattern : string) (r : CustomerDB.customer) : bool :=
  existsb (λ column, from_option (λ text, like text pattern) false column)
    [CustomerDB.name r; CustomerDB.email r; CustomerDB.phone r;
     CustomerDB.company r; CustomerDB.industry r; CustomerDB.status r].

(** [search_customers(query, limit)]. *)
Definition search_customers (query : string) (limit : Z)
    (t : table CustomerDB.customer) : list summary :=
  let pattern := ("%" ++ query ++ "%")%string in
  to_summary <$> Select.select_desc (λ kr, like_any pattern kr.2) limit (rows t).
End search.

End CustomerQueries.

(** A customer row with another update time. *)
Definition touch (now : string) (r : CustomerDB.customer) : CustomerDB.customer := {|
  CustomerDB.name := CustomerDB.name r;
  CustomerDB.email := CustomerDB.email r;
  CustomerDB.phone := CustomerDB.phone r;
  CustomerDB.company := CustomerDB.company r;
  CustomerDB.industry := CustomerDB.industry r;
  CustomerDB.segment := CustomerDB.segment r;
  CustomerDB.status := CustomerDB.status r;
  CustomerDB.lead_source := CustomerDB.lead_source r;
  CustomerDB.address_line1 := CustomerDB.address_line1 r;
  CustomerDB.address_line2 := CustomerDB.address_line2 r;
  CustomerDB.city := CustomerDB.city r;
  CustomerDB.state := CustomerDB.state r;
  CustomerDB.country := CustomerDB.country r;
  CustomerDB.postal_code := CustomerDB.postal_code r;
  CustomerDB.notes := CustomerDB.notes r;
  CustomerDB.last_contact_at := CustomerDB.last_contact_at r;
  CustomerDB.created_at := CustomerDB.created_at r;
  CustomerDB.updated_at := Some now;
|}.


(** ** [db.py]: reading and adding products *)

Module ProductQueries.
Import Sql ProductDB.

(** The Python object the [sqlite3] module returns for a stored value. *)
Definition to_py (v : value) : Py.value :=
  match v with
  | Null => Py.None_
  | Integer z => Py.Int z
  | Real x => Py.Float x
  | Text s => Py.Str s
  end.

(** [v or d]. *)
Definition or_else (v d : Py.value) : Py.value := if Py.truthy v then v else d.

(** [int(str)]: [[sign] digitpart] between optional white space. *)
Definition int_of_str (s : string) : option Z :=
  let '(neg, l) := Py.sign (Py.strip_chars (list_ascii_of_string s)) in
  match Py.digitpart l 0 0 with
  | Some (m, _, []) => Some (if neg then - m else m)
  | _ => None
  end.

(** The builtin [int(v)], [None] when it raises: [TypeError] for [None],
    [OverflowError] for an infinity, [ValueError] for NaN and for a text
    that is no integer; a float is truncated towards zero. *)
Definition to_int (v : Py.value) : option Z :=
  match v with
  | Py.None_ => None
  | Py.Bool b => Some (if b then 1 else 0)
  | Py.Int z => Some z
  | Py.Float (Py.Fin q) => Some (Qnum q ÷ Z.pos (Qden q))
  | Py.Float _ => None
  | Py.Str s => int_of_str s
  end.

(** [float(v or 0)], [None] when it raises. *)
Definition float_or_0 (v : value) : option Py.float :=
  match Py.to_float (or_else (to_py v) (Py.Int 0)) with
  | Py.Ok x => Some x
  | Py.Raise _ => None
  end.

(** [v or ""]. *)
Definition text_or_empty (v : value) : Py.value :=
  or_else (to_py v) (Py.Str EmptyString).

(** The dictionary [list_products] and [get_product_by_id] build for a
    row. *)
Record view := {
  id : Z;
  name : Py.value;
  sku : Py.value;
  category : Py.value;
  price : Py.float;
  cost : Py.float;
  tax_rate : Py.float;
  unit : Py.value;
  description : Py.value;
  features : Py.value;
  best_for : Py.value;
  active : Z;
}.

(** [None] when [float] or [int] raises. *)
Definition to_view (kr : Z * product) : option view :=
  p ← float_or_0 (ProductDB.price kr.2);
  c ← float_or_0 (ProductDB.cost kr.2);
  x ← float_or_0 (ProductDB.tax_rate kr.2);
  a ← to_int (to_py (ProductDB.active kr.2));
  Some {|
    id := kr.1;
    name := to_py (ProductDB.name kr.2);
    sku := text_or_empty (ProductDB.sku kr.2);
    category := text_or_empty (ProductDB.category kr.2);
    price := p;
    cost := c;
    tax_rate := x;
    unit := text_or_empty (ProductDB.unit kr.2);
    description := text_or_empty (ProductDB.description kr.2);
    features := text_or_empty (ProductDB.features kr.2);
    best_for := text_or_empty (ProductDB.best_for kr.2);
    active := a;
  |}.

(** [active = 1] in SQL: a numeric comparison; a text and NULL are not
    equal to 1. *)
Definition is_active (r : product) : bool :=
  match ProductDB.active r with
  | Integer z => z =? 1
  | Real (Py.Fin q) => Qeq_bool q 1
  | _ => false
  end.

(** The rows [list_products] selects, [ORDER BY id ASC]. *)
Definition listed (active_only : bool) (t : table product) : list (Z * product) :=
  filter (λ kr, negb active_only || is_active kr.2) (scan (rows t)).

(** [list_products(active_only)], [None] when building a dictionary
    raises. *)
Definition list_products (active_only : bool) (t : table product)
  : option (list view) :=
  mapM to_view (listed active_only t).

(** [get_product_by_id(product_id)]: [Some None] is the result [None],
    and [None] is raising. *)
Definition get_product_by_id (product_id : Z) (t : table product)
  : option (option view) :=
  match rows t !! product_id with
  | None => Some None
  | Some r => Some <$> to_view (product_id, r)
  end.


End ProductQueries.

(** A product row with another [active] flag and update time. *)
Definition set_active (z : Z) (now : string) (r : ProductDB.product)
  : ProductDB.product := {|
  ProductDB.name := ProductDB.name r;
  ProductDB.sku := ProductDB.sku r;
  ProductDB.category := ProductDB.category r;
  ProductDB.price := ProductDB.price r;
  ProductDB.cost := ProductDB.cost r;
  ProductDB.tax_rate := ProductDB.tax_rate r;
  ProductDB.unit := ProductDB.unit r;
  ProductDB.description := ProductDB.description r;
  ProductDB.features := ProductDB.features r;
  ProductDB.best_for := ProductDB.best_for r;
  ProductDB.active := ProductDB.Integer z;
  ProductDB.created_at := ProductDB.created_at r;
  ProductDB.updated_at := ProductDB.Text now;
|}.

(** A row that [list_products] selects as active and can build its
    dictionary for; a table of such rows. *)
Definition listable (r : ProductDB.product) : Prop :=
  ProductQueries.is_active r = true ∧ ∀ k, is_Some (ProductQueries.to_view (k, r)).

Definition all_listable (t : Sql.table ProductDB.product) : Prop :=
  map_Forall (λ _ r, listable r) (Sql.rows t).

(** A Python value other than a text, and a stored value other than a
    text. *)
Definition not_text (v : Py.value) : Prop :=
  match v with Py.Str _ => False | _ => True end.

Definition numeric (v : ProductDB.value) : Prop :=
  match v with ProductDB.Text _ => False | _ => True end.


(** ** [ui.py]: the table printer

    A [str] is a sequence of characters; the printer only measures, cuts
    and pads, so the characters are a parameter, with those the code
    writes. *)

Module Ui.
Section text.
Context {char V : Type}.
Variables (dot space bar dash : char).
(** [_stringify], whose number formatting stays abstract, and the text
    ["No data."]. *)
Variable _stringify : V → list char.
Variable no_data : list char.

(** [text[:n]]: a negative [n] counts from the end. *)
Definition slice_to (n : Z) (text : list char) : list char :=
  if 0 <=? n then take (Z.to_nat n) text
  else take (length text - Z.to_nat (- n))%nat text.

Definition _truncate (text : list char) (max_width : option Z) : list char :=
  match max_width with
  | None => text
  | Some w =>
      if Z.of_nat (length text) <=? w then text
      else if w <=? 3 then slice_to w text
      else slice_to (w - 3) text ++ [dot; dot; dot]
  end.

(** [text.ljust(width)] and [sep.join(texts)]. *)
Definition ljust (width : nat) (text : list char) : list char :=
  text ++ replicate (width - length text)%nat space.

Fixpoint join (sep : list char) (texts : list (list char)) : list char :=
  match texts with
  | [] => []
  | [x] => x
  | x :: rest => x ++ sep ++ join sep rest
  end.

(** [_truncate(_stringify(row.get(key, "")), max_width)]; the default
    [""] prints as the empty text. *)
Definition cell (max_width : option Z) (row : gmap string V) (key : string)
  : list char :=
  _truncate (from_option _stringify [] (row !! key)) max_width.

(** The loop that computes the width of a column. *)
Definition column_width (max_width : option Z) (rows : list (gmap string V))
    (column : string * list char) : nat :=
  foldl (λ width row, (width `max` length (cell max_width row column.1))%nat)
    (length column.2) rows.

Definition separator : list char := [space; bar; space].

(** Two lists side by side, as [enumerate(columns)] with [widths[i]]. *)
Definition line (widths : list nat) (texts : list (list char)) : list char :=
  join separator (zip_with ljust widths texts).

(** [print_table]: the lines it prints. *)
Definition print_table (rows : list (gmap string V))
    (columns : list (string * list char)) (title : option (list char))
    (max_width : option Z) : list (list char) :=
  let titled := match title with
                | Some (c :: s) => [c :: s]
                | _ => []
                end in
  match rows with
  | [] => titled ++ [no_data]
  | _ =>
      let widths := column_width max_width rows <$> columns in
      let header := line widths (snd <$> columns) in
      titled ++ header :: replicate (length header) dash
        :: ((λ row, line widths ((λ c, cell max_width row c.1) <$> columns)) <$> rows)
  end.
End text.
End Ui.

(** ** [sales_agent.py]: the product a fallback answer recommends *)

Module SalesAgent.
Section choose.
(** A product dictionary, the number of words of the question found in
    its text, and its [price] entry. *)
Context {product : Type}.
Variable score : product → nat.
Variable price : product → Py.value.





End choose.
End SalesAgent.

(** ** [db.py]: [export_purchases_csv]

    The result, and the rows [csv.DictWriter] is given when a file is
    written. *)
Definition export_purchases_csv (cfg : Config) (limit : option Z)
    (t : Sql.table PurchaseDB.purchase) : bool * option (list PurchaseQueries.view) :=
  match PurchaseQueries.get_last_purchases cfg limit t with
  | [] => (false, None)
  | rows => (true, Some rows)
  end.

(** * Proofs *)

(** ** [float] on text *)

Example float_of_str_m3 : Py.float_of_str "-3" = Some (Py.Fin (-3)).
Proof. reflexivity. Qed.
Example float_of_str_abc : Py.float_of_str "abc" = None.
Proof. reflexivity. Qed.
Example float_of_str_dec : Py.float_of_str " 1_0.50e1 " = Some (Py.Fin 105).
Proof. reflexivity. Qed.
Example float_of_str_frac : Py.float_of_str ".25" = Some (Py.Fin (1 # 4)).
Proof. reflexivity. Qed.
Example float_of_str_nan : Py.float_of_str "NaN" = Some Py.NaN.
Proof. reflexivity. Qed.
Example float_of_str_bad : Py.float_of_str "1__0" = None ∧ Py.float_of_str "1e" = None
  ∧ Py.float_of_str "" = None ∧ Py.float_of_str "1._5" = None ∧ Py.float_of_str "- 3" = None.
Proof. repeat split; reflexivity. Qed.


(** ** Rowids, [ORDER BY id DESC LIMIT n] *)

Section rowids.
Context {A : Type}.
Implicit Types (m : gmap Z A) (X : gset Z) (l : list Z) (k : Z).

Lemma foldr_max_ge s l : s ≤ foldr Z.max s l.
Proof. induction l as [|x l IH]; simpl; lia. Qed.

Lemma foldr_max_elem s l x : x ∈ l → x ≤ foldr Z.max s l.
Proof.
  induction l as [|y l IH]; simpl; [by intros ?%elem_of_nil|].
  intros [->|Hx]%elem_of_cons; [lia|]. specialize (IH Hx). lia.
Qed.

Lemma next_rowid_above_keys (t : Sql.table A) k :
  k ∈ dom (Sql.rows t) → k < Sql.next_rowid t.
Proof.
  intros Hk. unfold Sql.next_rowid.
  pose proof (foldr_max_elem (Sql.seq t) (elements (dom (Sql.rows t))) k) as H.
  rewrite elem_of_elements in H. specialize (H Hk). lia.
Qed.

Lemma next_rowid_above_seq (t : Sql.table A) : Sql.seq t < Sql.next_rowid t.
Proof.
  unfold Sql.next_rowid.
  pose proof (foldr_max_ge (Sql.seq t) (elements (dom (Sql.rows t)))). lia.
Qed.

Lemma next_rowid_fresh (t : Sql.table A) : Sql.rows t !! Sql.next_rowid t = None.
Proof.
  apply not_elem_of_dom. intros H%next_rowid_above_keys. lia.
Qed.

Lemma StronglySorted_le_lt l :
  StronglySorted Z.le l → NoDup l → StronglySorted Z.lt l.
Proof.
  induction 1 as [|x l Hs IH Hall]; intros Hnd; constructor.
  - apply IH. by apply NoDup_cons in Hnd as [_ ?].
  - apply NoDup_cons in Hnd as [Hx _].
    rewrite Forall_forall in Hall |- *. intros y Hy.
    specialize (Hall y Hy). assert (x ≠ y) by (intros ->; done). lia.
Qed.

Lemma rowids_perm m : Sql.rowids m ≡ₚ elements (dom m).
Proof. apply merge_sort_Permutation. Qed.

Lemma elem_of_rowids m k : k ∈ Sql.rowids m ↔ k ∈ dom m.
Proof. by rewrite rowids_perm, elem_of_elements. Qed.

Lemma NoDup_rowids m : NoDup (Sql.rowids m).
Proof. rewrite rowids_perm. apply NoDup_elements. Qed.

Lemma rowids_sorted m : StronglySorted Z.lt (Sql.rowids m).
Proof.
  apply StronglySorted_le_lt; [|apply NoDup_rowids].
  apply (StronglySorted_merge_sort _).
Qed.

Lemma rowids_desc_sorted m : StronglySorted (flip Z.lt) (Sql.rowids_desc m).
Proof.
  apply (Sorted_StronglySorted _). apply Sorted_reverse.
  apply StronglySorted_Sorted, rowids_sorted.
Qed.

Lemma filter_none {B} (P : B → Prop) `{∀ x, Decision (P x)} (l : list B) :
  (∀ x, x ∈ l → ¬ P x) → filter P l = [].
Proof.
  induction l as [|x l IH]; intros Hl; [done|].
  rewrite filter_cons_False by (apply Hl; left).
  apply IH. intros y Hy. apply Hl. by right.
Qed.

(** In a strictly descending list, the first [n] entries are those with
    fewer than [n] entries above them. *)
Lemma elem_of_take_desc l n k :
  StronglySorted (flip Z.lt) l →
  k ∈ take n l ↔ k ∈ l ∧ (length (filter (λ j, (k < j)%Z) l) < n)%nat.
Proof.
  intros Hs. revert n. induction Hs as [|x l Hs IH Hall]; intros n.
  - rewrite take_nil. split; [by intros ?%elem_of_nil|by intros [?%elem_of_nil _]].
  - rewrite Forall_forall in Hall. unfold flip in Hall.
    destruct n as [|n]; simpl.
    { split; [by intros ?%elem_of_nil|intros [_ ?]; lia]. }
    rewrite !elem_of_cons, IH.
    destruct (decide (k = x)) as [->|Hne].
    + rewrite filter_cons_False by lia.
      rewrite (filter_none (λ j, x < j) l).
      2:{ intros j Hj ?. specialize (Hall j Hj). lia. }
      simpl. split; [intros _; split; [by left|lia]|intros _; by left].
    + split.
      * intros [?|[Hk Hlen]]; [done|]. split; [by right|].
        rewrite filter_cons_True by (by apply Hall). simpl. lia.
      * intros [[?|Hk] Hlen]; [done|]. right. split; [done|].
        rewrite filter_cons_True in Hlen by (by apply Hall). simpl in Hlen. lia.
Qed.

Lemma above_length X k l :
  l ≡ₚ elements X → length (filter (λ j, k < j) l) = above X k.
Proof.
  intros Hl. unfold above, size, set_size. simpl.
  apply Permutation_length. rewrite Hl.
  apply NoDup_Permutation.
  - apply NoDup_filter, NoDup_elements.
  - apply NoDup_elements.
  - intros j. rewrite list_elem_of_filter, !elem_of_elements, elem_of_filter. done.
Qed.

Lemma elem_of_limit_desc m n k :
  0 ≤ n →
  k ∈ Sql.limit n (Sql.rowids_desc m) ↔ k ∈ dom m ∧ Z.of_nat (above (dom m) k) < n.
Proof.
  intros Hn. unfold Sql.limit. rewrite (proj2 (Z.ltb_ge n 0)) by done.
  rewrite elem_of_take_desc by apply rowids_desc_sorted.
  rewrite (above_length (dom m)).
  - unfold Sql.rowids_desc. rewrite elem_of_reverse, elem_of_rowids.
    split; intros [? ?]; (split; [done|lia]).
  - unfold Sql.rowids_desc. rewrite reverse_Permutation. apply rowids_perm.
Qed.
End rowids.

(** ** The rows with the highest rowids *)

Section top_rows.
Context {A : Type}.
Implicit Types (h m : gmap Z A) (X : gset Z) (k : Z).

Lemma lookup_top_rows n h k v :
  top_rows n h !! k = Some v ↔ h !! k = Some v ∧ Z.of_nat (above (dom h) k) < n.
Proof. unfold top_rows. by rewrite map_lookup_filter_Some. Qed.

Lemma elem_of_dom_top_rows n h k :
  k ∈ dom (top_rows n h) ↔ k ∈ dom h ∧ Z.of_nat (above (dom h) k) < n.
Proof.
  rewrite !elem_of_dom. unfold is_Some. setoid_rewrite lookup_top_rows.
  naive_solver.
Qed.

Lemma filter_limit_top_rows n m :
  0 ≤ n →
  filter (λ kr, kr.1 ∈ Sql.limit n (Sql.rowids_desc m)) m = top_rows n m.
Proof.
  intros Hn. unfold top_rows. apply map_filter_ext. intros k v Hk. simpl.
  rewrite elem_of_limit_desc by done. split; [by intros [_ ?]|].
  intros ?. split; [|done]. apply elem_of_dom. eauto.
Qed.

Lemma above_mono X k j : k ≤ j → (above X j ≤ above X k)%nat.
Proof.
  intros Hkj. unfold above. apply subseteq_size.
  intros i. rewrite !elem_of_filter. intros [? ?]. split; [lia|done].
Qed.

Lemma above_top_rows n h k :
  Z.of_nat (above (dom h) k) < n →
  above (dom (top_rows n h)) k = above (dom h) k.
Proof.
  intros Hk. unfold above. f_equal. apply set_eq. intros j.
  rewrite !elem_of_filter, elem_of_dom_top_rows.
  split; [intros [? [? ?]]; done|]. intros [Hkj Hj]. repeat split; try done.
  pose proof (above_mono (dom h) k j ltac:(lia)). unfold above in *. lia.
Qed.

Lemma above_insert_lt X k i :
  i ∉ X → k < i → above ({[i]} ∪ X) k = S (above X k).
Proof.
  intros Hi Hk. unfold above.
  assert (filter (λ j, k < j) ({[i]} ∪ X) = {[i]} ∪ filter (λ j, k < j) X) as ->.
  { apply set_eq. intros j. rewrite elem_of_union, !elem_of_filter, elem_of_union,
      !elem_of_singleton. naive_solver. }
  rewrite size_union, size_singleton; [done|].
  intros j. rewrite elem_of_singleton, elem_of_filter. naive_solver.
Qed.

Lemma above_insert_top X i :
  (∀ j, j ∈ X → j < i) → above ({[i]} ∪ X) i = 0%nat.
Proof.
  intros HX. unfold above. apply size_empty_iff. intros j.
  rewrite elem_of_filter, elem_of_union, elem_of_singleton.
  split; [|by intros ?%elem_of_empty]. intros [? [->|?%HX]]; lia.
Qed.

(** Inserting above every key ever used commutes with trimming. *)
Lemma top_rows_insert_top n h i r :
  (∀ j, j ∈ dom h → j < i) →
  top_rows n (<[i := r]> (top_rows n h)) = top_rows n (<[i := r]> h).
Proof.
  intros Hi. apply map_eq. intros k. apply option_eq. intros v.
  rewrite !lookup_top_rows, !dom_insert_L.
  assert (∀ j, j ∈ dom (top_rows n h) → j < i) as Hi'.
  { intros j [? _]%elem_of_dom_top_rows. by apply Hi. }
  assert (i ∉ dom h) as Hfresh by (intros ?%Hi; lia).
  assert (i ∉ dom (top_rows n h)) as Hfresh' by (intros ?%Hi'; lia).
  destruct (decide (k = i)) as [->|Hne].
  - rewrite !lookup_insert_eq, !above_insert_top by done. done.
  - rewrite !lookup_insert_ne, lookup_top_rows by done.
    split.
    + intros [[Hk Hn] Hn']. split; [done|].
      assert (k < i) as Hki by (apply Hi, elem_of_dom; eauto).
      rewrite above_insert_lt in Hn' by done.
      rewrite above_insert_lt by done.
      rewrite above_top_rows in Hn' by done. done.
    + intros [Hk Hn].
      assert (k < i) as Hki by (apply Hi, elem_of_dom; eauto).
      rewrite above_insert_lt in Hn by done.
      assert (Z.of_nat (above (dom h) k) < n) by lia.
      rewrite above_insert_lt, above_top_rows by done. done.
Qed.

Lemma top_rows_size n h : 0 ≤ n → Z.of_nat (size (top_rows n h)) ≤ n.
Proof.
  intros Hn. rewrite <-filter_limit_top_rows by done.
  set (keep := Sql.limit n (Sql.rowids_desc h)).
  assert (NoDup keep) as Hnd.
  { unfold keep, Sql.limit. rewrite (proj2 (Z.ltb_ge n 0)) by done.
    eapply sublist_NoDup; [|apply sublist_take]. unfold Sql.rowids_desc.
    rewrite reverse_Permutation. apply NoDup_rowids. }
  assert (length keep ≤ Z.to_nat n)%nat as Hlen.
  { unfold keep, Sql.limit. rewrite (proj2 (Z.ltb_ge n 0)) by done.
    rewrite length_take. lia. }
  rewrite <-size_dom.
  assert (dom (filter (λ kr : Z * A, kr.1 ∈ keep) h) ⊆ (list_to_set keep : gset Z)) as Hsub.
  { intros k [v [_ Hk]%map_lookup_filter_Some]%elem_of_dom.
    by apply elem_of_list_to_set. }
  apply subseteq_size in Hsub. rewrite size_list_to_set in Hsub by done. lia.
Qed.

(** A table within the bound is its own top rows. *)
Lemma top_rows_id n h : Z.of_nat (size h) ≤ n → top_rows n h = h.
Proof.
  intros Hn. unfold top_rows. apply map_filter_id. intros k v Hk. simpl.
  assert (above (dom h) k < size (dom h))%nat; [|rewrite size_dom in *; lia].
  unfold above. apply subset_size. split.
  - intros j [_ ?]%elem_of_filter. done.
  - intros Hsub. assert (k ∈ dom h) as Hd by (apply elem_of_dom; eauto).
    apply Hsub in Hd. apply elem_of_filter in Hd as [? _]. lia.
Qed.
End top_rows.

(** ** The purchase ledger *)

Section ledger.
Import PurchaseDB Sql.
Variable cfg : Config.
Abbreviation n := (MAX_RECENT_PURCHASES cfg).
Implicit Types (t : table purchase) (h : gmap Z purchase).

Lemma add_purchase_stored now a t r :
  stored cfg now a = Some r →
  add_purchase cfg now a t = (Py.Ok (), evict n (insert r t)).
Proof.
  unfold stored, add_purchase, add_purchase_trace, execute, insert_purchase.
  destruct (prepare cfg now a) as [r'|e]; [|done].
  destruct (not_null_ok r') eqn:Hnn; [|done]. intros [= ->].
  done.
Qed.

Lemma add_purchase_not_stored now a t :
  stored cfg now a = None → (add_purchase cfg now a t).2 = t.
Proof.
  unfold stored, add_purchase, add_purchase_trace, execute, insert_purchase.
  destruct (prepare cfg now a) as [r'|e]; [|done].
  destruct (not_null_ok r') eqn:Hnn; [done|]. intros _.
  done.
Qed.

Lemma rows_evict_insert t r :
  0 ≤ n →
  rows (evict n (insert r t)) = top_rows n (<[next_rowid t := r]> (rows t)).
Proof. intros Hn. unfold evict, insert. simpl. by apply filter_limit_top_rows. Qed.

Lemma add_purchase_size now a t :
  Z.of_nat (size (rows t)) ≤ n →
  Z.of_nat (size (rows (add_purchase cfg now a t).2)) ≤ n.
Proof.
  intros Hsz. destruct (stored cfg now a) as [r|] eqn:Hst.
  - rewrite (add_purchase_stored _ _ _ _ Hst). cbn [snd].
    rewrite rows_evict_insert by lia. apply top_rows_size. lia.
  - by rewrite add_purchase_not_stored.
Qed.

Lemma record_all_size calls t :
  Z.of_nat (size (rows t)) ≤ n →
  Z.of_nat (size (rows (record_all cfg calls t))) ≤ n.
Proof.
  revert t. induction calls as [|c calls IH]; intros t Hsz; [done|].
  simpl. apply IH. by apply add_purchase_size.
Qed.

Lemma step_history_inv th c :
  0 ≤ n → ledger_inv n th → ledger_inv n (step_history cfg th c).
Proof.
  intros Hn [Hrows Hnext]. destruct th as [t h]. simpl in *.
  unfold step_history, ledger_inv. simpl.
  destruct (stored cfg c.1 c.2) as [r|] eqn:Hst.
  - rewrite (add_purchase_stored _ _ _ _ Hst). simpl. split.
    + rewrite filter_limit_top_rows by done. rewrite Hrows.
      by apply top_rows_insert_top.
    + intros j Hj.
      pose proof (next_rowid_above_seq (evict n (insert r t))) as Hseq.
      simpl in Hseq. rewrite dom_insert_L in Hj.
      apply elem_of_union in Hj as [->%elem_of_singleton|Hj]; [done|].
      specialize (Hnext j Hj). lia.
  - rewrite add_purchase_not_stored by done. done.
Qed.

Lemma foldl_step_history_fst calls th :
  (foldl (step_history cfg) th calls).1 = record_all cfg calls th.1.
Proof.
  revert th. induction calls as [|c calls IH]; intros th; [done|].
  simpl. rewrite IH. done.
Qed.

Lemma foldl_step_history_inv calls th :
  0 ≤ n → ledger_inv n th → ledger_inv n (foldl (step_history cfg) th calls).
Proof.
  intros Hn. revert th. induction calls as [|c calls IH]; intros th Hinv; [done|].
  simpl. apply IH. by apply step_history_inv.
Qed.

Lemma foldl_step_history_mono calls th :
  0 ≤ n → ledger_inv n th → th.2 ⊆ (foldl (step_history cfg) th calls).2.
Proof.
  intros Hn. revert th. induction calls as [|c calls IH]; intros th Hinv; [done|].
  simpl. etrans; [|apply IH; by apply step_history_inv].
  unfold step_history. simpl. destruct (stored cfg c.1 c.2); [|done].
  apply insert_subseteq, not_elem_of_dom. intros Hk.
  destruct Hinv as [_ Hnext]. specialize (Hnext _ Hk). lia.
Qed.

Lemma history_initial calls t k r :
  Z.of_nat (size (rows t)) ≤ n →
  rows t !! k = Some r → history cfg calls t !! k = Some r.
Proof.
  intros Hsz Hk. eapply lookup_weaken; [exact Hk|].
  apply (foldl_step_history_mono calls (t, rows t)); [lia|].
  split; simpl; [by rewrite top_rows_id|]. apply next_rowid_above_keys.
Qed.

Lemma record_all_top_rows calls t :
  Z.of_nat (size (rows t)) ≤ n →
  rows (record_all cfg calls t) = top_rows n (history cfg calls t).
Proof.
  intros Hsz.
  destruct (foldl_step_history_inv calls (t, rows t)) as [Hrows _].
  - lia.
  - split; simpl; [by rewrite top_rows_id|]. apply next_rowid_above_keys.
  - rewrite foldl_step_history_fst in Hrows. done.
Qed.

(** The clock reading has no part in which rows a call leaves. *)
Lemma stored_is_Some_clock now now' a :
  is_Some (stored cfg now a) ↔ is_Some (stored cfg now' a).
Proof.
  unfold stored, prepare.
  destruct (if Py.truthy (arg_quantity a) then _ else _) as [q|e]; simpl; [|done].
  destruct (Py.float_or (arg_amount a) Py.zero) as [am|e]; simpl; [|done].
  destruct (Py.float_or (if Py.is_none (arg_unit_price a) then _ else _) _) as [up|e];
    simpl; [|done].
  destruct (Py.float_or (arg_discount a) Py.zero) as [d|e]; simpl; [|done].
  destruct (Py.float_or (arg_tax a) Py.zero) as [tx|e]; simpl; [|done].
  destruct (Py.float_or (if Py.is_none (arg_total a) then _ else _) _) as [tot|e];
    simpl; [|done].
  unfold not_null_ok. simpl.
  destruct (_ && _ && _ && _); [split; eauto|done].
Qed.

Lemma next_rowid_same_keys t t' : same_keys t t' → next_rowid t = next_rowid t'.
Proof. intros [Hd Hs]. unfold next_rowid. by rewrite Hd, Hs. Qed.

Lemma add_purchase_same_keys now now' a t t' :
  same_keys t t' →
  same_keys (add_purchase cfg now a t).2 (add_purchase cfg now' a t').2.
Proof.
  intros Hk. pose proof (stored_is_Some_clock now now' a) as Hst.
  destruct (stored cfg now a) as [r|] eqn:H1, (stored cfg now' a) as [r'|] eqn:H2.
  - rewrite (add_purchase_stored _ _ _ _ H1), (add_purchase_stored _ _ _ _ H2).
    pose proof (next_rowid_same_keys _ _ Hk) as Hnx.
    destruct Hk as [Hd Hs]. split; simpl; [|done].
    assert (rowids_desc (<[next_rowid t:=r]> (rows t))
            = rowids_desc (<[next_rowid t':=r']> (rows t'))) as ->.
    { unfold rowids_desc, rowids. by rewrite !dom_insert_L, Hd, Hnx. }
    apply set_eq. intros k. rewrite !elem_of_dom. unfold is_Some.
    setoid_rewrite map_lookup_filter_Some. simpl.
    assert (is_Some (<[next_rowid t:=r]> (rows t) !! k)
            ↔ is_Some (<[next_rowid t':=r']> (rows t') !! k)) as Hiff.
    { rewrite <-!elem_of_dom, !dom_insert_L, Hd, Hnx. done. }
    unfold is_Some in Hiff. naive_solver.
  - destruct Hst as [Hst _]. destruct Hst; [eauto|done].
  - destruct Hst as [_ Hst]. destruct Hst; [eauto|done].
  - by rewrite !add_purchase_not_stored.
Qed.

Lemma record_all_same_keys calls calls' t t' :
  calls.*2 = calls'.*2 → same_keys t t' →
  same_keys (record_all cfg calls t) (record_all cfg calls' t').
Proof.
  revert calls' t t'. induction calls as [|[now a] calls IH];
    intros [|[now' a'] calls'] t t' Heq Hk; try done.
  simpl in Heq. injection Heq as -> Heq. simpl.
  apply IH; [done|]. by apply add_purchase_same_keys.
Qed.

Lemma add_purchase_observed_atomic now a t s :
  s ∈ add_purchase_observed cfg now a t → s = t ∨ s = (add_purchase cfg now a t).2.
Proof.
  unfold add_purchase_observed, add_purchase, add_purchase_trace, execute.
  destruct (prepare cfg now a) as [r|e]; [|set_solver].
  destruct (insert_purchase r (view (connect t))) as [t1|e]; simpl;
    rewrite ?elem_of_cons; intros Hs; set_solver.
Qed.
End ledger.

Example three_sales_history :
  dom (history cfg2 three_sales empty_purchases) = {[1; 2; 3]}.
Proof. vm_compute. reflexivity. Qed.

Example three_sales_keep_last_two :
  dom (Sql.rows (PurchaseDB.record_all cfg2 three_sales empty_purchases)) = {[2; 3]}.
Proof. vm_compute. reflexivity. Qed.

(** C1. For every sequence of [add_purchase] calls, from any table that
    holds at most [MAX_RECENT_PURCHASES] rows: afterwards (so after each
    call, every prefix being a sequence) the table holds at most
    [MAX_RECENT_PURCHASES] rows; it holds exactly those rows, of all the rows
    it held at the start or that a call inserted (the history), that have
    fewer than [MAX_RECENT_PURCHASES] rowids above theirs, each unchanged; the rowids
    kept are the same whatever the clock read at each call; and the committed
    table another connection reads during a call is the table before the call
    or the table after it (insert and eviction are one transaction). *)
Theorem add_purchase_retention (cfg : Config)
    (calls : list (string * PurchaseDB.args))
    (t : Sql.table PurchaseDB.purchase) :
  Z.of_nat (size (Sql.rows t)) ≤ MAX_RECENT_PURCHASES cfg →
  let t' := PurchaseDB.record_all cfg calls t in
  let h := history cfg calls t in
  Z.of_nat (size (Sql.rows t')) ≤ MAX_RECENT_PURCHASES cfg
  ∧ (∀ k r, Sql.rows t !! k = Some r → h !! k = Some r)
  ∧ (∀ k r, Sql.rows t' !! k = Some r ↔
       h !! k = Some r ∧ Z.of_nat (above (dom h) k) < MAX_RECENT_PURCHASES cfg)
  ∧ (∀ calls', calls'.*2 = calls.*2 →
       dom (Sql.rows (PurchaseDB.record_all cfg calls' t)) = dom (Sql.rows t'))
  ∧ (∀ now a s, s ∈ PurchaseDB.add_purchase_observed cfg now a t' →
       s = t' ∨ s = (PurchaseDB.add_purchase cfg now a t').2).
Proof.
  intros Hsz t' h. split; [|split; [|split; [|split]]].
  - by apply record_all_size.
  - intros k r. by apply history_initial.
  - intros k r. unfold t', h. rewrite record_all_top_rows by done.
    apply lookup_top_rows.
  - intros calls' Heq.
    by destruct (record_all_same_keys cfg calls' calls t t Heq).
  - intros now a s. apply add_purchase_observed_atomic.
Qed.

Lemma add_purchase_retention_witness :
  Z.of_nat (size (Sql.rows empty_purchases)) ≤ MAX_RECENT_PURCHASES cfg2
  ∧ Z.of_nat (size (Sql.rows (PurchaseDB.record_all cfg2 three_sales empty_purchases)))
    ≤ MAX_RECENT_PURCHASES cfg2.
Proof.
  assert (Z.of_nat (size (Sql.rows empty_purchases)) ≤ MAX_RECENT_PURCHASES cfg2) as H.
  { vm_compute. discriminate. }
  split; [exact H|].
  exact (proj1 (add_purchase_retention cfg2 three_sales empty_purchases H)).
Defined.

(** ** The row a call writes *)

Section written_row.
Import PurchaseDB Sql.
Variable cfg : Config.
Implicit Types (t : table purchase) (a : args) (r : purchase).











Lemma float_or_float x d : Py.float_or (Py.Float x) d = Py.Ok x.
Proof. done. Qed.
End written_row.

Section written_row_args.
Import PurchaseDB Sql.
Variable cfg : Config.
Implicit Types (t : table purchase) (a : args) (r : purchase).


Lemma float_or_ok_not_none v d x :
  Py.is_none v = true → Py.float_or v d = Py.Ok x → False.
Proof. by destruct v. Qed.

End written_row_args.








(** ** Table scans *)

Section scan.
Context {A : Type}.
Implicit Types (m : gmap Z A) (k : Z).

Lemma elem_of_scan m k r : (k, r) ∈ Sql.scan m ↔ m !! k = Some r.
Proof.
  unfold Sql.scan. rewrite list_elem_of_omap. split.
  - intros (k' & _ & Hk'). destruct (m !! k') as [r'|] eqn:E; [|done].
    simpl in Hk'. by injection Hk' as -> ->.
  - intros Hk. exists k. split; [|by rewrite Hk].
    apply elem_of_rowids, elem_of_dom. eauto.
Qed.

Lemma scan_fst m : (Sql.scan m).*1 = Sql.rowids m.
Proof.
  unfold Sql.scan.
  assert (∀ k, k ∈ Sql.rowids m → is_Some (m !! k)) as Hall.
  { intros k. by rewrite elem_of_rowids, elem_of_dom. }
  induction (Sql.rowids m) as [|k l IH]; [done|]. simpl.
  destruct (Hall k) as [r Hr]; [by left|]. rewrite Hr. simpl. f_equal.
  apply IH. intros k' ?. apply Hall. by right.
Qed.

Lemma filter_scan_nil (P : Z * A → Prop) `{∀ x, Decision (P x)} m :
  (∀ k r, m !! k = Some r → ¬ P (k, r)) → filter P (Sql.scan m) = [].
Proof.
  intros Hm. apply filter_none. intros [k r] Hkr%elem_of_scan. by apply Hm.
Qed.
End scan.

(** ** Text order *)

Lemma ascii_compare_refl c : Ascii.compare c c = Eq.
Proof. unfold Ascii.compare. apply N.compare_refl. Qed.

Lemma ascii_compare_trans c1 c2 c3 o :
  Ascii.compare c1 c2 = o → Ascii.compare c2 c3 = o → Ascii.compare c1 c3 = o.
Proof.
  unfold Ascii.compare. destruct o.
  - rewrite !N.compare_eq_iff. congruence.
  - rewrite !N.compare_lt_iff. apply N.lt_trans.
  - rewrite !N.compare_gt_iff. intros ? ?. by apply N.lt_trans with (N_of_ascii c2).
Qed.

Lemma string_compare_refl s : String.compare s s = Eq.
Proof. induction s as [|c s IH]; [done|]. simpl. by rewrite ascii_compare_refl. Qed.

Lemma string_compare_lt_trans s1 s2 s3 :
  String.compare s1 s2 = Lt → String.compare s2 s3 = Lt → String.compare s1 s3 = Lt.
Proof.
  revert s2 s3. induction s1 as [|c1 s1 IH]; intros [|c2 s2] [|c3 s3]; simpl; try done.
  destruct (Ascii.compare c1 c2) eqn:E1; [|clear IH|done];
    destruct (Ascii.compare c2 c3) eqn:E2; try done.
  - rewrite (ascii_compare_trans _ _ _ _ E1 E2). apply IH.
  - apply Ascii.compare_eq_iff in E1 as ->. by rewrite E2.
  - apply Ascii.compare_eq_iff in E2 as <-. by rewrite E1.
  - by rewrite (ascii_compare_trans _ _ _ _ E1 E2).
Qed.

Lemma string_leb_iff s1 s2 :
  String.leb s1 s2 = true ↔ String.compare s1 s2 = Lt ∨ s1 = s2.
Proof.
  unfold String.leb. split.
  - destruct (String.compare s1 s2) eqn:E; [|by left|done].
    right. by apply String.compare_eq_iff.
  - intros [->| ->]; [done|]. by rewrite string_compare_refl.
Qed.

#[global] Instance text_le_trans : Transitive PurchaseDB.text_le.
Proof.
  intros s1 s2 s3. unfold PurchaseDB.text_le. rewrite !Is_true_true, !string_leb_iff.
  intros [H1| ->] [H2| <-]; eauto using string_compare_lt_trans.
Qed.

#[global] Instance text_le_total : Total PurchaseDB.text_le.
Proof.
  intros s1 s2. unfold PurchaseDB.text_le. rewrite !Is_true_true.
  apply String.leb_total.
Qed.



(** ** Daily summary and trend *)

(** C8. For a date label that no purchase's timestamp has as its date,
    [get_daily_summary] returns count 0, revenue 0, average 0; it is a total
    function (no division is evaluated on an empty selection). *)
Theorem get_daily_summary_no_purchase (sql_date : string → option string)
    (t : Sql.table PurchaseDB.purchase) (date_label : string) :
  (∀ k r, Sql.rows t !! k = Some r →
          PurchaseDB.date_of sql_date r ≠ Some date_label) →
  PurchaseDB.get_daily_summary sql_date t date_label
  = {| PurchaseDB.count := 0; PurchaseDB.revenue := Py.zero; PurchaseDB.avg := Py.zero |}.
Proof.
  intros Hnone. unfold PurchaseDB.get_daily_summary.
  rewrite (filter_scan_nil
             (λ kr, PurchaseDB.date_of sql_date kr.2 = Some date_label)); [done|].
  intros k r Hr. simpl. by apply (Hnone k).
Qed.

Section trend.
Import PurchaseDB.
Variable sql_date : string → option string.
Variable date_now_minus : Z → string.
Implicit Types (t : Sql.table purchase) (d : string).

Lemma trend_dates t days :
  0 < days →
  date <$> get_sales_trend sql_date date_now_minus t days
  = merge_sort text_le (remove_dups (omap (date_of sql_date ∘ snd)
      (filter (λ kr, in_window sql_date (date_now_minus (days - 1)) kr.2)
         (Sql.scan (Sql.rows t))))).
Proof.
  intros Hd. unfold get_sales_trend. rewrite (proj2 (Z.leb_gt days 0)) by done.
  rewrite <-list_fmap_compose.
  induction (merge_sort _ _) as [|d l IH]; [done|]. csimpl. by f_equal.
Qed.

Lemma elem_of_trend_dates t days d :
  0 < days →
  d ∈ date <$> get_sales_trend sql_date date_now_minus t days ↔
  text_le (date_now_minus (days - 1)) d
  ∧ ∃ k r, Sql.rows t !! k = Some r ∧ date_of sql_date r = Some d.
Proof.
  intros Hd. rewrite trend_dates by done.
  rewrite merge_sort_Permutation, elem_of_remove_dups, list_elem_of_omap.
  split.
  - intros ([k r] & [Hw Hkr%elem_of_scan]%list_elem_of_filter & Hdate).
    simpl in *. unfold in_window in Hw. rewrite Hdate in Hw. eauto.
  - intros (Hlo & k & r & Hr & Hdate). exists (k, r). split; [|done].
    apply list_elem_of_filter. split; [|by apply elem_of_scan].
    simpl. unfold in_window. by rewrite Hdate.
Qed.


Lemma trend_entry t days e :
  e ∈ get_sales_trend sql_date date_now_minus t days →
  text_le (date_now_minus (days - 1)) (date e)
  ∧ (∃ k r, Sql.rows t !! k = Some r ∧ date_of sql_date r = Some (date e))
  ∧ day_revenue e
    = float_or_0 (Sql.sum ((revenue_of ∘ snd) <$>
        filter (λ kr, date_of sql_date kr.2 = Some (date e)) (Sql.scan (Sql.rows t)))).
Proof.
  intros He. destruct (decide (0 < days)) as [Hd|Hd].
  2:{ unfold get_sales_trend in He. rewrite (proj2 (Z.leb_le days 0)) in He by lia.
      by apply elem_of_nil in He. }
  assert (date e ∈ date <$> get_sales_trend sql_date date_now_minus t days) as Hin
    by (by apply list_elem_of_fmap_2).
  apply elem_of_trend_dates in Hin as [Hlo Hex]; [|done].
  split; [done|]. split; [done|].
  unfold get_sales_trend in He. rewrite (proj2 (Z.leb_gt days 0)) in He by done.
  apply list_elem_of_fmap in He as (d & -> & _). simpl in *.
  do 3 f_equal. rewrite list_filter_filter. apply list_filter_iff.
  intros [k r]. simpl. split; [by intros [? _]|]. intros Hdate. split; [done|].
  unfold in_window. by rewrite Hdate.
Qed.
End trend.

(** ** The customer directory *)

Section first_match.
Context {A : Type}.
Implicit Types (m : gmap Z A) (k : Z).

Lemma StronglySorted_fmap_inv {B C} (f : B → C) (R : relation C) (l : list B) :
  StronglySorted R (f <$> l) → StronglySorted (λ a b, R (f a) (f b)) l.
Proof.
  induction l as [|x l IH]; csimpl; intros Hs; [constructor|].
  apply StronglySorted_inv in Hs as [Hs Hall]. constructor; [by apply IH|].
  by rewrite Forall_fmap in Hall.
Qed.

Lemma scan_sorted m : StronglySorted (λ a b, a.1 < b.1) (Sql.scan m).
Proof. apply StronglySorted_fmap_inv. rewrite scan_fst. apply rowids_sorted. Qed.

Lemma head_filter_sorted {B} (R : relation B) (P : B → Prop)
    `{∀ x, Decision (P x)} (l : list B) (x : B) :
  StronglySorted R l → head (filter P l) = Some x →
  x ∈ l ∧ P x ∧ ∀ y, y ∈ l → P y → x = y ∨ R x y.
Proof.
  induction 1 as [|a l Hs IH Hall]; [done|].
  rewrite Forall_forall in Hall. destruct (decide (P a)) as [Ha|Ha].
  - rewrite filter_cons_True by done. intros [= ->].
    split; [by left|]. split; [done|].
    intros y [->|Hy]%elem_of_cons _; [by left|]. right. by apply Hall.
  - rewrite filter_cons_False by done. intros Hx.
    destruct (IH Hx) as (Hin & HP & Hmin). split; [by right|]. split; [done|].
    intros y [->|Hy]%elem_of_cons Hy'; [done|]. by apply Hmin.
Qed.

(** [fetchone()] over a scan: the matching row of least rowid. *)
Lemma first_match_Some (P : Z * A → Prop) `{∀ x, Decision (P x)} m k :
  fst <$> head (filter P (Sql.scan m)) = Some k →
  ∃ r, m !! k = Some r ∧ P (k, r)
       ∧ ∀ k' r', m !! k' = Some r' → P (k', r') → k ≤ k'.
Proof.
  destruct (head (filter P (Sql.scan m))) as [[k0 r]|] eqn:Hhd; [|done].
  intros [= ->]. exists r.
  destruct (head_filter_sorted _ P _ _ (scan_sorted m) Hhd) as (Hin & HP & Hmin).
  split; [by apply elem_of_scan|]. split; [done|].
  intros k' r' Hk' HP'. destruct (Hmin (k', r')) as [[= <- <-]|Hlt];
    [by apply elem_of_scan|done|lia|simpl in Hlt; lia].
Qed.

Lemma first_match_None (P : Z * A → Prop) `{∀ x, Decision (P x)} m :
  fst <$> head (filter P (Sql.scan m)) = None ↔
  ∀ k r, m !! k = Some r → ¬ P (k, r).
Proof.
  split.
  - destruct (filter P (Sql.scan m)) as [|x l] eqn:Hf; [|done]. intros _ k r Hk HP.
    eapply filter_nil_not_elem_of; [exact Hf|exact HP|]. by apply elem_of_scan.
  - intros Hm. by rewrite filter_scan_nil.
Qed.
End first_match.

Section upsert.
Import CustomerDB Sql.
Implicit Types (t : table customer) (c : cleaned) (r : customer).

Lemma truthy_str s : Py.truthy (Py.Str s) = true ↔ s ≠ EmptyString.
Proof.
  simpl. rewrite negb_true_iff. split.
  - intros Hs ->. done.
  - intros Hs. apply String.eqb_neq. done.
Qed.

Lemma merge_empty stored : merge EmptyString stored = stored.
Proof. by destruct stored. Qed.

Lemma merge_incoming s stored : s ≠ EmptyString → merge s stored = Some s.
Proof.
  intros Hs. unfold merge, nullif_empty.
  apply String.eqb_neq in Hs. by rewrite Hs.
Qed.

Lemma alter_lookup_insert {B} (f : B → B) (m : gmap Z B) k x :
  m !! k = Some x → alter f k m = <[k := f x]> m.
Proof.
  intros Hk. apply map_eq. intros j. rewrite lookup_alter, lookup_insert.
  destruct (decide (k = j)) as [->|]; [by rewrite Hk|done].
Qed.

Lemma resolve_email c t k :
  c_email c ≠ EmptyString → select_by_email (c_email c) t = Some k →
  resolve c t = Some k.
Proof.
  intros He Hsel. unfold resolve.
  rewrite (proj2 (truthy_str _) He), Hsel. done.
Qed.

Lemma resolve_name c t :
  c_email c = EmptyString ∨ select_by_email (c_email c) t = None →
  resolve c t = select_by_name (c_name c) t.
Proof.
  intros [He|Hsel]; unfold resolve.
  - rewrite He. done.
  - rewrite Hsel. by destruct (Py.truthy _).
Qed.
End upsert.


(** ** The product catalog *)

Section rowid_arith.
Context {A : Type}.

Lemma foldr_max_bound s (l : list Z) :
  (∀ x, x ∈ l → x ≤ s) → foldr Z.max s l = s.
Proof.
  induction l as [|y l IH]; intros Hl; [done|]. simpl.
  rewrite IH by (intros x Hx; apply Hl; by right).
  specialize (Hl y ltac:(by left)). lia.
Qed.

Lemma next_rowid_insert (r : A) (t : Sql.table A) :
  Sql.next_rowid (Sql.insert r t) = Sql.next_rowid t + 1.
Proof.
  unfold Sql.insert. unfold Sql.next_rowid at 1. cbn [Sql.rows Sql.seq].
  rewrite foldr_max_bound; [done|]. intros x.
  rewrite elem_of_elements, dom_insert_L, elem_of_union, elem_of_singleton.
  intros [->|Hx%next_rowid_above_keys]; lia.
Qed.

Lemma rows_insert (r : A) (t : Sql.table A) :
  Sql.rows (Sql.insert r t) = <[Sql.next_rowid t := r]> (Sql.rows t).
Proof. done. Qed.
End rowid_arith.

Section seeding.
Import ProductDB Sql.
Variable cv : conversions.
Variable now : string.
Implicit Types (t : table product).

Lemma seed_from_csv_cons p ps t seeded :
  seed_from_csv cv now (p :: ps) t seeded =
    let name :=
      Py.strip (default EmptyString
                  (first_truthy [p !! "name"; p !! "Product_Name"]))%string in
    if negb (Py.truthy (Py.Str name)) then seed_from_csv cv now ps t seeded
    else
      let price :=
        from_option Py.Str (Py.Int 0) (first_truthy [p !! "price"; p !! "Price"])%string in
      let features :=
        default EmptyString (first_truthy [p !! "features"; p !! "Features"])%string in
      let best_for :=
        default EmptyString (first_truthy [p !! "best_for"; p !! "Best_For"])%string in
      match
        x ← Py.to_float price;
        insert_product cv (Py.Str name) (Py.Str "") (Py.Str "") (Py.Float x)
          (Py.Float Py.zero) (Py.Float Py.zero) (Py.Str "") (Py.Str "")
          (Py.Str features) (Py.Str best_for) (Py.Str now) (Py.Str now) t
      with
      | Py.Ok t' => seed_from_csv cv now ps t' true
      | Py.Raise _ => (t, seeded)
      end.
Proof. done. Qed.

(** One record of the seed file with a name and a price that [float]
    reads. *)
Lemma seed_from_csv_step p ps t seeded name price features best_for :
  Py.strip (default EmptyString
              (first_truthy [p !! "name"; p !! "Product_Name"]))%string = name →
  Py.truthy (Py.Str name) = true →
  Py.to_float (from_option Py.Str (Py.Int 0)
                 (first_truthy [p !! "price"; p !! "Price"])%string) = Py.Ok price →
  Py.is_nan price = false →
  default EmptyString (first_truthy [p !! "features"; p !! "Features"])%string = features →
  default EmptyString (first_truthy [p !! "best_for"; p !! "Best_For"])%string = best_for →
  seed_from_csv cv now (p :: ps) t seeded
  = seed_from_csv cv now ps (insert (csv_product now name price features best_for) t) true.
Proof.
  intros Hn Ht Hp Hnan Hf Hb. rewrite seed_from_csv_cons. cbv zeta.
  rewrite Hn, Ht, Hp, Hf, Hb. cbn [negb mbind Py.result_bind].
  unfold insert_product, bind_value. rewrite Hnan. done.
Qed.

Lemma seed_from_csv_samples t :
  seed_from_csv cv now DataFiles.sample_products t false
  = (foldl (λ t r, insert r t) t (seeded_products now), true).
Proof.
  unfold DataFiles.sample_products, seeded_products.
  do 3 (erewrite seed_from_csv_step; [|vm_compute; reflexivity ..]).
  done.
Qed.
End seeding.

(** C5. A construction that finds the products table empty and no seed
    file leaves exactly three products, the built-in samples (which
    [ensure_data_files] has written to the seed file by then, so that they
    carry no SKU and no category), all with [active] 1; a construction that
    finds a row leaves the table as it is, whatever the seed file holds. *)
Theorem product_seeding (cv : ProductDB.conversions) (now : string)
    (t : Sql.table ProductDB.product) :
  (Sql.rows t = ∅ →
   ∃ t' r1 r2 r3,
     ProductDB.init cv now None t
     = (Some (DataFiles.Csv DataFiles.sample_products), (Py.Ok (), t'))
     ∧ seeded_products now = [r1; r2; r3]
     ∧ Sql.rows t'
       = <[Sql.next_rowid t + 2 := r3]>
           (<[Sql.next_rowid t + 1 := r2]> (<[Sql.next_rowid t := r1]> ∅))
     ∧ size (Sql.rows t') = 3%nat
     ∧ ∀ k r, Sql.rows t' !! k = Some r →
              ProductDB.active r = ProductDB.Integer 1 ∧ r ∈ seeded_products now)
  ∧ (∀ f, Sql.rows t ≠ ∅ → (ProductDB.init cv now f t).2 = (Py.Ok (), t)).
Proof.
  split.
  - intros Hrows. eexists _, _, _, _.
    unfold ProductDB.init, DataFiles.ensure_data_files, ProductDB._seed_if_empty.
    rewrite Hrows, map_size_empty.
    rewrite bool_decide_false by lia.
    rewrite seed_from_csv_samples. cbn [foldl seeded_products].
    split; [reflexivity|]. split; [reflexivity|].
    rewrite !rows_insert, !next_rowid_insert, Hrows.
    replace (Sql.next_rowid t + 1 + 1) with (Sql.next_rowid t + 2) by lia.
    split; [reflexivity|]. split.
    + rewrite !map_size_insert_None, map_size_empty; [done|..].
      * apply lookup_empty.
      * rewrite lookup_insert_ne by lia. apply lookup_empty.
      * rewrite !lookup_insert_ne by lia. apply lookup_empty.
    + intros k r. rewrite !lookup_insert_Some, lookup_empty.
      intros [[_ <-]|[_ [[_ <-]|[_ [[_ <-]|[_ ?]]]]]]; [..|done];
        (split; [done|]); set_solver.
  - intros f Hne. unfold ProductDB.init, ProductDB._seed_if_empty. cbn [snd].
    rewrite bool_decide_true; [done|].
    assert (size (Sql.rows t) ≠ 0%nat); [|lia].
    by rewrite map_size_non_empty_iff.
Qed.

Lemma product_seeding_witness :
  ∃ t', ProductDB.init no_conversions noon None empty_products
        = (Some (DataFiles.Csv DataFiles.sample_products), (Py.Ok (), t'))
        ∧ size (Sql.rows t') = 3%nat.
Proof.
  destruct (proj1 (product_seeding no_conversions noon empty_products))
    as (t' & r1 & r2 & r3 & Hinit & _ & _ & Hsize & _); [reflexivity|].
  exists t'. split; [exact Hinit|exact Hsize].
Defined.

Section update.
Import ProductDB Sql.
Variable cv : conversions.
Implicit Types (t : table product) (fields updates : gmap string Py.value).




Lemma store_text_text s : store cv TEXT (Text s) = Text s.
Proof. done. Qed.
End update.




(** C6. With the provider selector ["none"], [complete] returns [None] for
    every pair of prompts and leaves the client as it is, whatever the remote
    service would answer; and the text [generate_daily_report] prints as its
    summary is the "below target" text when the day's count is below
    [DAILY_SALES_TARGET] and the "on track" text otherwise. *)
Theorem disabled_collaborator (cfg : Config) :
  LLM_PROVIDER cfg = "none"%string →
  (∀ post system_prompt user_prompt,
     LLMClient.complete post (LLMClient.init cfg) system_prompt user_prompt
     = (None, LLMClient.init cfg))
  ∧ (∀ sql_date summary_text post t today_label,
       SalesMonitor.generate_daily_report sql_date summary_text post cfg
         (SalesMonitor.init cfg t) today_label
       = if PurchaseDB.count (PurchaseDB.get_daily_summary sql_date t today_label)
            <? DAILY_SALES_TARGET cfg
         then SalesMonitor.below_target else SalesMonitor.on_track).
Proof.
  intros Hnone.
  assert (∀ post s u, LLMClient.complete post (LLMClient.init cfg) s u
                      = (None, LLMClient.init cfg)) as Hc.
  { intros post s u. unfold LLMClient.complete, LLMClient.init, LLMClient._is_enabled.
    rewrite Hnone. done. }
  split; [exact Hc|].
  intros sql_date summary_text post t today_label.
  unfold SalesMonitor.generate_daily_report, SalesMonitor.init. cbn [SalesMonitor.llm SalesMonitor.db].
  rewrite Hc. done.
Qed.

Lemma disabled_collaborator_witness :
  LLMClient.complete (λ _ _, LLMClient.Content "Sales look strong.")
    (LLMClient.init cfg2) "system" "user"
  = (None, LLMClient.init cfg2).
Proof.
  exact (proj1 (disabled_collaborator cfg2 eq_refl)
           (λ _ _, LLMClient.Content "Sales look strong.") "system"%string "user"%string).
Defined.

(** ** Examples and instances of the statements *)

Example ann_renamed_keeps_phone :
  ∃ r, CustomerDB.upsert_customer "2024-01-04 09:00:00" ann_renamed ann_on_file
       = (Some 1, Sql.Table {[ 1 := r ]} 1)
       ∧ CustomerDB.name r = Some "Ann Lee"%string
       ∧ CustomerDB.phone r = Some "555-0100"%string.
Proof. eexists. split; [vm_compute; reflexivity|]. split; reflexivity. Qed.


Example trend_of_three_sales :
  PurchaseDB.get_sales_trend iso_date days_before_jan3
    (PurchaseDB.record_all cfg2 three_sales empty_purchases) 7
  = [ {| PurchaseDB.date := "2024-01-01"; PurchaseDB.day_revenue := Py.Fin 149 |};
      {| PurchaseDB.date := "2024-01-02"; PurchaseDB.day_revenue := Py.Fin 79 |} ].
Proof. vm_compute. reflexivity. Qed.



Lemma get_daily_summary_no_purchase_witness :
  PurchaseDB.get_daily_summary iso_date
    (PurchaseDB.record_all cfg2 three_sales empty_purchases) "2024-01-03"
  = {| PurchaseDB.count := 0; PurchaseDB.revenue := Py.zero; PurchaseDB.avg := Py.zero |}.
Proof.
  apply get_daily_summary_no_purchase.
  assert (map_Forall (λ (_ : Z) r, PurchaseDB.date_of iso_date r ≠ Some "2024-01-03"%string)
            (Sql.rows (PurchaseDB.record_all cfg2 three_sales empty_purchases))) as Hall.
  { apply (bool_decide_unpack _). vm_compute. exact I. }
  exact Hall.
Defined.

(** ** Selections, the highest rowid first *)

Section select.
Context {A : Type}.
Implicit Types (m : gmap Z A) (k : Z).

Lemma omap_reverse {B C} (f : B → option C) (l : list B) :
  omap f (reverse l) = reverse (omap f l).
Proof.
  induction l as [|x l IH]; [done|].
  rewrite reverse_cons, omap_app, IH. simpl.
  destruct (f x); simpl; [by rewrite reverse_cons|by rewrite app_nil_r].
Qed.

Lemma scan_desc_reverse m : Select.scan_desc m = reverse (Sql.scan m).
Proof. unfold Select.scan_desc, Sql.scan, Sql.rowids_desc. apply omap_reverse. Qed.

Lemma elem_of_scan_desc m k r : (k, r) ∈ Select.scan_desc m ↔ m !! k = Some r.
Proof. by rewrite scan_desc_reverse, elem_of_reverse, elem_of_scan. Qed.

Lemma length_scan m : length (Sql.scan m) = size m.
Proof.
  rewrite <-(length_fmap fst), scan_fst. unfold Sql.rowids.
  rewrite merge_sort_Permutation. by rewrite <-size_dom.
Qed.

Lemma length_scan_desc m : length (Select.scan_desc m) = size m.
Proof. by rewrite scan_desc_reverse, length_reverse, length_scan. Qed.

Lemma filter_all {B} (l : list B) : filter (λ _, True) l = l.
Proof. induction l as [|x l IH]; [done|]. by rewrite filter_cons_True, IH. Qed.

Lemma select_desc_all n m :
  Select.select_desc (λ _, True) n m = Sql.limit n (Select.scan_desc m).
Proof. unfold Select.select_desc. by rewrite filter_all. Qed.

Lemma length_limit {B} n (l : list B) :
  length (Sql.limit n l) = if n <? 0 then length l else (Z.to_nat n `min` length l)%nat.
Proof. unfold Sql.limit. destruct (n <? 0); [done|]. apply length_take. Qed.

Lemma limit_sublist {B} n (l : list B) : Sql.limit n l `sublist_of` l.
Proof. unfold Sql.limit. destruct (n <? 0); [done|]. apply sublist_take. Qed.

Lemma head_limit {B} n (l : list B) : n ≠ 0 → head (Sql.limit n l) = head l.
Proof.
  intros Hn. unfold Sql.limit. destruct (n <? 0) eqn:E; [done|].
  apply Z.ltb_ge in E. destruct (Z.to_nat n) as [|n'] eqn:E'; [lia|]. by destruct l.
Qed.

(** The first row of a descending scan is the row of the highest rowid. *)
Lemma head_scan_desc m k r :
  m !! k = Some r → (∀ j, j ∈ dom m → j ≤ k) →
  head (Select.scan_desc m) = Some (k, r).
Proof.
  intros Hk Hmax. unfold Select.scan_desc.
  pose proof (rowids_desc_sorted m) as Hs.
  assert (k ∈ Sql.rowids_desc m) as Hin.
  { unfold Sql.rowids_desc. rewrite elem_of_reverse, elem_of_rowids.
    apply elem_of_dom. eauto. }
  assert (∀ j, j ∈ Sql.rowids_desc m → j ≤ k) as Hmax'.
  { intros j. unfold Sql.rowids_desc. rewrite elem_of_reverse, elem_of_rowids.
    apply Hmax. }
  destruct (Sql.rowids_desc m) as [|a l]; [by apply elem_of_nil in Hin|].
  apply StronglySorted_inv in Hs as [_ Hall]. rewrite Forall_forall in Hall.
  assert (a = k) as ->.
  { apply elem_of_cons in Hin as [->|Hin]; [done|].
    specialize (Hall k Hin). unfold flip in Hall.
    specialize (Hmax' a ltac:(by left)). lia. }
  simpl. by rewrite Hk.
Qed.
End select.

(** ** The recent purchases *)

Section recent.
Import PurchaseDB Sql.
Variable cfg : Config.
Implicit Types (t : table purchase).

Lemma add_purchase_ok_stored now a t :
  (add_purchase cfg now a t).1 = Py.Ok () → ∃ r, stored cfg now a = Some r.
Proof.
  destruct (stored cfg now a) as [r|] eqn:Hst; [eauto|].
  unfold stored in Hst. unfold add_purchase, add_purchase_trace, execute, insert_purchase.
  destruct (prepare cfg now a) as [r|e]; [|done]. simpl.
  destruct (not_null_ok r); done.
Qed.

Lemma stored_timestamp now a r :
  stored cfg now a = Some r →
  timestamp r = Some now ∧ customer r = arg_customer a ∧ product r = arg_product a.
Proof.
  unfold stored, prepare.
  destruct (if Py.truthy (arg_quantity a) then _ else _) as [q0|e]; simpl; [|done].
  destruct (Py.float_or (arg_amount a) Py.zero) as [am|e]; simpl; [|done].
  destruct (Py.float_or (if Py.is_none (arg_unit_price a) then _ else _) _)
    as [up|e]; simpl; [|done].
  destruct (Py.float_or (arg_discount a) Py.zero) as [d|e]; simpl; [|done].
  destruct (Py.float_or (arg_tax a) Py.zero) as [tx|e]; simpl; [|done].
  destruct (Py.float_or (if Py.is_none (arg_total a) then _ else _) _)
    as [tot0|e]; simpl; [|done].
  destruct (not_null_ok _); [|done]. by intros [= <-].
Qed.

(** The row a successful call leaves has the highest rowid of the table. *)
Lemma add_purchase_newest now a t r :
  stored cfg now a = Some r → 1 ≤ MAX_RECENT_PURCHASES cfg →
  let t' := (add_purchase cfg now a t).2 in
  rows t' !! next_rowid t = Some r ∧ ∀ j, j ∈ dom (rows t') → j ≤ next_rowid t.
Proof.
  intros Hst Hmax t'. unfold t'. rewrite (add_purchase_stored _ _ _ _ _ Hst). cbn [snd].
  rewrite rows_evict_insert by lia. split.
  - apply lookup_top_rows. rewrite lookup_insert_eq. split; [done|].
    rewrite dom_insert_L, above_insert_top; [lia|].
    intros j. apply next_rowid_above_keys.
  - intros j [Hj _]%elem_of_dom_top_rows. rewrite dom_insert_L in Hj.
    apply elem_of_union in Hj as [->%elem_of_singleton|Hj%next_rowid_above_keys]; lia.
Qed.
End recent.

Lemma head_fmap {B C} (f : B → C) (l : list B) : head (f <$> l) = f <$> head l.
Proof. by destruct l. Qed.

(** X1. After a call of [add_purchase] that returns, on a store that keeps
    at least one purchase, [get_last_purchases] with a limit other than 0
    (or the default one) lists first the purchase just written: the row of
    the next rowid, with the clock reading as its timestamp and the
    customer and product of the call. *)
Theorem get_last_purchases_newest_first (cfg : Config) (now : string)
    (a : PurchaseDB.args) (t : Sql.table PurchaseDB.purchase) (limit : option Z) :
  (PurchaseDB.add_purchase cfg now a t).1 = Py.Ok () →
  1 ≤ MAX_RECENT_PURCHASES cfg →
  default (MAX_RECENT_PURCHASES cfg) limit ≠ 0 →
  let t' := (PurchaseDB.add_purchase cfg now a t).2 in
  ∃ r, Sql.rows t' !! Sql.next_rowid t = Some r
       ∧ PurchaseDB.timestamp r = Some now
       ∧ PurchaseDB.customer r = PurchaseDB.arg_customer a
       ∧ PurchaseDB.product r = PurchaseDB.arg_product a
       ∧ head (PurchaseQueries.get_last_purchases cfg limit t')
         = Some (PurchaseQueries.to_view r).
Proof.
  intros Hok Hmax Hlim t'.
  destruct (add_purchase_ok_stored cfg now a t Hok) as [r Hst].
  destruct (add_purchase_newest cfg now a t r Hst Hmax) as [Hr Htop].
  destruct (stored_timestamp cfg now a r Hst) as (Hts & Hc & Hp).
  exists r. repeat (split; [done|]).
  unfold PurchaseQueries.get_last_purchases.
  rewrite select_desc_all, head_fmap, head_limit by done. unfold t'.
  by rewrite (head_scan_desc _ _ r Hr Htop).
Qed.

Lemma get_last_purchases_newest_first_witness :
  ∃ r, PurchaseDB.customer r = Some "Ann"%string
       ∧ head (PurchaseQueries.get_last_purchases cfg2 None
                 (PurchaseDB.add_purchase cfg2 noon
                    (sale (Py.Int 2) (Py.Int 30) (Py.Int 5) (Py.Int 1) Py.None_)
                    (PurchaseDB.record_all cfg2 three_sales empty_purchases)).2)
         = Some (PurchaseQueries.to_view r).
Proof.
  destruct (get_last_purchases_newest_first cfg2 noon
              (sale (Py.Int 2) (Py.Int 30) (Py.Int 5) (Py.Int 1) Py.None_)
              (PurchaseDB.record_all cfg2 three_sales empty_purchases) None)
    as (r & _ & _ & Hc & _ & Hhd); [vm_compute; reflexivity|vm_compute; discriminate
                                   |vm_compute; discriminate|].
  exists r. split; [exact Hc|exact Hhd].
Defined.


(** X3. On a table within the retention bound, and so after every
    sequence of [add_purchase] calls from such a table, [get_last_purchases]
    with its default limit lists every purchase of the table. *)
Theorem get_last_purchases_complete (cfg : Config)
    (calls : list (string * PurchaseDB.args)) (t : Sql.table PurchaseDB.purchase) :
  Z.of_nat (size (Sql.rows t)) ≤ MAX_RECENT_PURCHASES cfg →
  let t' := PurchaseDB.record_all cfg calls t in
  length (PurchaseQueries.get_last_purchases cfg None t') = size (Sql.rows t')
  ∧ ∀ k r, Sql.rows t' !! k = Some r →
           PurchaseQueries.to_view r ∈ PurchaseQueries.get_last_purchases cfg None t'.
Proof.
  intros Hsz t'.
  pose proof (record_all_size cfg calls t Hsz) as Hsz'. fold t' in Hsz'.
  assert (Sql.limit (MAX_RECENT_PURCHASES cfg) (Select.scan_desc (Sql.rows t'))
          = Select.scan_desc (Sql.rows t')) as Hall.
  { unfold Sql.limit. rewrite (proj2 (Z.ltb_ge _ 0)) by lia.
    apply take_ge. rewrite length_scan_desc. lia. }
  unfold PurchaseQueries.get_last_purchases. cbn [default].
  rewrite select_desc_all, Hall. split.
  - by rewrite length_fmap, length_scan_desc.
  - intros k r Hr. apply list_elem_of_fmap. exists (k, r). split; [done|].
    by apply elem_of_scan_desc.
Qed.

Lemma get_last_purchases_complete_witness :
  length (PurchaseQueries.get_last_purchases cfg2 None
            (PurchaseDB.record_all cfg2 three_sales empty_purchases))
  = size (Sql.rows (PurchaseDB.record_all cfg2 three_sales empty_purchases)).
Proof.
  refine (proj1 (get_last_purchases_complete cfg2 three_sales empty_purchases _)).
  vm_compute. discriminate.
Defined.

(** X4. [log_sale] never records the sale: its call of [add_purchase]
    passes the keyword [payment_terms], which [add_purchase] does not take,
    so the call raises [TypeError], which [log_sale] catches and logs; the
    table is left as it was, whatever the arguments. *)
Theorem log_sale_records_nothing (cfg : Config) (now : string)
    (a : PurchaseDB.args) (payment_terms : option string)
    (t : Sql.table PurchaseDB.purchase) :
  "payment_terms"%string ∈ SaleLog.log_sale_keywords
  ∧ ("payment_terms"%string ∉ SaleLog.add_purchase_parameters)
  ∧ SaleLog.bind_keywords SaleLog.add_purchase_parameters SaleLog.log_sale_keywords
    = Py.Raise Py.TypeError
  ∧ SaleLog.log_sale cfg now a payment_terms t = t.
Proof.
  split; [set_solver|]. split.
  - apply (bool_decide_unpack _). vm_compute. exact I.
  - split; reflexivity.
Qed.

Section search.
Import PurchaseQueries.
Variable like : string → string → bool.
Variable cutoff : Z → option string.

Lemma limit_filter_length {B} (P : B → Prop) `{∀ x, Decision (P x)} n (l : list B) :
  0 ≤ n → Z.of_nat (length (Sql.limit n (filter P l))) ≤ n.
Proof. intros Hn. rewrite length_limit, (proj2 (Z.ltb_ge n 0)) by done. lia. Qed.
End search.

(** X5. [search_purchases] with an empty query and no day filter ([days]
    [None], zero or negative) returns what [get_last_purchases] returns for
    the same limit. *)
Theorem search_purchases_no_filter (like : string → string → bool)
    (cutoff : Z → option string) (cfg : Config) (days : option Z) (limit : Z)
    (t : Sql.table PurchaseDB.purchase) :
  (∀ d, days = Some d → d ≤ 0) →
  PurchaseQueries.search_purchases like cutoff "" days limit t
  = Some (PurchaseQueries.get_last_purchases cfg (Some limit) t).
Proof.
  intros Hdays. unfold PurchaseQueries.search_purchases, PurchaseQueries.get_last_purchases.
  assert ((match days with
           | Some d => if 0 <? d then PurchaseQueries.since <$> cutoff d
                       else Some (λ _, true)
           | None => Some (λ _, true)
           end) = Some (λ _ : PurchaseDB.purchase, true)) as ->.
  { destruct days as [d|]; [|done]. specialize (Hdays d eq_refl).
    destruct (Z.ltb_spec 0 d); [lia|done]. }
  reflexivity.
Qed.

Lemma search_purchases_no_filter_witness :
  PurchaseQueries.search_purchases (λ _ _, false) (λ _, None) "" (Some 0) 5
    (PurchaseDB.record_all cfg2 three_sales empty_purchases)
  = Some (PurchaseQueries.get_last_purchases cfg2 (Some 5)
            (PurchaseDB.record_all cfg2 three_sales empty_purchases)).
Proof.
  apply search_purchases_no_filter. intros d [= <-]. lia.
Defined.

(** X6. What [search_purchases] returns is a selection, in the same
    order, of what [get_last_purchases] returns without limit; it has at
    most [limit] entries when the limit is not negative. *)
Theorem search_purchases_sublist (like : string → string → bool)
    (cutoff : Z → option string) (cfg : Config) (query : string)
    (days : option Z) (limit : Z) (t : Sql.table PurchaseDB.purchase)
    (found : list PurchaseQueries.view) :
  PurchaseQueries.search_purchases like cutoff query days limit t = Some found →
  found `sublist_of` PurchaseQueries.get_last_purchases cfg (Some (-1)) t
  ∧ (0 ≤ limit → Z.of_nat (length found) ≤ limit).
Proof.
  unfold PurchaseQueries.search_purchases, PurchaseQueries.get_last_purchases.
  destruct (match days with Some _ => _ | None => _ end) as [time_clause|]; [|done].
  cbn [mbind option_bind default]. intros [= <-]. split.
  - apply fmap_sublist. rewrite select_desc_all. unfold Select.select_desc.
    etrans; [apply limit_sublist|]. cbn [Sql.limit Z.ltb Z.compare].
    apply sublist_filter.
  - intros Hn. rewrite length_fmap. unfold Select.select_desc.
    by apply limit_filter_length.
Qed.

Lemma search_purchases_sublist_witness :
  ∃ found,
    PurchaseQueries.search_purchases (λ text _, String.eqb text "Bob") (λ _, None) "Bob"
      None 5 (PurchaseDB.record_all cfg2 three_sales empty_purchases) = Some found
    ∧ length found = 1%nat
    ∧ found `sublist_of` PurchaseQueries.get_last_purchases cfg2 (Some (-1))
                           (PurchaseDB.record_all cfg2 three_sales empty_purchases).
Proof.
  eexists. split; [vm_compute; reflexivity|]. split; [reflexivity|].
  refine (proj1 (search_purchases_sublist (λ text _, String.eqb text "Bob") (λ _, None)
                   cfg2 "Bob" None 5
                   (PurchaseDB.record_all cfg2 three_sales empty_purchases) _ _)).
  vm_compute. reflexivity.
Defined.

(** X7. On a table within the retention bound, and so after every
    sequence of [add_purchase] calls from such a table, the count of
    [get_daily_summary] is at most [MAX_RECENT_PURCHASES] for every date:
    evicted purchases are not counted. *)
Theorem get_daily_summary_count_bounded (sql_date : string → option string)
    (cfg : Config) (calls : list (string * PurchaseDB.args))
    (t : Sql.table PurchaseDB.purchase) (date_label : string) :
  Z.of_nat (size (Sql.rows t)) ≤ MAX_RECENT_PURCHASES cfg →
  0 ≤ PurchaseDB.count
        (PurchaseDB.get_daily_summary sql_date (PurchaseDB.record_all cfg calls t)
           date_label)
    ≤ MAX_RECENT_PURCHASES cfg.
Proof.
  intros Hsz. pose proof (record_all_size cfg calls t Hsz) as Hsz'.
  unfold PurchaseDB.get_daily_summary. cbn [PurchaseDB.count].
  split; [lia|]. etrans; [|exact Hsz']. apply Nat2Z.inj_le.
  rewrite <-length_scan. apply length_filter.
Qed.

Lemma get_daily_summary_count_bounded_witness :
  0 ≤ PurchaseDB.count
        (PurchaseDB.get_daily_summary iso_date
           (PurchaseDB.record_all cfg2 three_sales empty_purchases) "2024-01-02")
    ≤ MAX_RECENT_PURCHASES cfg2.
Proof.
  apply get_daily_summary_count_bounded. vm_compute. discriminate.
Defined.

(** X8. Every entry of [get_sales_trend] agrees with [get_daily_summary]
    for its date: the same revenue, and a count of at least one. *)
Theorem get_sales_trend_agrees_with_summary (sql_date : string → option string)
    (date_now_minus : Z → string) (t : Sql.table PurchaseDB.purchase) (days : Z)
    (e : PurchaseDB.trend_entry) :
  e ∈ PurchaseDB.get_sales_trend sql_date date_now_minus t days →
  let s := PurchaseDB.get_daily_summary sql_date t (PurchaseDB.date e) in
  PurchaseDB.day_revenue e = PurchaseDB.revenue s ∧ 1 ≤ PurchaseDB.count s.
Proof.
  intros He s.
  destruct (trend_entry sql_date date_now_minus t days e He)
    as (_ & (k & r & Hr & Hd) & Hrev).
  split; [exact Hrev|]. unfold s, PurchaseDB.get_daily_summary. cbn [PurchaseDB.count].
  assert ((k, r) ∈ filter (λ kr : Z * PurchaseDB.purchase,
                             PurchaseDB.date_of sql_date kr.2 = Some (PurchaseDB.date e))
                      (Sql.scan (Sql.rows t))) as Hin.
  { apply list_elem_of_filter. split; [done|]. by apply elem_of_scan. }
  destruct (filter _ _) as [|x l]; [by apply elem_of_nil in Hin|]. simpl. lia.
Qed.

Lemma get_sales_trend_agrees_with_summary_witness :
  PurchaseDB.day_revenue
    {| PurchaseDB.date := "2024-01-02"; PurchaseDB.day_revenue := Py.Fin 79 |}
  = PurchaseDB.revenue
      (PurchaseDB.get_daily_summary iso_date
         (PurchaseDB.record_all cfg2 three_sales empty_purchases) "2024-01-02").
Proof.
  refine (proj1 (get_sales_trend_agrees_with_summary iso_date days_before_jan3
                   (PurchaseDB.record_all cfg2 three_sales empty_purchases) 7
                   {| PurchaseDB.date := "2024-01-02"; PurchaseDB.day_revenue := Py.Fin 79 |}
                   _)).
  apply (list_elem_of_lookup_2 _ 1%nat). reflexivity.
Defined.

(** ** Customers: reading back what [upsert_customer] wrote *)

Section customers.
Import CustomerDB Sql.
Implicit Types (t : table customer) (c : cleaned) (r : customer) (k : Z).

Lemma StronglySorted_sublist {B} (R : relation B) (l1 l2 : list B) :
  l1 `sublist_of` l2 → StronglySorted R l2 → StronglySorted R l1.
Proof.
  induction 1 as [|x l1 l2 Hsub IH|x l1 l2 Hsub IH]; intros Hs; [done| |].
  - apply StronglySorted_inv in Hs as [Hs Hall]. constructor; [by apply IH|].
    rewrite Forall_forall in Hall |- *. intros y Hy. apply Hall.
    by eapply sublist_subseteq.
  - apply StronglySorted_inv in Hs as [Hs _]. by apply IH.
Qed.

Lemma filter_every {B} (P : B → Prop) `{∀ x, Decision (P x)} (l : list B) :
  (∀ x, x ∈ l → P x) → filter P l = l.
Proof.
  induction l as [|x l IH]; intros Hl; [done|].
  rewrite filter_cons_True by (apply Hl; left).
  f_equal. apply IH. intros y Hy. apply Hl. by right.
Qed.



Lemma first_match_intro {B} (P : Z * B → Prop) `{∀ x, Decision (P x)}
    (m : gmap Z B) k (x : B) :
  m !! k = Some x → P (k, x) →
  (∀ k' x', m !! k' = Some x' → P (k', x') → k ≤ k') →
  fst <$> head (filter P (scan m)) = Some k.
Proof.
  intros Hk HP Hmin.
  destruct (fst <$> head (filter P (scan m))) as [k0|] eqn:Hsel.
  - destruct (first_match_Some P m k0 Hsel) as (x0 & Hk0 & HP0 & Hmin0).
    f_equal. specialize (Hmin k0 x0 Hk0 HP0). specialize (Hmin0 k x Hk HP). lia.
  - exfalso. by apply (proj1 (first_match_None P m) Hsel k x).
Qed.

(** Writing a matching row at [k], where no row of a lower rowid matches,
    makes [k] the first match. *)
Lemma first_match_insert {B} (P : Z * B → Prop) `{∀ x, Decision (P x)}
    (m : gmap Z B) k (x : B) :
  P (k, x) →
  (∀ k' x', k' ≠ k → m !! k' = Some x' → P (k', x') → k ≤ k') →
  fst <$> head (filter P (scan (<[k := x]> m))) = Some k.
Proof.
  intros HP Hmin. apply (first_match_intro P _ k x); [by rewrite lookup_insert_eq|done|].
  intros k' x' Hk' HP'. destruct (decide (k' = k)) as [->|Hne]; [lia|].
  rewrite lookup_insert_ne in Hk' by done. by apply (Hmin k' x').
Qed.



Lemma merge_idemp (x : string) (s : option string) : merge x (merge x s) = merge x s.
Proof.
  destruct (decide (x = EmptyString)) as [->|Hx].
  - by rewrite !merge_empty.
  - by rewrite !merge_incoming.
Qed.

Lemma merge_own (x : string) : merge x (Some x) = Some x.
Proof.
  destruct (decide (x = EmptyString)) as [->|Hx]; [done|]. by rewrite merge_incoming.
Qed.

Lemma update_row_again c now now2 r :
  update_row c now2 (update_row c now r) = touch now2 (update_row c now r).
Proof. unfold update_row, touch. cbn -[merge]. by rewrite !merge_idemp. Qed.

Lemma update_row_new c now now2 :
  update_row c now2 (new_row c now) = touch now2 (new_row c now).
Proof.
  unfold update_row, touch. cbn -[merge]. rewrite !merge_own. f_equal.
  destruct (c_last_contact_at c) as [|ch s]; [by rewrite merge_empty|apply merge_own].
Qed.

(** The two ways [upsert_customer] returns an identity. *)
Lemma upsert_customer_cases now a t k t' :
  upsert_customer now a t = (Some k, t') →
  let c := clean_args a in
  c_name c ≠ EmptyString
  ∧ ((∃ r, resolve c t = Some k ∧ rows t !! k = Some r
           ∧ t' = Table (<[k := update_row c now r]> (rows t)) (seq t))
     ∨ (resolve c t = None ∧ k = next_rowid t ∧ rows t !! k = None
        ∧ t' = Table (<[k := new_row c now]> (rows t)) k)).
Proof.
  intros Hup c. unfold upsert_customer in Hup. fold c in Hup.
  destruct (Py.truthy (Py.Str (c_name c))) eqn:Hname; [|done].
  apply truthy_str in Hname. split; [done|]. cbn [negb] in Hup.
  destruct (resolve c t) as [k0|] eqn:Hres.
  - injection Hup as -> <-. left.
    assert (∃ r, rows t !! k = Some r) as [r Hr].
    { unfold resolve in Hres.
      destruct (if Py.truthy (Py.Str (c_email c)) then select_by_email (c_email c) t
                else None) as [k1|] eqn:Hsel.
      - injection Hres as ->. destruct (Py.truthy _); [|done].
        destruct (first_match_Some _ _ _ Hsel) as (r & Hr & _). eauto.
      - destruct (first_match_Some _ _ _ Hres) as (r & Hr & _). eauto. }
    exists r. split; [done|]. split; [done|]. by rewrite (alter_lookup_insert _ _ _ r).
  - injection Hup as <- <-. right. split; [done|]. split; [done|].
    split; [apply next_rowid_fresh|done].
Qed.

(** After [upsert_customer] has returned [k], the same arguments resolve
    to [k]. *)
Lemma resolve_after_upsert now a t k t' :
  upsert_customer now a t = (Some k, t') → resolve (clean_args a) t' = Some k.
Proof.
  intros Hup. destruct (upsert_customer_cases now a t k t' Hup) as [Hname Hcases].
  set (c := clean_args a) in *.
  assert (∀ r' s', (c_email c ≠ EmptyString → email r' = Some (c_email c)) →
            name r' = Some (c_name c) →
            (c_email c ≠ EmptyString →
             ∀ k' x', k' ≠ k → rows t !! k' = Some x' →
                      email x' = Some (c_email c) → k ≤ k') →
            (c_email c = EmptyString →
             ∀ k' x', k' ≠ k → rows t !! k' = Some x' →
                      name x' = Some (c_name c) → k ≤ k') →
            resolve c (Table (<[k := r']> (rows t)) s') = Some k) as Hgen.
  { intros r' s' He Hn Hmine Hminn.
    destruct (decide (c_email c = EmptyString)) as [Hem|Hem].
    - rewrite resolve_name by (by left). unfold select_by_name. cbn [rows].
      apply (first_match_insert (λ kr, name kr.2 = Some (c_name c))); [done|].
      by apply Hminn.
    - apply resolve_email; [done|]. unfold select_by_email. cbn [rows].
      apply (first_match_insert (λ kr, email kr.2 = Some (c_email c))); [by apply He|].
      by apply Hmine. }
  destruct Hcases as [(r & Hres & Hr & ->)|(Hres & -> & Hfresh & ->)].
  - apply Hgen.
    + intros Hem. cbn -[merge]. by rewrite merge_incoming.
    + done.
    + intros Hem k' x' Hne Hk' He'.
      destruct (select_by_email (c_email c) t) as [k0|] eqn:Hsel.
      * rewrite (resolve_email c t k0 Hem Hsel) in Hres. injection Hres as ->.
        destruct (first_match_Some _ _ _ Hsel) as (r0 & _ & _ & Hmin).
        by apply (Hmin k' x').
      * exfalso. by apply (proj1 (first_match_None _ _) Hsel k' x').
    + intros Hem k' x' Hne Hk' Hn'.
      rewrite resolve_name in Hres by (by left).
      destruct (first_match_Some _ _ _ Hres) as (r0 & _ & _ & Hmin).
      by apply (Hmin k' x').
  - apply Hgen.
    + done.
    + done.
    + intros Hem k' x' Hne Hk' He'. exfalso.
      destruct (select_by_email (c_email c) t) as [k0|] eqn:Hsel.
      * by rewrite (resolve_email c t k0 Hem Hsel) in Hres.
      * by apply (proj1 (first_match_None _ _) Hsel k' x').
    + intros Hem k' x' Hne Hk' Hn'. exfalso.
      rewrite resolve_name in Hres by (by left).
      by apply (proj1 (first_match_None _ _) Hres k' x').
Qed.
End customers.




(** X11. [upsert_customer] is idempotent: a second call with the same
    arguments returns the same identity, adds no row and changes nothing
    but the update time of that customer. *)
Theorem upsert_customer_idempotent (now now2 : string) (a : CustomerDB.args)
    (t t1 : Sql.table CustomerDB.customer) (k : Z) :
  CustomerDB.upsert_customer now a t = (Some k, t1) →
  ∃ r1, Sql.rows t1 !! k = Some r1
        ∧ CustomerDB.upsert_customer now2 a t1
          = (Some k, Sql.Table (<[k := touch now2 r1]> (Sql.rows t1)) (Sql.seq t1)).
Proof.
  intros Hup. pose proof (resolve_after_upsert now a t k t1 Hup) as Hres.
  destruct (upsert_customer_cases now a t k t1 Hup) as [Hname Hcases].
  set (c := CustomerDB.clean_args a) in *.
  assert (∃ r1, Sql.rows t1 !! k = Some r1
                ∧ CustomerDB.update_row c now2 r1 = touch now2 r1) as (r1 & Hr1 & Hagain).
  { destruct Hcases as [(r & _ & _ & ->)|(_ & _ & _ & ->)]; cbn [Sql.rows].
    - exists (CustomerDB.update_row c now r). rewrite lookup_insert_eq.
      split; [done|apply update_row_again].
    - exists (CustomerDB.new_row c now). rewrite lookup_insert_eq.
      split; [done|apply update_row_new]. }
  exists r1. split; [done|]. unfold CustomerDB.upsert_customer. fold c.
  rewrite (proj2 (truthy_str _) Hname), Hres. cbn [negb].
  by rewrite (alter_lookup_insert _ _ _ r1), Hagain.
Qed.

Lemma upsert_customer_idempotent_witness :
  ∃ r1, Sql.rows (CustomerDB.upsert_customer noon ann_renamed ann_on_file).2 !! 1 = Some r1
        ∧ (CustomerDB.upsert_customer "2024-01-04 09:00:00" ann_renamed
             (CustomerDB.upsert_customer noon ann_renamed ann_on_file).2).1 = Some 1.
Proof.
  destruct (upsert_customer_idempotent noon "2024-01-04 09:00:00" ann_renamed ann_on_file
              (CustomerDB.upsert_customer noon ann_renamed ann_on_file).2 1)
    as (r1 & Hr1 & Heq); [vm_compute; reflexivity|].
  exists r1. split; [exact Hr1|]. rewrite Heq. reflexivity.
Defined.


(** X13. [search_customers] returns a selection, in the same order, of
    what [list_customers] returns without limit, and each customer it returns
    matches the pattern in one of the six searched columns. When [LIKE]
    matches every text against [%%], as SQLite's does, and every row has a
    name, the empty query returns what [list_customers] returns. *)
Theorem search_customers_selection (like : string → string → bool) (query : string)
    (limit : Z) (t : Sql.table CustomerDB.customer) :
  CustomerQueries.search_customers like query limit t
    `sublist_of` CustomerQueries.list_customers (-1) t
  ∧ (∀ s, s ∈ CustomerQueries.search_customers like query limit t →
          ∃ r, Sql.rows t !! CustomerQueries.s_id s = Some r
               ∧ s = CustomerQueries.to_summary (CustomerQueries.s_id s, r)
               ∧ CustomerQueries.like_any like ("%" ++ query ++ "%") r = true)
  ∧ ((∀ text, like text "%%"%string = true) →
     (∀ k r, Sql.rows t !! k = Some r → is_Some (CustomerDB.name r)) →
     CustomerQueries.search_customers like EmptyString limit t
     = CustomerQueries.list_customers limit t).
Proof.
  unfold CustomerQueries.search_customers, CustomerQueries.list_customers.
  split; [|split].
  - apply fmap_sublist. rewrite select_desc_all. unfold Select.select_desc.
    etrans; [apply limit_sublist|]. cbn [Sql.limit Z.ltb Z.compare].
    apply sublist_filter.
  - intros s ([k r] & -> & Hin)%list_elem_of_fmap. exists r.
    unfold Select.select_desc in Hin.
    apply (sublist_subseteq _ _ (limit_sublist _ _)) in Hin.
    apply list_elem_of_filter in Hin as [Hm Hin]. apply elem_of_scan_desc in Hin.
    split; [done|]. split; [done|]. by apply Is_true_eq_true.
  - intros Hlike Hnames. rewrite select_desc_all. unfold Select.select_desc.
    f_equal. f_equal. apply filter_every. intros [k r] Hin%elem_of_scan_desc.
    destruct (Hnames k r Hin) as [n Hn].
    unfold CustomerQueries.like_any. cbn -[String.append]. rewrite Hn. cbn.
    by rewrite Hlike.
Qed.

(** ** The scan of a table after a write *)

Section scans.
Context {B : Type}.
Implicit Types (m : gmap Z B) (k : Z) (l : list (Z * B)).

(** Two lists in strictly ascending order of rowid with the same entries
    are equal. *)
Lemma sorted_by_rowid_ext l1 l2 :
  StronglySorted (λ a b, a.1 < b.1) l1 → StronglySorted (λ a b, a.1 < b.1) l2 →
  (∀ x, x ∈ l1 ↔ x ∈ l2) → l1 = l2.
Proof.
  intros Hs1. revert l2. induction Hs1 as [|a l1 Hs1 IH Ha]; intros l2 Hs2 Hiff.
  - destruct l2 as [|b l2]; [done|]. exfalso.
    apply (not_elem_of_nil b), Hiff. by left.
  - destruct Hs2 as [|b l2 Hs2 Hb].
    { exfalso. apply (not_elem_of_nil a), Hiff. by left. }
    rewrite Forall_forall in Ha, Hb.
    assert (a = b) as <-.
    { assert (a ∈ b :: l2) as [->|Ha2]%elem_of_cons by (apply Hiff; by left); [done|].
      assert (b ∈ a :: l1) as [->|Hb1]%elem_of_cons by (apply Hiff; by left); [done|].
      specialize (Ha b Hb1). specialize (Hb a Ha2). lia. }
    f_equal. apply IH; [done|]. intros x. split; intros Hx.
    + assert (x ∈ a :: l2) as [->|?]%elem_of_cons by (apply Hiff; by right); [|done].
      specialize (Ha a Hx). lia.
    + assert (x ∈ a :: l1) as [->|?]%elem_of_cons by (apply Hiff; by right); [|done].
      specialize (Hb a Hx). lia.
Qed.


(** A row overwritten keeps its place in the scan. *)
Lemma scan_insert_at m k (x r : B) :
  m !! k = Some r →
  Sql.scan (<[k := x]> m)
  = (λ kr, if decide (kr.1 = k) then (k, x) else kr) <$> Sql.scan m.
Proof.
  intros Hk. apply sorted_by_rowid_ext; [apply scan_sorted| |].
  - apply (StronglySorted_fmap _ (λ a b : Z * B, a.1 < b.1)); [|apply scan_sorted].
    intros [j1 r1] [j2 r2]. cbn. by repeat case_decide; subst.
  - intros [j r']. rewrite elem_of_scan, list_elem_of_fmap, lookup_insert_Some. split.
    + intros [[<- <-]|[Hne Hj]].
      * exists (k, r). cbn. rewrite decide_True by done. split; [done|].
        by apply elem_of_scan.
      * exists (j, r'). cbn. rewrite decide_False by done. split; [done|].
        by apply elem_of_scan.
    + intros ([j0 r0] & Heq & Hin%elem_of_scan). cbn in Heq.
      destruct (decide (j0 = k)) as [->|Hne]; injection Heq as -> ->; [by left|].
      by right.
Qed.
End scans.

(** ** The product catalog *)

Lemma Forall2_in_l {B C} (P : B → C → Prop) (l : list B) (k : list C) (x : B) :
  Forall2 P l k → x ∈ l → ∃ y, y ∈ k ∧ P x y.
Proof.
  induction 1 as [|x' y' l k HP Hall IH]; [by intros ?%elem_of_nil|].
  intros [->|Hx]%elem_of_cons.
  - exists y'. split; [by left|done].
  - destruct (IH Hx) as (y & Hy & HPy). exists y. split; [by right|done].
Qed.

Lemma Forall2_fmap_in {B C} (P : B → C → Prop) (f : B → B) (l : list B) (k : list C) :
  Forall2 P l k → (∀ x y, x ∈ l → P x y → P (f x) y) → Forall2 P (f <$> l) k.
Proof.
  induction 1 as [|x y l k HP Hall IH]; intros Hf; [constructor|].
  csimpl. constructor; [apply Hf; [by left|done]|].
  apply IH. intros x' y' Hx'. apply Hf. by right.
Qed.

Lemma Forall2_in_r {B C} (P : B → C → Prop) (l : list B) (k : list C) (y : C) :
  Forall2 P l k → y ∈ k → ∃ x, x ∈ l ∧ P x y.
Proof.
  induction 1 as [|x' y' l k HP Hall IH]; [by intros ?%elem_of_nil|].
  intros [->|Hy]%elem_of_cons.
  - exists x'. split; [by left|done].
  - destruct (IH Hy) as (x & Hx & HPx). exists x. split; [by right|done].
Qed.

Section products.
Import ProductDB Sql.
Variable cv : conversions.
Implicit Types (t : table product) (r : product) (k : Z).

Lemma to_view_id kr v : ProductQueries.to_view kr = Some v → ProductQueries.id v = kr.1.
Proof.
  unfold ProductQueries.to_view. intros Hv.
  repeat (apply bind_Some in Hv as (? & ? & Hv)). by injection Hv as <-.
Qed.

Lemma to_view_active kr v :
  ProductQueries.to_view kr = Some v →
  ProductQueries.to_int (ProductQueries.to_py (active kr.2)) = Some (ProductQueries.active v).
Proof.
  unfold ProductQueries.to_view. intros Hv.
  apply bind_Some in Hv as (? & ? & Hv). apply bind_Some in Hv as (? & ? & Hv).
  apply bind_Some in Hv as (? & ? & Hv). apply bind_Some in Hv as (? & Ha & Hv).
  by injection Hv as <-.
Qed.

(** A row that [active = 1] selects is read back with [active] 1. *)
Lemma is_active_view kr v :
  ProductQueries.is_active kr.2 = true → ProductQueries.to_view kr = Some v →
  ProductQueries.active v = 1.
Proof.
  intros Hact Hv%to_view_active. unfold ProductQueries.is_active in Hact.
  destruct (active kr.2) as [|z|[q| | |]|s]; try done; cbn in Hv.
  - apply Z.eqb_eq in Hact. congruence.
  - apply Qeq_bool_iff in Hact. unfold Qeq in Hact. cbn in Hact.
    injection Hv as <-. rewrite Z.mul_1_r, Z.mul_1_l in Hact. rewrite Hact.
    by apply Z.quot_same.
Qed.

Lemma elem_of_listed b t k r :
  (k, r) ∈ ProductQueries.listed b t
  ↔ rows t !! k = Some r ∧ (b = true → ProductQueries.is_active r = true).
Proof.
  unfold ProductQueries.listed. rewrite list_elem_of_filter, elem_of_scan. cbn.
  destruct b, (ProductQueries.is_active r); cbn; naive_solver.
Qed.

Lemma listed_sorted b t :
  StronglySorted (λ a b : Z * product, a.1 < b.1) (ProductQueries.listed b t).
Proof.
  eapply StronglySorted_sublist; [apply sublist_filter|apply scan_sorted].
Qed.

Lemma Forall2_sorted_ids (l : list (Z * product)) (vs : list ProductQueries.view) :
  Forall2 (λ kr v, ProductQueries.to_view kr = Some v) l vs →
  StronglySorted (λ a b : Z * product, a.1 < b.1) l →
  StronglySorted (λ v1 v2, ProductQueries.id v1 < ProductQueries.id v2) vs.
Proof.
  induction 1 as [|kr v l vs Hv Hall IH]; intros Hs; [constructor|].
  apply StronglySorted_inv in Hs as [Hs Hkr]. constructor; [by apply IH|].
  rewrite Forall_forall in Hkr. rewrite Forall_forall. intros v' Hv'.
  destruct (Forall2_in_r _ _ _ _ Hall Hv') as (kr' & Hin' & Hv'').
  rewrite (to_view_id _ _ Hv), (to_view_id _ _ Hv''). by apply Hkr.
Qed.
End products.

(** X14. When [list_products] returns, the products are in strictly
    ascending order of identity, each is a row of the table as
    [get_product_by_id] returns it, with [active] 1 when only active products
    were asked for; and every row is listed, or with [active_only] every row
    whose [active] is the integer 1. *)
Theorem list_products_listing (active_only : bool) (t : Sql.table ProductDB.product)
    (products : list ProductQueries.view) :
  ProductQueries.list_products active_only t = Some products →
  StronglySorted (λ v1 v2, ProductQueries.id v1 < ProductQueries.id v2) products
  ∧ (∀ v, v ∈ products →
          ProductQueries.get_product_by_id (ProductQueries.id v) t = Some (Some v)
          ∧ (active_only = true → ProductQueries.active v = 1))
  ∧ (∀ k r, Sql.rows t !! k = Some r →
            (active_only = true → ProductDB.active r = ProductDB.Integer 1) →
            ∃ v, v ∈ products ∧ ProductQueries.id v = k).
Proof.
  unfold ProductQueries.list_products. intros Hl%mapM_Some. split; [|split].
  - eapply Forall2_sorted_ids; [done|apply listed_sorted].
  - intros v Hv. destruct (Forall2_in_r _ _ _ _ Hl Hv) as ([k r] & Hin & Hview).
    apply elem_of_listed in Hin as [Hr Hact]. rewrite (to_view_id _ _ Hview). cbn.
    split.
    + unfold ProductQueries.get_product_by_id. by rewrite Hr, Hview.
    + intros Hb. by apply (is_active_view (k, r)); [apply Hact|].
  - intros k r Hr Hact.
    assert ((k, r) ∈ ProductQueries.listed active_only t) as Hin.
    { apply elem_of_listed. split; [done|]. intros Hb.
      unfold ProductQueries.is_active. by rewrite (Hact Hb). }
    destruct (Forall2_in_l _ _ _ _ Hl Hin) as (v & Hv & Hview).
    exists v. split; [done|]. by rewrite (to_view_id _ _ Hview).
Qed.

Lemma list_products_listing_witness :
  ∃ products, ProductQueries.list_products true first_catalog = Some products
              ∧ length products = 3%nat
              ∧ StronglySorted (λ v1 v2, ProductQueries.id v1 < ProductQueries.id v2)
                  products.
Proof.
  eexists. split; [vm_compute; reflexivity|]. split; [reflexivity|].
  refine (proj1 (list_products_listing true first_catalog _ _)).
  vm_compute. reflexivity.
Defined.

Section catalog.
Import ProductDB Sql.
Variable cv : conversions.
Implicit Types (t : table product) (r : product) (k : Z).

Lemma float_or_0_real (x : Py.float) :
  ProductQueries.float_or_0 (Real x)
  = Some (if Py.truthy (Py.Float x) then x else Py.zero).
Proof.
  unfold ProductQueries.float_or_0, ProductQueries.or_else. cbn [ProductQueries.to_py].
  by destruct (Py.truthy (Py.Float x)).
Qed.



(** [update_product] with the one field [active]. *)
Lemma update_active now k z t :
  update_product cv now k {[ "active"%string := Py.Int z ]} t
  = (Py.Ok true,
     match rows t !! k with
     | Some r => Table (<[k := set_active z now r]> (rows t)) (seq t)
     | None => t
     end).
Proof.
  unfold update_product.
  rewrite map_filter_singleton_True by (cbn; set_solver).
  rewrite bool_decide_false by (apply insert_non_empty).
  destruct (rows t !! k) as [r|]; [|done].
  assert (sets_null {[ "active"%string := Py.Int z ]} = false) as -> by done.
  assert (set_columns cv {[ "active"%string := Py.Int z ]} now r = set_active z now r)
    as ->; [|done].
  unfold set_columns, set_active.
  rewrite lookup_singleton_eq, !lookup_singleton_ne by done. done.
Qed.

Lemma to_view_set_active k now r v :
  ProductQueries.to_view (k, r) = Some v → ProductQueries.active v = 1 →
  ProductQueries.to_view (k, set_active 1 now r) = Some v.
Proof.
  unfold ProductQueries.to_view. cbn. intros Hv Ha.
  destruct (ProductQueries.float_or_0 (ProductDB.price r)); [|done].
  destruct (ProductQueries.float_or_0 (ProductDB.cost r)); [|done].
  destruct (ProductQueries.float_or_0 (ProductDB.tax_rate r)); [|done].
  cbn in Hv |- *.
  destruct (ProductQueries.to_int (ProductQueries.to_py (ProductDB.active r))); [|done].
  cbn in Hv. injection Hv as <-. cbn in Ha. by subst.
Qed.

Lemma to_view_set_active_0 k now r v :
  ProductQueries.to_view (k, r) = Some v →
  ∃ v', ProductQueries.to_view (k, set_active 0 now r) = Some v'
        ∧ ProductQueries.active v' = 0 ∧ ProductQueries.id v' = k
        ∧ ProductQueries.name v' = ProductQueries.name v
        ∧ ProductQueries.price v' = ProductQueries.price v.
Proof.
  unfold ProductQueries.to_view. cbn. intros Hv.
  destruct (ProductQueries.float_or_0 (ProductDB.price r)); [|done].
  destruct (ProductQueries.float_or_0 (ProductDB.cost r)); [|done].
  destruct (ProductQueries.float_or_0 (ProductDB.tax_rate r)); [|done].
  cbn in Hv |- *.
  destruct (ProductQueries.to_int (ProductQueries.to_py (ProductDB.active r))); [|done].
  cbn in Hv. injection Hv as <-. eexists. split; [reflexivity|done].
Qed.

(** The rows selected after row [k] has been overwritten. *)
Lemma listed_insert_hidden t k r r' :
  rows t !! k = Some r → ProductQueries.is_active r' = false →
  ProductQueries.listed true (Table (<[k := r']> (rows t)) (seq t))
  = filter (λ kr, kr.1 ≠ k) (ProductQueries.listed true t).
Proof.
  intros Hr Hact. unfold ProductQueries.listed. cbn [rows negb orb].
  rewrite (scan_insert_at _ _ _ r Hr).
  induction (scan (rows t)) as [|[j rj] l IH]; [done|]. csimpl.
  destruct (decide (j = k)) as [->|Hne].
  - rewrite filter_cons_False by (cbn [snd]; rewrite Hact; cbn; tauto). rewrite IH.
    destruct (ProductQueries.is_active rj) eqn:Hj.
    + rewrite (filter_cons_True _ (k, rj)) by (cbn [snd]; rewrite Hj; exact I).
      rewrite filter_cons_False; [done|]. cbn. auto.
    + rewrite (filter_cons_False _ (k, rj)); [done|]. cbn [snd]. rewrite Hj. cbn. tauto.
  - destruct (ProductQueries.is_active rj) eqn:Hj.
    + rewrite !(filter_cons_True _ (j, rj)) by (cbn [snd]; rewrite Hj; exact I).
      rewrite filter_cons_True by done. by rewrite IH.
    + rewrite !(filter_cons_False _ (j, rj)) by (cbn [snd]; rewrite Hj; cbn; tauto).
      done.
Qed.

Lemma listed_insert_kept t k r r' :
  rows t !! k = Some r →
  ProductQueries.is_active r = true → ProductQueries.is_active r' = true →
  ProductQueries.listed true (Table (<[k := r']> (rows t)) (seq t))
  = (λ kr, if decide (kr.1 = k) then (k, r') else kr) <$> ProductQueries.listed true t.
Proof.
  intros Hr Hact Hact'. unfold ProductQueries.listed. cbn [rows negb orb].
  rewrite (scan_insert_at _ _ _ r Hr).
  assert (∀ kr, kr ∈ scan (rows t) → kr.1 = k → kr = (k, r)) as Hk.
  { intros [j rj] Hin%elem_of_scan. cbn. intros ->. congruence. }
  revert Hk. generalize (scan (rows t)). intros l.
  induction l as [|[j rj] l IH]; intros Hk; [done|]. csimpl.
  assert (∀ kr, kr ∈ l → kr.1 = k → kr = (k, r)) as Hk'
    by (intros kr Hin; apply Hk; by right).
  specialize (IH Hk').
  destruct (decide (j = k)) as [->|Hne].
  - specialize (Hk (k, rj) ltac:(by left) eq_refl). injection Hk as ->.
    rewrite !filter_cons_True by (cbn [snd]; rewrite ?Hact, ?Hact'; exact I). csimpl.
    rewrite decide_True by done. by rewrite IH.
  - destruct (ProductQueries.is_active rj) eqn:Hj.
    + rewrite !filter_cons_True by (cbn [snd]; rewrite Hj; exact I). csimpl.
      rewrite decide_False by done. by rewrite IH.
    + rewrite !filter_cons_False by (cbn [snd]; rewrite Hj; cbn; tauto).
      done.
Qed.

Lemma Forall2_view_filter (l : list (Z * product)) (vs : list ProductQueries.view) k :
  Forall2 (λ kr v, ProductQueries.to_view kr = Some v) l vs →
  Forall2 (λ kr v, ProductQueries.to_view kr = Some v)
    (filter (λ kr, kr.1 ≠ k) l) (filter (λ v, ProductQueries.id v ≠ k) vs).
Proof.
  induction 1 as [|kr v l vs Hv Hall IH]; [constructor|].
  pose proof (to_view_id _ _ Hv) as Hid.
  destruct (decide (kr.1 = k)) as [Hk|Hk].
  - rewrite !filter_cons_False by (rewrite ?Hid; auto). done.
  - rewrite !filter_cons_True by (rewrite ?Hid; auto). by constructor.
Qed.
End catalog.




(** X17. [deactivate_product] on a product of the table returns true;
    afterwards [list_products], asked for the active products, returns what
    it returned before without that product, while [get_product_by_id] still
    finds it, with [active] 0 and the same name and price, and finds every
    other product as before. *)
Theorem deactivate_product_hides (cv : ProductDB.conversions) (now : string) (k : Z)
    (t : Sql.table ProductDB.product) (r : ProductDB.product)
    (products : list ProductQueries.view) :
  Sql.rows t !! k = Some r →
  ProductQueries.list_products true t = Some products →
  let t' := (ProductDB.deactivate_product cv now k t).2 in
  (ProductDB.deactivate_product cv now k t).1 = Py.Ok true
  ∧ ProductQueries.list_products true t'
    = Some (filter (λ v, ProductQueries.id v ≠ k) products)
  ∧ (∀ v, ProductQueries.get_product_by_id k t = Some (Some v) →
          ∃ v', ProductQueries.get_product_by_id k t' = Some (Some v')
                ∧ ProductQueries.active v' = 0 ∧ ProductQueries.id v' = k
                ∧ ProductQueries.name v' = ProductQueries.name v
                ∧ ProductQueries.price v' = ProductQueries.price v)
  ∧ (∀ j, j ≠ k →
          ProductQueries.get_product_by_id j t' = ProductQueries.get_product_by_id j t).
Proof.
  intros Hr Hl t'. unfold t', ProductDB.deactivate_product.
  rewrite update_active, Hr. cbn [fst snd]. split; [done|]. split; [|split].
  - unfold ProductQueries.list_products in Hl |- *.
    rewrite (listed_insert_hidden t k r) by done.
    apply mapM_Some, Forall2_view_filter. by apply mapM_Some.
  - intros v. unfold ProductQueries.get_product_by_id. cbn [Sql.rows].
    rewrite Hr, lookup_insert_eq.
    destruct (ProductQueries.to_view (k, r)) as [v0|] eqn:Hv; [|done].
    intros [= <-]. destruct (to_view_set_active_0 k now r v0 Hv) as (v' & Hv' & H').
    exists v'. by rewrite Hv'.
  - intros j Hj. unfold ProductQueries.get_product_by_id. cbn [Sql.rows].
    by rewrite lookup_insert_ne.
Qed.

Lemma deactivate_product_hides_witness :
  ∃ products,
    ProductQueries.list_products true first_catalog = Some products
    ∧ ProductQueries.list_products true
        (ProductDB.deactivate_product no_conversions noon 2 first_catalog).2
      = Some (filter (λ v, ProductQueries.id v ≠ 2) products).
Proof.
  assert (∃ r, Sql.rows first_catalog !! 2 = Some r) as [r Hr]
    by (vm_compute; eauto).
  exists (default [] (ProductQueries.list_products true first_catalog)).
  split; [vm_compute; reflexivity|].
  refine (proj1 (proj2 (deactivate_product_hides no_conversions noon 2 first_catalog r
                          _ Hr _))).
  vm_compute. reflexivity.
Defined.

(** X18. [activate_product] undoes [deactivate_product] for the listing:
    for a product that [list_products] listed as active, deactivating and
    then activating it gives back the same list. *)
Theorem activate_after_deactivate (cv : ProductDB.conversions) (now now2 : string)
    (k : Z) (t : Sql.table ProductDB.product) (products : list ProductQueries.view)
    (v : ProductQueries.view) :
  ProductQueries.list_products true t = Some products →
  v ∈ products → ProductQueries.id v = k →
  ProductQueries.list_products true
    (ProductDB.activate_product cv now2 k
       (ProductDB.deactivate_product cv now k t).2).2
  = Some products.
Proof.
  intros Hl Hv Hk. unfold ProductDB.activate_product, ProductDB.deactivate_product.
  unfold ProductQueries.list_products in Hl. apply mapM_Some in Hl.
  destruct (Forall2_in_r _ _ _ _ Hl Hv) as ([k' r] & Hin & Hview).
  pose proof (to_view_id _ _ Hview) as Hid. cbn in Hid. rewrite Hk in Hid. subst k'.
  apply elem_of_listed in Hin as [Hr Hact]. specialize (Hact eq_refl).
  rewrite !update_active, Hr. cbn [fst snd Sql.rows]. rewrite lookup_insert_eq.
  rewrite insert_insert_eq.
  unfold ProductQueries.list_products.
  rewrite (listed_insert_kept t k r) by done.
  apply mapM_Some, Forall2_fmap_in; [exact Hl|]. intros [j rj] vj Hinj Hvj. cbn.
  destruct (decide (j = k)) as [->|Hne]; [|done].
  apply elem_of_listed in Hinj as [Hrj Hactj]. assert (rj = r) as -> by congruence.
  change (set_active 1 now2 (set_active 0 now r)) with (set_active 1 now2 r).
  apply to_view_set_active; [done|]. by apply (is_active_view (k, r)).
Qed.

Lemma activate_after_deactivate_witness :
  ProductQueries.list_products true
    (ProductDB.activate_product no_conversions noon 2
       (ProductDB.deactivate_product no_conversions noon 2 first_catalog).2).2
  = ProductQueries.list_products true first_catalog.
Proof.
  assert (∃ v, default [] (ProductQueries.list_products true first_catalog) !! 1%nat
               = Some v ∧ ProductQueries.id v = 2) as (v & Hv & Hid)
    by (vm_compute; eauto).
  rewrite (activate_after_deactivate no_conversions noon noon 2 first_catalog
             (default [] (ProductQueries.list_products true first_catalog)) v).
  - vm_compute. reflexivity.
  - vm_compute. reflexivity.
  - by apply list_elem_of_lookup_2 in Hv.
  - exact Hid.
Defined.

(** ** The catalog a construction leaves *)

Section construction.
Import ProductDB Sql.
Variable cv : conversions.
Implicit Types (t : table product) (r : product) (k : Z).

Lemma store_real_numeric (v : Py.value) :
  not_text v → numeric (store cv REAL (bind_value v)).
Proof.
  destruct v as [|b|z|x|s]; [..|done]; intros _; cbn [bind_value store]; try done.
  destruct (Py.is_nan x); done.
Qed.

Lemma float_or_0_numeric (v : value) :
  numeric v → is_Some (ProductQueries.float_or_0 v).
Proof.
  destruct v as [|z|x|s]; [..|done]; intros _.
  - by eexists.
  - unfold ProductQueries.float_or_0, ProductQueries.or_else. cbn.
    destruct (negb _); by eexists.
  - rewrite float_or_0_real. by eexists.
Qed.

Lemma to_view_numeric k r z :
  numeric (price r) → numeric (cost r) → numeric (tax_rate r) →
  active r = Integer z → is_Some (ProductQueries.to_view (k, r)).
Proof.
  intros [p Hp]%float_or_0_numeric [c Hc]%float_or_0_numeric
    [x Hx]%float_or_0_numeric Ha.
  unfold ProductQueries.to_view. cbn [fst snd]. rewrite Hp, Hc, Hx, Ha. cbn.
  by eexists.
Qed.

(** A row [insert_product] writes for numbers given as numbers can be
    listed. *)
Lemma insert_product_listable n s c p co x u d f b cr up t t' :
  not_text p → not_text co → not_text x →
  insert_product cv n s c p co x u d f b cr up t = Py.Ok t' →
  ∃ r, t' = insert r t ∧ listable r.
Proof.
  intros Hp Hco Hx. unfold insert_product.
  destruct (not_null_ok _); [|done]. intros [= <-]. eexists. split; [reflexivity|].
  split; [done|]. intros k.
  apply (to_view_numeric _ _ 1); [by apply store_real_numeric ..|done].
Qed.

Lemma all_listable_insert r t : listable r → all_listable t → all_listable (insert r t).
Proof. intros Hr Ht. unfold all_listable. rewrite rows_insert. by apply map_Forall_insert_2. Qed.

Lemma rows_insert_non_empty r t : rows (insert r t) ≠ ∅.
Proof. rewrite rows_insert. apply insert_non_empty. Qed.

(** The loop over the seed file: it removes no row, reports a product
    seeded only when the table holds one, changes nothing otherwise, and
    writes rows that can be listed. *)
Lemma seed_from_csv_inv now records t seeded t1 seeded1 :
  seed_from_csv cv now records t seeded = (t1, seeded1) →
  (rows t ≠ ∅ → rows t1 ≠ ∅)
  ∧ (seeded = true → seeded1 = true)
  ∧ (seeded1 = true → seeded = true ∨ rows t1 ≠ ∅)
  ∧ (seeded1 = false → t1 = t)
  ∧ (all_listable t → all_listable t1).
Proof.
  revert t seeded. induction records as [|p ps IH]; intros t seeded.
  - intros [= <- <-]. auto.
  - rewrite seed_from_csv_cons. cbn zeta.
    destruct (negb _); [apply IH|].
    destruct (Py.to_float _) as [x|e]; cbn [mbind Py.result_bind].
    + destruct (insert_product _ _ _ _ _ _ _ _ _ _ _ _ _ _) as [t'|e] eqn:Hins.
      * eapply insert_product_listable in Hins as (r & -> & Hr); [|exact I ..].
        intros Hrec. destruct (IH _ _ Hrec) as (H1 & H2 & H3 & H4 & H5).
        specialize (H1 (rows_insert_non_empty r t)). specialize (H2 eq_refl).
        split; [done|]. split; [done|]. split; [auto|]. split; [congruence|].
        intros Ht. apply H5. by apply all_listable_insert.
      * intros [= <- <-]. auto.
    + intros [= <- <-]. auto.
Qed.

Lemma insert_product_int_ok n s c z co x u d f b cr up t :
  not_text co → not_text x →
  ∃ r, insert_product cv (Py.Str n) s c (Py.Int z) co x u d f b (Py.Str cr) (Py.Str up) t
       = Py.Ok (insert r t) ∧ listable r.
Proof.
  intros Hco Hx.
  destruct (insert_product cv (Py.Str n) s c (Py.Int z) co x u d f b (Py.Str cr)
              (Py.Str up) t) as [t'|e] eqn:Hins.
  - eapply insert_product_listable in Hins as (r & -> & Hr); [|done ..]. eauto.
  - exfalso. revert Hins. unfold insert_product, not_null_ok.
    cbn [name price active created_at updated_at bind_value store].
    by rewrite !bool_decide_true by done.
Qed.

(** The loop over the built-in samples returns, and leaves a row. *)
Lemma seed_samples_ok now t :
  ∃ t', seed_samples cv now samples t = Py.Ok t' ∧ rows t' ≠ ∅
        ∧ (all_listable t → all_listable t').
Proof.
  unfold samples. cbn [seed_samples].
  destruct (insert_product_int_ok "CRM Pro" (Py.Str "CRM-001") (Py.Str "CRM") 99
              (Py.Float Py.zero) (Py.Float Py.zero) (Py.Str "") (Py.Str "")
              (Py.Str "Contact management, email tracking, basic reporting")
              (Py.Str "Small teams") now now t I I) as (r1 & -> & H1).
  cbn [mbind Py.result_bind].
  destruct (insert_product_int_ok "Analytics Suite" (Py.Str "ANL-101") (Py.Str "Analytics")
              149 (Py.Float Py.zero) (Py.Float Py.zero) (Py.Str "") (Py.Str "")
              (Py.Str "Dashboards, predictive insights, custom reports")
              (Py.Str "Data teams") now now (insert r1 t) I I) as (r2 & -> & H2).
  cbn [mbind Py.result_bind].
  destruct (insert_product_int_ok "Marketing Tool" (Py.Str "MKT-201") (Py.Str "Marketing")
              79 (Py.Float Py.zero) (Py.Float Py.zero) (Py.Str "") (Py.Str "")
              (Py.Str "Email campaigns, social scheduling, A/B testing")
              (Py.Str "Marketing teams") now now (insert r2 (insert r1 t)) I I)
    as (r3 & -> & H3).
  cbn [mbind Py.result_bind mret Py.result_ret]. eexists. split; [reflexivity|].
  split; [apply rows_insert_non_empty|].
  intros Ht. by repeat apply all_listable_insert.
Qed.

(** [_seed_if_empty] returns, leaves a row, and leaves rows that can be
    listed when it started from such rows. *)
Lemma seed_if_empty_ok now f t :
  ∃ t1, _seed_if_empty cv now f t = (Py.Ok (), t1) ∧ rows t1 ≠ ∅
        ∧ (rows t ≠ ∅ → t1 = t) ∧ (all_listable t → all_listable t1).
Proof.
  unfold _seed_if_empty. case_bool_decide as Hsz.
  - exists t. split; [done|]. split; [|done].
    apply map_size_non_empty_iff. lia.
  - assert (rows t = ∅) as Hempty.
    { destruct (decide (rows t = ∅)) as [|Hne%map_size_non_empty_iff]; [done|lia]. }
    assert (∀ t0 seeded0,
              (seeded0 = true → rows t0 ≠ ∅) → (seeded0 = false → t0 = t) →
              (all_listable t → all_listable t0) →
              ∃ t1, (let '(t1, seeded) := (t0, seeded0) in
                     if seeded then (Py.Ok (), t1)
                     else match seed_samples cv now samples t1 with
                          | Py.Ok t2 => (Py.Ok (), t2)
                          | Py.Raise e => (Py.Raise e, t)
                          end) = (Py.Ok (), t1)
                    ∧ rows t1 ≠ ∅ ∧ (rows t ≠ ∅ → t1 = t)
                    ∧ (all_listable t → all_listable t1)) as Hgen.
    { intros t0 [|] Ht Hf Hl.
      - exists t0. split; [done|]. split; [auto|]. split; [done|done].
      - rewrite (Hf eq_refl).
        destruct (seed_samples_ok now t) as (t2 & -> & Hne & Hl2).
        exists t2. split; [done|]. split; [done|]. split; [done|done]. }
    destruct f as [[records|]|]; [|by apply (Hgen t false) ..].
    destruct (seed_from_csv cv now records t false) as [t0 seeded0] eqn:Hseed.
    destruct (seed_from_csv_inv _ _ _ _ _ _ Hseed) as (_ & _ & H3 & H4 & H5).
    apply (Hgen t0 seeded0); [|done|done]. intros Hs. by destruct (H3 Hs).
Qed.
End construction.

(** X19. A construction of [ProductDB] always returns; it leaves the seed
    file in place and at least one product in the table, leaves a table
    that has a product as it is, and so a second construction changes
    nothing. *)
Theorem product_construction_idempotent (cv : ProductDB.conversions) (now : string)
    (products_file : option DataFiles.file) (t : Sql.table ProductDB.product) :
  ∃ f1 t1,
    ProductDB.init cv now products_file t = (Some f1, (Py.Ok (), t1))
    ∧ Sql.rows t1 ≠ ∅
    ∧ (Sql.rows t ≠ ∅ → t1 = t)
    ∧ ∀ now2, ProductDB.init cv now2 (Some f1) t1 = (Some f1, (Py.Ok (), t1)).
Proof.
  unfold ProductDB.init.
  assert (∃ f1, DataFiles.ensure_data_files products_file = Some f1) as [f1 Hf].
  { destruct products_file; by eexists. }
  rewrite Hf.
  destruct (seed_if_empty_ok cv now (Some f1) t) as (t1 & Hseed & Hne & Hkeep & _).
  exists f1, t1. rewrite Hseed. split; [done|]. split; [done|]. split; [done|].
  intros now2. cbn [DataFiles.ensure_data_files].
  destruct (seed_if_empty_ok cv now2 (Some f1) t1) as (t2 & -> & _ & Hkeep2 & _).
  by rewrite (Hkeep2 Hne).
Qed.

(** X20. After a construction of [ProductDB] on an empty table, whatever
    the seed file holds, [list_products] returns, for the active products as
    for all of them, every product of the table, and there is one at least. *)
Theorem constructed_catalog_listed (cv : ProductDB.conversions) (now : string)
    (products_file : option DataFiles.file) (t : Sql.table ProductDB.product)
    (active_only : bool) :
  Sql.rows t = ∅ →
  let t1 := (ProductDB.init cv now products_file t).2.2 in
  ∃ products,
    ProductQueries.list_products active_only t1 = Some products
    ∧ length products = size (Sql.rows t1)
    ∧ (0 < length products)%nat
    ∧ ∀ k, k ∈ dom (Sql.rows t1) ↔ ∃ v, v ∈ products ∧ ProductQueries.id v = k.
Proof.
  intros Hempty t1. unfold t1, ProductDB.init. cbn [snd].
  destruct (seed_if_empty_ok cv now (DataFiles.ensure_data_files products_file) t)
    as (t2 & -> & Hne & _ & Hl). cbn [snd]. clear t1.
  assert (all_listable t2) as Hall.
  { apply Hl. unfold all_listable. rewrite Hempty. apply map_Forall_empty. }
  assert (ProductQueries.listed active_only t2 = Sql.scan (Sql.rows t2)) as Hlisted.
  { unfold ProductQueries.listed. apply filter_every. intros [k r] Hin%elem_of_scan.
    destruct (Hall k r Hin) as [Hact _]. cbn. rewrite Hact. by destruct active_only. }
  assert (is_Some (ProductQueries.list_products active_only t2)) as [products Hp].
  { unfold ProductQueries.list_products. rewrite Hlisted. apply mapM_is_Some.
    apply Forall_forall. intros [k r] Hin%elem_of_scan. apply (Hall k r Hin). }
  exists products. split; [done|].
  unfold ProductQueries.list_products in Hp. rewrite Hlisted in Hp.
  apply mapM_Some in Hp.
  assert (length products = size (Sql.rows t2)) as Hlen.
  { by rewrite <-(Forall2_length _ _ _ Hp), length_scan. }
  split; [done|]. split.
  - rewrite Hlen. apply map_size_non_empty_iff in Hne. lia.
  - intros k. rewrite elem_of_dom. split.
    + intros [r Hr]. apply elem_of_scan in Hr.
      destruct (Forall2_in_l _ _ _ _ Hp Hr) as (v & Hv & Hview).
      exists v. split; [done|]. by rewrite (to_view_id _ _ Hview).
    + intros (v & Hv & <-). destruct (Forall2_in_r _ _ _ _ Hp Hv) as ([j r] & Hin & Hview).
      rewrite (to_view_id _ _ Hview). cbn. exists r. by apply elem_of_scan.
Qed.

Lemma constructed_catalog_listed_witness :
  ∃ products,
    ProductQueries.list_products true
      (ProductDB.init no_conversions noon
         (Some (DataFiles.Csv [DataFiles.record "Helpdesk" "49.5" "Ticketing" "Support"]))
         empty_products).2.2 = Some products
    ∧ length products = 1%nat.
Proof.
  destruct (constructed_catalog_listed no_conversions noon
              (Some (DataFiles.Csv [DataFiles.record "Helpdesk" "49.5" "Ticketing" "Support"]))
              empty_products true eq_refl) as (products & Hp & Hlen & _).
  exists products. split; [exact Hp|]. rewrite Hlen. vm_compute. reflexivity.
Defined.

(** ** The LLM client and the monitor *)


(** X22. The summary [generate_daily_report] prints is the text
    [complete] returns when it returns one, and otherwise the fixed text
    chosen by comparing the day's count with [DAILY_SALES_TARGET]; a text
    that [complete] returns is never empty, so the report never falls back
    on one. *)
Theorem generate_daily_report_summary (sql_date : string → option string)
    (summary_text : Sql.table PurchaseDB.purchase → PurchaseDB.summary → string)
    (post : string → string → LLMClient.reply) (cfg : Config)
    (m : SalesMonitor.monitor) (today_label : string) :
  let summary := PurchaseDB.get_daily_summary sql_date (SalesMonitor.db m) today_label in
  let reply := (LLMClient.complete post (SalesMonitor.llm m) SalesMonitor.system_prompt
                  (summary_text (SalesMonitor.db m) summary)).1 in
  SalesMonitor.generate_daily_report sql_date summary_text post cfg m today_label
  = default (if PurchaseDB.count summary <? DAILY_SALES_TARGET cfg
             then SalesMonitor.below_target else SalesMonitor.on_track) reply
  ∧ reply ≠ Some EmptyString.
Proof.
  intros summary reply. unfold SalesMonitor.generate_daily_report. fold summary. fold reply.
  assert (reply ≠ Some EmptyString) as Hne.
  { unfold reply, LLMClient.complete.
    destruct (negb _); [done|]. destruct (String.eqb _ _); [|done].
    destruct (post _ _) as [exc| |raw]; [done..|]. cbn [fst].
    destruct (Py.truthy (Py.Str (Py.strip raw))) eqn:Hs; [|done].
    apply truthy_str in Hs. congruence. }
  split; [|done]. destruct reply as [s|]; [|done]. cbn [default].
  destruct (Py.truthy (Py.Str s)) eqn:Hs; [done|]. exfalso. apply Hne. f_equal.
  destruct (decide (s = EmptyString)) as [|Hs'%truthy_str]; [done|congruence].
Qed.

(** X23. [check_alerts] returns no alert exactly when the count is not 0
    and not below [LOW_SALES_THRESHOLD]; the no-sales alert when the count
    is 0; the threshold alert, carrying the count and the threshold, when
    the count is below the threshold. With a positive threshold a count of
    0 raises both, the no-sales alert first. *)
Theorem check_alerts_cases (cfg : Config) (today_count : Z) :
  let alerts := SalesMonitor.check_alerts cfg today_count in
  (alerts = [] ↔ today_count ≠ 0 ∧ LOW_SALES_THRESHOLD cfg ≤ today_count)
  ∧ (SalesMonitor.NoSales ∈ alerts ↔ today_count = 0)
  ∧ (∀ n limit, SalesMonitor.BelowThreshold n limit ∈ alerts
                ↔ n = today_count ∧ limit = LOW_SALES_THRESHOLD cfg
                  ∧ today_count < LOW_SALES_THRESHOLD cfg)
  ∧ (today_count = 0 ∧ 0 < LOW_SALES_THRESHOLD cfg
     ↔ alerts = [SalesMonitor.NoSales;
                 SalesMonitor.BelowThreshold 0 (LOW_SALES_THRESHOLD cfg)]).
Proof.
  intros alerts. unfold alerts, SalesMonitor.check_alerts.
  destruct (Z.eqb_spec today_count 0) as [H0|H0];
    destruct (Z.ltb_spec today_count (LOW_SALES_THRESHOLD cfg)) as [Hlt|Hlt]; cbn.
  - split; [split; [done|lia]|]. split; [split; [done|set_solver]|]. split.
    + intros n limit. rewrite !elem_of_cons, elem_of_nil. split.
      * intros [|[[= -> ->]|[]]]; done.
      * intros (-> & -> & _). by right; left.
    + split; [intros _; by rewrite H0|]. intros _. split; [done|lia].
  - split; [split; [done|lia]|]. split; [split; [done|set_solver]|]. split.
    + intros n limit. rewrite !elem_of_cons, elem_of_nil. split.
      * intros [|[]]; done.
      * intros (_ & _ & ?). lia.
    + split; [lia|done].
  - split; [split; [done|lia]|]. split; [split; [|done]|].
    { rewrite !elem_of_cons, elem_of_nil. intros [|[]]; done. }
    split.
    + intros n limit. rewrite !elem_of_cons, elem_of_nil. split.
      * intros [[= -> ->]|[]]; done.
      * intros (-> & -> & _). by left.
    + split; [lia|done].
  - split; [done|]. split; [split; [|done]|].
    { by intros ?%elem_of_nil. }
    split.
    + intros n limit. rewrite elem_of_nil. split; [done|]. intros (_ & _ & ?). lia.
    + split; [lia|done].
Qed.

(** ** The table printer *)

Section ui.
Context {char V : Type}.
Variables (dot space bar dash : char).
Variable _stringify : V → list char.
Variable no_data : list char.
Implicit Types (text : list char) (widths : list nat) (texts : list (list char)).

Lemma length_ljust width text :
  (length text ≤ width)%nat → length (Ui.ljust space width text) = width.
Proof. intros H. unfold Ui.ljust. rewrite length_app, length_replicate. lia. Qed.

Lemma length_join sep texts :
  length (Ui.join sep texts)
  = (sum_list (length <$> texts) + length sep * (length texts - 1))%nat.
Proof.
  induction texts as [|x [|y rest] IH]; [cbn; lia ..|].
  change (Ui.join sep (x :: y :: rest)) with (x ++ sep ++ Ui.join sep (y :: rest)).
  rewrite !length_app, IH. cbn [fmap list_fmap sum_list sum_list_with length].
  rewrite !Nat.sub_succ, !Nat.sub_0_r, (Nat.mul_succ_r (length sep)). unfold id. lia.
Qed.

(** A line of cells that fit their columns is as long as the columns are
    wide, separators included. *)
Lemma length_line widths texts :
  Forall2 (λ w x, (length x ≤ w)%nat) widths texts →
  length (Ui.line space bar widths texts)
  = (sum_list widths + 3 * (length widths - 1))%nat.
Proof.
  intros Hfit. unfold Ui.line. rewrite length_join.
  assert (length <$> zip_with (Ui.ljust space) widths texts = widths) as ->.
  { induction Hfit as [|w x widths texts Hx Hfit IH]; [done|]. csimpl.
    by rewrite length_ljust, IH. }
  rewrite length_zip_with, <-(Forall2_length _ _ _ Hfit). cbn. lia.
Qed.

Lemma foldl_max_init {B} (f : B → nat) (l : list B) (n : nat) :
  (n ≤ foldl (λ w x, w `max` f x) n l)%nat.
Proof.
  revert n. induction l as [|x l IH]; intros n; [done|]. cbn.
  etrans; [|apply IH]. lia.
Qed.

Lemma foldl_max_elem {B} (f : B → nat) (l : list B) (n : nat) (x : B) :
  x ∈ l → (f x ≤ foldl (λ w x, w `max` f x) n l)%nat.
Proof.
  revert n. induction l as [|y l IH]; intros n; [by intros ?%elem_of_nil|].
  intros [->|Hx]%elem_of_cons; cbn.
  - etrans; [|apply foldl_max_init]. lia.
  - by apply IH.
Qed.
End ui.

(** X24. [_truncate] leaves a text that fits as it is; for a width that is
    not negative it returns a text of the smaller of the two lengths, and
    for a width above 3 a cut text ends in three dots after the first
    [max_width - 3] characters. A negative width cuts that many characters
    off the end instead. *)
Theorem truncate_width {char : Type} (dot : char) (text : list char) (w : Z) :
  let out := Ui._truncate dot text (Some w) in
  (Z.of_nat (length text) ≤ w → out = text)
  ∧ (0 ≤ w → Z.of_nat (length out) = Z.of_nat (length text) `min` w)
  ∧ (3 < w < Z.of_nat (length text) →
     out = take (Z.to_nat (w - 3)) text ++ [dot; dot; dot])
  ∧ (w < 0 → out = take (length text - Z.to_nat (- w)) text).
Proof.
  intros out. unfold out, Ui._truncate, Ui.slice_to.
  destruct (Z.leb_spec (Z.of_nat (length text)) w) as [Hfit|Hcut].
  { split; [done|]. split; [lia|]. split; [lia|]. intros Hneg.
    assert (length text = 0%nat) as ->%nil_length_inv by lia. done. }
  split; [lia|]. destruct (Z.leb_spec w 3) as [H3|H3].
  - destruct (Z.leb_spec 0 w) as [H0|H0].
    + split; [|split; [lia|lia]]. intros _. rewrite length_take. lia.
    + split; [lia|]. split; [lia|done].
  - rewrite (proj2 (Z.leb_le 0 (w - 3))) by lia. split; [|split; [done|lia]].
    intros _. rewrite length_app, length_take. cbn. lia.
Qed.

(** X25. For rows to print, [print_table] prints the title if there is
    one, a header, a rule as long as the header, and one line per row, each
    as long as the header: every cell is padded to the width of its column,
    the widest of its label and its cells. Without rows it prints the
    title and the no-data text. *)
Theorem print_table_aligned {char V : Type} (dot space bar dash : char)
    (_stringify : V → list char) (no_data : list char)
    (rows : list (gmap string V)) (columns : list (string * list char))
    (title : option (list char)) (max_width : option Z) :
  let printed := Ui.print_table dot space bar dash _stringify no_data rows columns
                   title max_width in
  let titled := match title with Some (c :: s) => [c :: s] | _ => [] end in
  (rows = [] → printed = titled ++ [no_data])
  ∧ (rows ≠ [] →
     ∃ header body,
       printed = titled ++ header :: replicate (length header) dash :: body
       ∧ length body = length rows
       ∧ Forall (λ line, length line = length header) body).
Proof.
  intros printed titled. unfold printed, Ui.print_table. fold titled.
  split; [by intros ->|]. intros Hrows.
  set (widths := Ui.column_width dot _stringify max_width rows <$> columns).
  set (header := Ui.line space bar widths columns.*2).
  set (body := (λ row, Ui.line space bar widths
                         ((λ c, Ui.cell dot _stringify max_width row c.1) <$> columns))
               <$> rows).
  exists header, body. split; [by destruct rows|]. split; [apply length_fmap|].
  assert (length header = (sum_list widths + 3 * (length widths - 1))%nat) as ->.
  { apply length_line. unfold widths. apply Forall2_fmap, Forall_Forall2_diag.
    apply Forall_forall. intros [key label] _. cbn. unfold Ui.column_width.
    apply (foldl_max_init (λ row, length (Ui.cell dot _stringify max_width row key))). }
  apply Forall_forall. intros l (row & -> & Hrow)%list_elem_of_fmap.
  apply length_line. unfold widths. apply Forall2_fmap, Forall_Forall2_diag.
  apply Forall_forall. intros [key label] _. cbn. unfold Ui.column_width.
  by apply (foldl_max_elem (λ row, length (Ui.cell dot _stringify max_width row key))).
Qed.

Lemma print_table_aligned_witness :
  ∃ header body,
    Ui.print_table "."%char " "%char "|"%char "-"%char
      (λ s : string, list_ascii_of_string s) (list_ascii_of_string "No data.")
      [ {[ "name"%string := "CRM Pro"%string ]};
        {[ "name"%string := "Analytics Suite"%string ]} ]
      [ ("name"%string, list_ascii_of_string "Name");
        ("sku"%string, list_ascii_of_string "SKU") ]
      None (Some 10)
    = header :: replicate (length header) "-"%char :: body
    ∧ length body = 2%nat
    ∧ Forall (λ line, length line = length header) body.
Proof.
  refine (proj2 (print_table_aligned "."%char " "%char "|"%char "-"%char
                   (λ s : string, list_ascii_of_string s)
                   (list_ascii_of_string "No data.")
                   [ {[ "name"%string := "CRM Pro"%string ]};
                     {[ "name"%string := "Analytics Suite"%string ]} ]
                   [ ("name"%string, list_ascii_of_string "Name");
                     ("sku"%string, list_ascii_of_string "SKU") ]
                   None (Some 10)) _).
  discriminate.
Defined.

(** ** The product a fallback answer recommends *)

Section choose.
Context {product : Type}.
Variable score : product → nat.
Variable price : product → Py.value.
Implicit Types (p q : product) (l products : list product).



End choose.


(** X27. [export_purchases_csv] returns false, and writes no file,
    exactly when the table is empty or the limit is 0; otherwise it returns
    true and writes what [get_last_purchases] returns for that limit. *)
Theorem export_purchases_csv_result (cfg : Config) (limit : option Z)
    (t : Sql.table PurchaseDB.purchase) :
  ((export_purchases_csv cfg limit t).1 = false
   ↔ Sql.rows t = ∅ ∨ default (MAX_RECENT_PURCHASES cfg) limit = 0)
  ∧ ((export_purchases_csv cfg limit t).1 = false
     ↔ (export_purchases_csv cfg limit t).2 = None)
  ∧ ((export_purchases_csv cfg limit t).1 = true
     ↔ (export_purchases_csv cfg limit t).2
       = Some (PurchaseQueries.get_last_purchases cfg limit t)).
Proof.
  unfold export_purchases_csv.
  assert (PurchaseQueries.get_last_purchases cfg limit t = []
          ↔ Sql.rows t = ∅ ∨ default (MAX_RECENT_PURCHASES cfg) limit = 0) as Hnil.
  { rewrite <-length_zero_iff_nil.
    unfold PurchaseQueries.get_last_purchases.
    rewrite select_desc_all, length_fmap, length_limit, length_scan_desc.
    rewrite <-(map_size_empty_iff (Sql.rows t)).
    destruct (Z.ltb_spec (default (MAX_RECENT_PURCHASES cfg) limit) 0); lia. }
  destruct (PurchaseQueries.get_last_purchases cfg limit t) as [|v l]; cbn [fst snd].
  - split; [|done]. split; [intros _; by apply Hnil|done].
  - split; [|done]. split; [done|]. intros H%Hnil. done.
Qed.
